(** * Junos provider core: codecs, interface lifecycle classifier,
      aggregated-interface allocator and transaction sequencing.

    Shallow embedding of [junos/resource_interface_physical.go] and of the
    UTM policy resource ([resourceSecurityUtmPolicy...], [setUtmPolicy],
    [readUtmPolicy]).  Go strings are byte strings ([string]); Go [int] is
    a 64-bit signed integer carried in [Z]; the device session is an
    explicit state threaded through a small state-and-error monad. *)

From Stdlib Require Import ZArith String Ascii List Bool Lia.
Import ListNotations.
Local Open Scope string_scope.
Local Open Scope Z_scope.

(* ===================================================================== *)
(** ** Go runtime: package [strings] on byte strings                      *)
(* ===================================================================== *)

Module GoStrings.

(** The line feed, the only separator the sources split on. *)
Definition LF : ascii := "010"%char.
Definition quote : ascii := "034"%char.

(** [strings.CutPrefix]: the rest of [s] after [p], when [s] starts by [p]. *)
Fixpoint cutPrefix (p s : string) : option string :=
  match p with
  | EmptyString => Some s
  | String a p' =>
      match s with
      | EmptyString => None
      | String b s' => if Ascii.eqb a b then cutPrefix p' s' else None
      end
  end.

(** [strings.HasPrefix(s, p)]. *)
Definition HasPrefix (s p : string) : bool :=
  match cutPrefix p s with Some _ => true | None => false end.

(** [strings.TrimPrefix(s, p)]: [s] itself when [p] is no prefix. *)
Definition TrimPrefix (s p : string) : string :=
  match cutPrefix p s with Some r => r | None => s end.

(** [strings.HasSuffix(s, suf)]: [suf] is [s] or a suffix of its tail. *)
Fixpoint HasSuffix (s suf : string) : bool :=
  String.eqb s suf ||
  match s with
  | EmptyString => false
  | String _ s' => HasSuffix s' suf
  end.

(** [strings.Contains(s, sub)]. *)
Fixpoint Contains (s sub : string) : bool :=
  HasPrefix s sub ||
  match s with
  | EmptyString => false
  | String _ s' => Contains s' sub
  end.

(** [strings.Split] on the line feed: always at least one piece. *)
Fixpoint SplitLF (s : string) : list string :=
  match s with
  | EmptyString => [EmptyString]
  | String c s' =>
      if Ascii.eqb c LF then EmptyString :: SplitLF s'
      else match SplitLF s' with
           | l :: ls => String c l :: ls
           | [] => [String c EmptyString]
           end
  end.

(** [strings.Join] with the line feed. *)
Definition JoinLF (l : list string) : string :=
  String.concat (String LF EmptyString) l.

(** [strings.TrimLeft] and [strings.TrimRight] for a one-byte cutset. *)
Fixpoint trimLeftByte (c : ascii) (s : string) : string :=
  match s with
  | EmptyString => EmptyString
  | String a s' => if Ascii.eqb a c then trimLeftByte c s' else s
  end.

Fixpoint trimRightByte (c : ascii) (s : string) : string :=
  match s with
  | EmptyString => EmptyString
  | String a s' =>
      match trimRightByte c s' with
      | EmptyString => if Ascii.eqb a c then EmptyString else String a EmptyString
      | r => String a r
      end
  end.

(** [strings.Trim] with the double quote as its cutset. *)
Definition TrimQuote (s : string) : string :=
  trimLeftByte quote (trimRightByte quote s).

(** ASCII white space of [unicode.IsSpace]: tab, LF, VT, FF, CR, space. *)
Definition isSpace (c : ascii) : bool :=
  let n := nat_of_ascii c in
  (Nat.leb 9 n && Nat.leb n 13) || Nat.eqb n 32.

(** [strings.Fields]: the maximal runs of bytes that are not white space. *)
Fixpoint Fields (s : string) : list string :=
  match s with
  | EmptyString => []
  | String c s' =>
      if isSpace c then Fields s'
      else match s' with
           | EmptyString => [String c EmptyString]
           | String c' _ =>
               if isSpace c' then String c EmptyString :: Fields s'
               else match Fields s' with
                    | w :: ws => String c w :: ws
                    | [] => [String c EmptyString]
                    end
           end
  end.

(** [strings.IndexByte(s, c) < 0]: the byte does not occur. *)
Fixpoint noByte (c : ascii) (s : string) : bool :=
  match s with
  | EmptyString => true
  | String a s' => negb (Ascii.eqb a c) && noByte c s'
  end.

Definition isDigit (c : ascii) : bool :=
  let n := nat_of_ascii c in Nat.leb 48 n && Nat.leb n 57.

Fixpoint allDigits (s : string) : bool :=
  match s with
  | EmptyString => true
  | String c s' => isDigit c && allDigits s'
  end.

(** One digit or more, to the end of the text: [\d+$]. *)
Definition digits1 (s : string) : bool :=
  match s with EmptyString => false | _ => allDigits s end.

End GoStrings.
Export GoStrings.

(* ===================================================================== *)
(** ** Go runtime: errors and [strconv]                                   *)
(* ===================================================================== *)

Inductive numErrKind := ErrSyntax | ErrRange.

(** Go [error] values as the sources build them. *)
Inductive error :=
| ErrTransport (msg : string)                   (* failure of the collaborator *)
| ErrNum (fn num : string) (k : numErrKind)     (* *strconv.NumError *)
| ErrMsg (msg : string)                         (* fmt.Errorf, no %w *)
| ErrWrap (msg : string) (inner : error).       (* fmt.Errorf with %w *)

Inductive result (A : Type) :=
| Ok (a : A)
| Err (e : error).
Arguments Ok {A} a.
Arguments Err {A} e.

Definition isErr {A} (r : result A) : bool :=
  match r with Ok _ => false | Err _ => true end.

Definition minInt : Z := - 2 ^ 63.
Definition maxInt : Z := 2 ^ 63 - 1.

(** Go [int] arithmetic wraps around on 64 bits. *)
Definition wrapInt (z : Z) : Z := (z + 2 ^ 63) mod 2 ^ 64 - 2 ^ 63.

(** The value of a decimal digit byte, and the byte of a digit. *)
Definition digitVal (c : ascii) : Z := Z.of_nat (nat_of_ascii c) - 48.
Definition digitChar (d : Z) : ascii := ascii_of_nat (Z.to_nat (48 + d)).

(** The digit loop of [strconv.Atoi]: [n = n*10 + int(ch - '0')], and a
    syntax error on any other byte. *)
Fixpoint parseDigits (acc : Z) (s : string) : option Z :=
  match s with
  | EmptyString => Some acc
  | String c s' =>
      if isDigit c then parseDigits (10 * acc + digitVal c) s' else None
  end.

(** [strconv.Atoi]: optional sign, one decimal digit or more, 64-bit range. *)
Definition Atoi (s : string) : result Z :=
  match s with
  | EmptyString => Err (ErrNum "Atoi" s ErrSyntax)
  | String c s' =>
      let neg := Ascii.eqb c "-" in
      let body := if neg || Ascii.eqb c "+" then s' else s in
      match body with
      | EmptyString => Err (ErrNum "Atoi" s ErrSyntax)
      | _ =>
          match parseDigits 0 body with
          | None => Err (ErrNum "Atoi" s ErrSyntax)
          | Some n =>
              let v := if neg then - n else n in
              if (minInt <=? v) && (v <=? maxInt) then Ok v
              else Err (ErrNum "Atoi" s ErrRange)
          end
      end
  end.

(** The decimal digits of a natural number, most significant first; the
    fuel is the binary size of the number, which bounds the decimal one. *)
Fixpoint digitsOf (fuel : nat) (n : Z) : string :=
  match fuel with
  | O => EmptyString
  | S f =>
      if n <? 10 then String (digitChar n) EmptyString
      else digitsOf f (n / 10) ++ String (digitChar (n mod 10)) EmptyString
  end.

Definition uDigits (n : Z) : string := digitsOf (S (Z.to_nat (Z.log2 n))) n.

(** [strconv.Itoa]. *)
Definition Itoa (z : Z) : string :=
  if z <? 0 then String "-" (uDigits (- z)) else uDigits z.

(** Go [a < b] on strings: bytewise lexicographic. *)
Fixpoint ltString (a b : string) : bool :=
  match a, b with
  | _, EmptyString => false
  | EmptyString, String _ _ => true
  | String x a', String y b' =>
      if Nat.ltb (nat_of_ascii x) (nat_of_ascii y) then true
      else if Nat.ltb (nat_of_ascii y) (nat_of_ascii x) then false
      else ltString a' b'
  end.

(* ===================================================================== *)
(** ** Constants and helpers declared elsewhere in the package            *)
(* ===================================================================== *)

(** Modelled from the spec: the constant [emptyWord] is declared outside the
    two source files; the spec calls it the defined "empty" sentinel value,
    the dump of a path that holds no statement. *)
Definition emptyWord : string := "empty".

(** Modelled from the spec: the constant [setLineStart] is declared outside
    the two source files; it is the statement prefix ("set ", the action
    word of a ConfigStatement followed by the blank) that the decoders
    strip from each dumped line. *)
Definition setLineStart : string := "set ".

(** Modelled from the spec: the type [sortStringsLength] and its [Less] are
    declared outside the two source files.  The spec has the names sorted
    numerically so that the greatest index is the one read; the type sorts
    strings by length first and bytewise among strings of one length,
    which is the numeric order on decimal indices without leading zeros. *)
Definition lessLength (a b : string) : bool :=
  if Nat.ltb (String.length a) (String.length b) then true
  else if Nat.ltb (String.length b) (String.length a) then false
  else ltString a b.

Fixpoint insertLength (x : string) (l : list string) : list string :=
  match l with
  | [] => [x]
  | y :: l' => if lessLength y x then y :: insertLength x l' else x :: l
  end.

Definition sortStringsLength (l : list string) : list string :=
  fold_right insertLength [] l.

(** Go [append(configSet, x)]. *)
Definition append (configSet : list string) (x : string) : list string :=
  app configSet [x].

(** The double quote as a one-byte string, for the quoted values. *)
Definition dq : string := String quote EmptyString.

(* ===================================================================== *)
(** ** The three regular expressions of the interface resource            *)
(* ===================================================================== *)

(** [regexp.MustCompile(`ether-options 802\.3ad ae\d+$`).MatchString]:
    somewhere in the line the literal starts, and digits run to the end. *)
Fixpoint regexpAEchild (line : string) : bool :=
  match cutPrefix "ether-options 802.3ad ae" line with
  | Some r => digits1 r
  | None => false
  end ||
  match line with
  | EmptyString => false
  | String _ l' => regexpAEchild l'
  end.

(** After [^set ae]: one digit or more, then a blank. *)
Fixpoint digitsThenBlank (seen : bool) (s : string) : bool :=
  match s with
  | EmptyString => false
  | String c s' =>
      if isDigit c then digitsThenBlank true s'
      else Ascii.eqb c " " && seen
  end.

(** [regexp.MustCompile(`^set ae\d+ `).MatchString]. *)
Definition regexpAEparent (line : string) : bool :=
  match cutPrefix "set ae" line with
  | Some r => digitsThenBlank false r
  | None => false
  end.

(** The class [[\d\w]]: ASCII letters, digits and the underscore. *)
Definition isWord (c : ascii) : bool :=
  let n := nat_of_ascii c in
  isDigit c || (Nat.leb 65 n && Nat.leb n 90) || (Nat.leb 97 n && Nat.leb n 122)
  || Nat.eqb n 95.

(** [n] times two word bytes and a colon, then two word bytes. *)
Fixpoint esiGroups (n : nat) (s : string) : bool :=
  match s with
  | String a (String b r) =>
      isWord a && isWord b &&
      match n with
      | O => true
      | S n' => match r with
                | String c r' => Ascii.eqb c ":" && esiGroups n' r'
                | EmptyString => false
                end
      end
  | _ => false
  end.

(** [regexp.MatchString(`^([\d\w]{2}:){9}[\d\w]{2}`, s)]. *)
Definition regexpEsiIdentifier (s : string) : bool := esiGroups 9 s.

(* ===================================================================== *)
(** ** The device session                                                 *)
(* ===================================================================== *)

(** What the collaborator answers.  Every call to the device consumes one
    tick, and the answer may depend on the tick, so that any call may fail
    at any moment and a query may change its answer after a commit. *)
Record Session := {
  junosGroupIntDel : string;
  compatibleSecurity : bool;
  platformModel : string;
  startNewSessionReply : nat -> option error;
  configLockReply : nat -> option error;
  commandReply : nat -> string -> result string;
  commandXMLReply : nat -> string -> result string;
  configSetReply : nat -> list string -> option error;
  commitConfReply : nat -> string -> list error * option error
}.

(** The NETCONF session as the code sees it: the staged (uncommitted)
    statements, the edit sets committed so far, and counters of the
    transaction primitives invoked. *)
Record NetconfObject := {
  tick : nat;
  staged : list string;
  commits : list (list string);
  locks : nat;
  discards : nat;
  resourceId : option string
}.

Definition newNetconf : NetconfObject :=
  {| tick := 0; staged := []; commits := []; locks := 0; discards := 0;
     resourceId := None |}.

Definition St (A : Type) : Type := NetconfObject -> A * NetconfObject.

Definition ret {A} (a : A) : St A := fun j => (a, j).
Definition bind {A B} (c : St A) (k : A -> St B) : St B :=
  fun j => let (a, j') := c j in k a j'.

Declare Scope st_scope.
Delimit Scope st_scope with st.
Notation "x <- c ;; k" := (bind c (fun x => k))
  (at level 61, c at next level, right associativity) : st_scope.
Notation "c ;;; k" := (bind c (fun _ => k))
  (at level 61, right associativity) : st_scope.
Local Open Scope st_scope.

Definition nextTick (j : NetconfObject) : NetconfObject :=
  {| tick := S (tick j); staged := staged j; commits := commits j;
     locks := locks j; discards := discards j; resourceId := resourceId j |}.

Definition startNewSession (sess : Session) : St (option error) :=
  fun j => (startNewSessionReply sess (tick j), nextTick j).

Definition configLock (sess : Session) : St (option error) :=
  fun j =>
    match configLockReply sess (tick j) with
    | None =>
        (None, {| tick := S (tick j); staged := staged j; commits := commits j;
                  locks := S (locks j); discards := discards j;
                  resourceId := resourceId j |})
    | Some e => (Some e, nextTick j)
    end.

Definition command (sess : Session) (cmd : string) : St (result string) :=
  fun j => (commandReply sess (tick j) cmd, nextTick j).

Definition commandXML (sess : Session) (rpc : string) : St (result string) :=
  fun j => (commandXMLReply sess (tick j) rpc, nextTick j).

(** [sess.configSet]: the statements join the staged edit set, or the
    collaborator reports a failure. *)
Definition configSet (sess : Session) (l : list string) : St (option error) :=
  fun j =>
    match configSetReply sess (tick j) l with
    | None =>
        (None, {| tick := S (tick j); staged := staged j ++ l;
                  commits := commits j; locks := locks j;
                  discards := discards j; resourceId := resourceId j |})
    | Some e => (Some e, nextTick j)
    end.

(** [sess.configClear]: the pending-edit discard. *)
Definition configClear (sess : Session) : St unit :=
  fun j =>
    (tt, {| tick := S (tick j); staged := []; commits := commits j;
            locks := locks j; discards := S (discards j);
            resourceId := resourceId j |}).

(** [sess.commitConf]: on success the staged set becomes committed. *)
Definition commitConf (sess : Session) (msg : string)
  : St (list error * option error) :=
  fun j =>
    match commitConfReply sess (tick j) msg with
    | (warns, None) =>
        ((warns, None),
         {| tick := S (tick j); staged := []; commits := commits j ++ [staged j];
            locks := locks j; discards := discards j;
            resourceId := resourceId j |})
    | (warns, Some e) => ((warns, Some e), nextTick j)
    end.

(** [d.SetId]. *)
Definition SetId (id : string) : St unit :=
  fun j =>
    (tt, {| tick := tick j; staged := staged j; commits := commits j;
            locks := locks j; discards := discards j;
            resourceId := Some id |}).

(** [diag.Diagnostics]. *)
Inductive Diagnostic :=
| DiagError (e : error)
| DiagWarning (e : error).

Definition Diagnostics := list Diagnostic.

Definition FromErr (e : error) : Diagnostics := [DiagError e].

Definition warnsOf (warns : list error) : Diagnostics := map DiagWarning warns.

Definition isDiagError (x : Diagnostic) : bool :=
  match x with DiagError _ => true | DiagWarning _ => false end.

Definition HasError (ds : Diagnostics) : bool := existsb isDiagError ds.

(* ===================================================================== *)
(** ** resource_interface_physical.go                                     *)
(* ===================================================================== *)

(** One element of the [esi] list: the map of the five keys. *)
Record esiBlock := {
  mode : string;
  auto_derive_lacp : bool;
  df_election_type : string;
  identifier : string;
  source_bmac : string
}.

(** [type interfacePhysicalOptions struct]. *)
Record interfacePhysicalOptions := {
  trunk : bool;
  vlanTagging : bool;
  aeMinLink : Z;
  vlanNative : Z;
  aeLacp : string;
  aeLinkSpeed : string;
  description : string;
  v8023ad : string;
  vlanMembers : list string;
  esi : list esiBlock
}.

(** [d *schema.ResourceData] of the interface resource: what [d.Get]
    answers for each key.  A [nil] element of a block list is [None].
    [d_ether802_3ad_old] is the prior value that [d.GetChange] answers. *)
Record InterfaceData := {
  d_name : string;
  d_no_disable_on_destroy : bool;
  d_ae_lacp : string;
  d_ae_link_speed : string;
  d_ae_minimum_links : Z;
  d_description : string;
  d_esi : list (option esiBlock);
  d_ether802_3ad : string;
  d_ether802_3ad_old : string;
  d_trunk : bool;
  d_vlan_members : list string;
  d_vlan_native : Z;
  d_vlan_tagging : bool
}.

Definition showInterface (interFace : string) : string :=
  "show configuration interfaces " ++ interFace ++ " | display set relative".

Definition showInterfaces : string :=
  "show configuration interfaces | display set relative".

(** The loop of [checkInterfacePhysicalNCEmpty] that removes unused lines. *)
Fixpoint intConfigLines (items : list string) : list string :=
  match items with
  | [] => []
  | item :: rest =>
      if HasPrefix item "set unit" && negb (Contains item "ethernet-switching")
      then intConfigLines rest
      else if Contains item "<configuration-output>" then intConfigLines rest
      else if Contains item "</configuration-output>" then []
      else if String.eqb item "" then intConfigLines rest
      else item :: intConfigLines rest
  end.

(** The decision of [checkInterfacePhysicalNCEmpty] on the kept lines:
    the pair [(ncInt, emtyInt)]. *)
Definition ncEmptyOfLines (group : string) (lines : list string) : bool * bool :=
  if Nat.eqb (List.length lines) 0 then (false, true)
  else
    let intConfig := JoinLF lines in
    if negb (String.eqb group "") && String.eqb intConfig ("set apply-groups " ++ group)
    then (true, false)
    else if String.eqb intConfig ("set description NC" ++ String LF "set disable")
         || String.eqb intConfig ("set disable" ++ String LF "set description NC")
    then (true, false)
    else if String.eqb intConfig emptyWord then (false, true)
    else (false, false).

Definition checkInterfacePhysicalNCEmpty (sess : Session) (interFace : string)
  : St (result (bool * bool)) :=
  r <- command sess (showInterface interFace) ;;
  match r with
  | Err e => ret (Err e)
  | Ok intConfig =>
      ret (Ok (ncEmptyOfLines (junosGroupIntDel sess)
                 (intConfigLines (SplitLF intConfig))))
  end.

Definition addInterfacePhysicalNC (sess : Session) (interFace : string)
  : St (option error) :=
  if String.eqb (junosGroupIntDel sess) ""
  then configSet sess ["set interfaces " ++ interFace ++ " disable description NC"]
  else configSet sess ["set interfaces " ++ interFace ++ " apply-groups "
                       ++ junosGroupIntDel sess].

Definition checkInterfaceExists (sess : Session) (interFace : string)
  : St (result bool) :=
  r <- commandXML sess ("<get-interface-information><interface-name>" ++ interFace
                        ++ "</interface-name></get-interface-information>") ;;
  match r with
  | Err e => ret (Err e)
  | Ok reply => ret (Ok (negb (Contains reply (" not found" ++ String LF ""))))
  end.

(** The loop of [interfaceAggregatedLastChild] on the dumped lines, with
    the variable [lastAE] it assigns. *)
Fixpoint lastChildLoop (ae interFace : string) (lastAE : bool) (items : list string)
  : bool :=
  match items with
  | [] => lastAE
  | item :: rest =>
      if HasSuffix item ("ether-options 802.3ad " ++ ae)
         && negb (HasPrefix item ("set " ++ interFace ++ " "))
      then lastChildLoop ae interFace false rest
      else lastChildLoop ae interFace lastAE rest
  end.

Definition lastChildOfLines (ae interFace : string) (items : list string) : bool :=
  lastChildLoop ae interFace true items.

Definition interfaceAggregatedLastChild (sess : Session) (ae interFace : string)
  : St (result bool) :=
  r <- command sess showInterfaces ;;
  match r with
  | Err e => ret (Err e)
  | Ok showConf => ret (Ok (lastChildOfLines ae interFace (SplitLF showConf)))
  end.

(** [wordsLine[len(wordsLine)-1]] and [wordsLine[1]]; both indices are in
    range on every line the two regexps accept ([Fields_child_last] and
    [Fields_parent_second] below), so the default is never read. *)
Definition lastWord (wordsLine : list string) : string := last wordsLine "".
Definition secondWord (wordsLine : list string) : string := nth 1 wordsLine "".

(** The scanning loop of [interfaceAggregatedCountSearchMax]: the names
    appended to [listAEFound], in order. *)
Fixpoint listAEFoundOfLines (oldAE interFace : string) (lines : list string)
  : list string :=
  match lines with
  | [] => []
  | line :: rest =>
      let wordsLine := Fields line in
      let found :=
        if regexpAEchild line then
          if String.eqb interFace oldAE then [lastWord wordsLine]
          else if negb (String.eqb (lastWord wordsLine) oldAE) then [lastWord wordsLine]
          else []
        else if regexpAEparent line then
          if negb (String.eqb interFace oldAE) then [secondWord wordsLine]
          else if negb (String.eqb (secondWord wordsLine) oldAE)
          then [secondWord wordsLine]
          else []
        else [] in
      app found (listAEFoundOfLines oldAE interFace rest)
  end.

(** What follows the two scans: the maximum and the answer. *)
Definition countOfFound (newAENumInt : Z) (listAEFound : list string)
  : result string :=
  match listAEFound with
  | [] => Ok (Itoa (wrapInt (newAENumInt + 1)))
  | _ :: _ =>
      match Atoi (TrimPrefix (last (sortStringsLength listAEFound) "") "ae") with
      | Err e =>
          Err (ErrWrap "failed to convert internal variable lastAeInt to integer : " e)
      | Ok lastAeInt =>
          if lastAeInt >? newAENumInt then Ok (Itoa (wrapInt (lastAeInt + 1)))
          else Ok (Itoa (wrapInt (newAENumInt + 1)))
      end
  end.

Definition interfaceAggregatedCountSearchMax
  (sess : Session) (newAE oldAE interFace : string) : St (result string) :=
  match Atoi (TrimPrefix newAE "ae") with
  | Err e =>
      ret (Err (ErrWrap ("failed to convert ae interaface '" ++ newAE
                         ++ "' to integer : ") e))
  | Ok newAENumInt =>
      r <- command sess showInterfaces ;;
      match r with
      | Err e => ret (Err e)
      | Ok showConf =>
          let listAEFound := listAEFoundOfLines oldAE interFace (SplitLF showConf) in
          l <- interfaceAggregatedLastChild sess oldAE interFace ;;
          match l with
          | Err e => ret (Err e)
          | Ok lastOldAE =>
              ret (countOfFound newAENumInt
                     (if negb lastOldAE then append listAEFound oldAE else listAEFound))
          end
      end
  end.

(** The statement [setIntEsi] stages for one map: a [switch], so the first
    case that holds is the only one that runs. *)
Definition esiStatementsOf (setPrefix : string) (m : esiBlock) : list string :=
  if negb (String.eqb (mode m) "") then [setPrefix ++ "esi " ++ mode m]
  else if auto_derive_lacp m then [setPrefix ++ "esi auto-derive lacp"]
  else if negb (String.eqb (df_election_type m) "")
  then [setPrefix ++ "esi df-election-type " ++ df_election_type m]
  else if negb (String.eqb (identifier m) "") then [setPrefix ++ "esi " ++ identifier m]
  else if negb (String.eqb (source_bmac m) "")
  then [setPrefix ++ "esi source-bmac " ++ source_bmac m]
  else [].

(** The [configSet] that [setIntEsi] builds over [esiParams]. *)
Fixpoint esiConfigSet (setPrefix : string) (esiParams : list (option esiBlock))
  : list string :=
  match esiParams with
  | [] => []
  | Some m :: rest => app (esiStatementsOf setPrefix m) (esiConfigSet setPrefix rest)
  | None :: rest => esiConfigSet setPrefix rest
  end.

Definition setIntEsi (sess : Session) (setPrefix : string)
  (esiParams : list (option esiBlock)) : St (option error) :=
  configSet sess (esiConfigSet setPrefix esiParams).

(** [setInterfacePhysical], up to the call of [setIntEsi], under its
    local variable [setPrefix]. *)
Definition physicalConfigSetHeadFrom (setPrefix : string) (d : InterfaceData)
  : result (list string) :=
  let isAE := HasPrefix (d_name d) "ae" in
  let configSet0 := append [] setPrefix in
  if negb (String.eqb (d_ae_lacp d) "") && negb isAE
  then Err (ErrMsg "ae_lacp invalid for this interface") else
  let configSet1 :=
    if negb (String.eqb (d_ae_lacp d) "")
    then append configSet0 (setPrefix ++ "aggregated-ether-options lacp " ++ d_ae_lacp d)
    else configSet0 in
  if negb (String.eqb (d_ae_link_speed d) "") && negb isAE
  then Err (ErrMsg "ae_link_speed invalid for this interface") else
  let configSet2 :=
    if negb (String.eqb (d_ae_link_speed d) "")
    then append configSet1 (setPrefix ++ "aggregated-ether-options link-speed "
                            ++ d_ae_link_speed d)
    else configSet1 in
  if (d_ae_minimum_links d >? 0) && negb isAE
  then Err (ErrMsg "ae_minimum_links invalid for this interface") else
  let configSet3 :=
    if d_ae_minimum_links d >? 0
    then append configSet2 (setPrefix ++ "aggregated-ether-options minimum-links "
                            ++ Itoa (d_ae_minimum_links d))
    else configSet2 in
  if negb (String.eqb (d_description d) "")
  then Ok (append configSet3 (setPrefix ++ "description " ++ dq ++ d_description d ++ dq))
  else Ok configSet3.

Definition physicalConfigSetHead (d : InterfaceData) : result (list string) :=
  physicalConfigSetHeadFrom ("set interfaces " ++ d_name d ++ " ") d.

(** [setInterfacePhysical], after the aggregated-count branch. *)
Definition physicalConfigSetTailFrom (setPrefix : string) (d : InterfaceData)
  : list string :=
  let trunkSet :=
    if d_trunk d
    then [setPrefix ++ "unit 0 family ethernet-switching interface-mode trunk"]
    else [] in
  let membersSet :=
    map (fun v => setPrefix ++ "unit 0 family ethernet-switching vlan members " ++ v)
      (d_vlan_members d) in
  let nativeSet :=
    if negb (d_vlan_native d =? 0)
    then [setPrefix ++ "native-vlan-id " ++ Itoa (d_vlan_native d)] else [] in
  let taggingSet := if d_vlan_tagging d then [setPrefix ++ "vlan-tagging"] else [] in
  app trunkSet (app membersSet (app nativeSet taggingSet)).

Definition physicalConfigSetTail (d : InterfaceData) : list string :=
  physicalConfigSetTailFrom ("set interfaces " ++ d_name d ++ " ") d.

Definition deviceCountSet (aggregatedCount : string) : string :=
  "set chassis aggregated-devices ethernet device-count " ++ aggregatedCount.

Definition deviceCountDelete : string :=
  "delete chassis aggregated-devices ethernet device-count".

Definition setInterfacePhysical (sess : Session) (d : InterfaceData)
  : St (option error) :=
  let setPrefix := "set interfaces " ++ d_name d ++ " " in
  match physicalConfigSetHead d with
  | Err e => ret (Some e)
  | Ok configSet0 =>
      e <- setIntEsi sess setPrefix (d_esi d) ;;
      match e with
      | Some err => ret (Some err)
      | None =>
          if HasPrefix (d_name d) "ae" then
            r <- interfaceAggregatedCountSearchMax sess (d_name d) "ae-1" (d_name d) ;;
            match r with
            | Err err => ret (Some err)
            | Ok aggregatedCount =>
                configSet sess (app (append configSet0 (deviceCountSet aggregatedCount))
                                  (physicalConfigSetTail d))
            end
          else if negb (String.eqb (d_ether802_3ad d) "") then
            let oldAE :=
              if negb (String.eqb (d_ether802_3ad d) (d_ether802_3ad_old d))
                 && negb (String.eqb (d_ether802_3ad_old d) "")
              then d_ether802_3ad_old d else "ae-1" in
            r <- interfaceAggregatedCountSearchMax sess (d_ether802_3ad d) oldAE
                   (d_name d) ;;
            match r with
            | Err err => ret (Some err)
            | Ok aggregatedCount =>
                configSet sess
                  (app (append (append (append configSet0
                     (setPrefix ++ "ether-options 802.3ad " ++ d_ether802_3ad d))
                     (setPrefix ++ "gigether-options 802.3ad " ++ d_ether802_3ad d))
                     (deviceCountSet aggregatedCount))
                     (physicalConfigSetTail d))
            end
          else configSet sess (app configSet0 (physicalConfigSetTail d))
      end
  end.

(** [readIntEsi]: the map is created on the first esi line, then one key
    is assigned by the first case of the [switch] that holds. *)
Definition emptyEsi : esiBlock :=
  {| mode := ""; auto_derive_lacp := false; df_election_type := "";
     identifier := ""; source_bmac := "" |}.

Definition readIntEsiKey (m : esiBlock) (itemTrim : string) : esiBlock :=
  if regexpEsiIdentifier itemTrim then
    {| mode := mode m; auto_derive_lacp := auto_derive_lacp m;
       df_election_type := df_election_type m; identifier := itemTrim;
       source_bmac := source_bmac m |}
  else if String.eqb itemTrim "all-active" || String.eqb itemTrim "single-active" then
    {| mode := itemTrim; auto_derive_lacp := auto_derive_lacp m;
       df_election_type := df_election_type m; identifier := identifier m;
       source_bmac := source_bmac m |}
  else if HasPrefix itemTrim "df-election-type " then
    {| mode := mode m; auto_derive_lacp := auto_derive_lacp m;
       df_election_type := TrimPrefix itemTrim "df-election-type ";
       identifier := identifier m; source_bmac := source_bmac m |}
  else if HasPrefix itemTrim "source-bmac " then
    {| mode := mode m; auto_derive_lacp := auto_derive_lacp m;
       df_election_type := df_election_type m; identifier := identifier m;
       source_bmac := TrimPrefix itemTrim "source-bmac " |}
  else if String.eqb itemTrim "auto-derive lacp" then
    {| mode := mode m; auto_derive_lacp := true;
       df_election_type := df_election_type m; identifier := identifier m;
       source_bmac := source_bmac m |}
  else m.

Definition readIntEsi (esi0 : list esiBlock) (item : string) : list esiBlock :=
  let itemTrim := TrimPrefix item "esi " in
  match esi0 with
  | [] => [readIntEsiKey emptyEsi itemTrim]
  | m :: rest => readIntEsiKey m itemTrim :: rest
  end.

(** The zero value of [interfacePhysicalOptions]. *)
Definition zeroInterfaceOptions : interfacePhysicalOptions :=
  {| trunk := false; vlanTagging := false; aeMinLink := 0; vlanNative := 0;
     aeLacp := ""; aeLinkSpeed := ""; description := ""; v8023ad := "";
     vlanMembers := []; esi := [] |}.

Definition convertError (itemTrim : string) (e : error) : error :=
  ErrWrap ("failed to convert value from '" ++ itemTrim ++ "' to integer : ") e.

(** The [switch] of [readInterfacePhysical] on one trimmed line. *)
Definition readInterfaceItem (c : interfacePhysicalOptions) (itemTrim : string)
  : result interfacePhysicalOptions :=
  let upd tr vt ml vn la ls de ad vm es :=
    {| trunk := tr; vlanTagging := vt; aeMinLink := ml; vlanNative := vn;
       aeLacp := la; aeLinkSpeed := ls; description := de; v8023ad := ad;
       vlanMembers := vm; esi := es |} in
  if HasPrefix itemTrim "aggregated-ether-options lacp " then
    Ok (upd (trunk c) (vlanTagging c) (aeMinLink c) (vlanNative c)
          (TrimPrefix itemTrim "aggregated-ether-options lacp ")
          (aeLinkSpeed c) (description c) (v8023ad c) (vlanMembers c) (esi c))
  else if HasPrefix itemTrim "aggregated-ether-options link-speed " then
    Ok (upd (trunk c) (vlanTagging c) (aeMinLink c) (vlanNative c) (aeLacp c)
          (TrimPrefix itemTrim "aggregated-ether-options link-speed ")
          (description c) (v8023ad c) (vlanMembers c) (esi c))
  else if HasPrefix itemTrim "aggregated-ether-options minimum-links " then
    match Atoi (TrimPrefix itemTrim "aggregated-ether-options minimum-links ") with
    | Err e => Err (convertError itemTrim e)
    | Ok n =>
        Ok (upd (trunk c) (vlanTagging c) n (vlanNative c) (aeLacp c)
              (aeLinkSpeed c) (description c) (v8023ad c) (vlanMembers c) (esi c))
    end
  else if HasPrefix itemTrim "description " then
    Ok (upd (trunk c) (vlanTagging c) (aeMinLink c) (vlanNative c) (aeLacp c)
          (aeLinkSpeed c) (TrimQuote (TrimPrefix itemTrim "description "))
          (v8023ad c) (vlanMembers c) (esi c))
  else if HasPrefix itemTrim "esi " then
    Ok (upd (trunk c) (vlanTagging c) (aeMinLink c) (vlanNative c) (aeLacp c)
          (aeLinkSpeed c) (description c) (v8023ad c) (vlanMembers c)
          (readIntEsi (esi c) itemTrim))
  else if HasPrefix itemTrim "ether-options 802.3ad " then
    Ok (upd (trunk c) (vlanTagging c) (aeMinLink c) (vlanNative c) (aeLacp c)
          (aeLinkSpeed c) (description c)
          (TrimPrefix itemTrim "ether-options 802.3ad ") (vlanMembers c) (esi c))
  else if HasPrefix itemTrim "gigether-options 802.3ad " then
    Ok (upd (trunk c) (vlanTagging c) (aeMinLink c) (vlanNative c) (aeLacp c)
          (aeLinkSpeed c) (description c)
          (TrimPrefix itemTrim "gigether-options 802.3ad ") (vlanMembers c) (esi c))
  else if HasPrefix itemTrim "native-vlan-id" then
    match Atoi (TrimPrefix itemTrim "native-vlan-id ") with
    | Err e => Err (convertError itemTrim e)
    | Ok n =>
        Ok (upd (trunk c) (vlanTagging c) (aeMinLink c) n (aeLacp c)
              (aeLinkSpeed c) (description c) (v8023ad c) (vlanMembers c) (esi c))
    end
  else if String.eqb itemTrim "unit 0 family ethernet-switching interface-mode trunk" then
    Ok (upd true (vlanTagging c) (aeMinLink c) (vlanNative c) (aeLacp c)
          (aeLinkSpeed c) (description c) (v8023ad c) (vlanMembers c) (esi c))
  else if HasPrefix itemTrim "unit 0 family ethernet-switching vlan members" then
    Ok (upd (trunk c) (vlanTagging c) (aeMinLink c) (vlanNative c) (aeLacp c)
          (aeLinkSpeed c) (description c) (v8023ad c)
          (append (vlanMembers c)
             (TrimPrefix itemTrim "unit 0 family ethernet-switching vlan members "))
          (esi c))
  else if String.eqb itemTrim "vlan-tagging" then
    Ok (upd (trunk c) true (aeMinLink c) (vlanNative c) (aeLacp c)
          (aeLinkSpeed c) (description c) (v8023ad c) (vlanMembers c) (esi c))
  else Ok c.

(** The loop of [readInterfacePhysical] over the dumped lines. *)
Fixpoint readInterfaceLines (c : interfacePhysicalOptions) (items : list string)
  : result interfacePhysicalOptions :=
  match items with
  | [] => Ok c
  | item :: rest =>
      if Contains item " unit " && negb (Contains item "ethernet-switching")
      then readInterfaceLines c rest
      else if Contains item "<configuration-output>" then readInterfaceLines c rest
      else if Contains item "</configuration-output>" then Ok c
      else
        match readInterfaceItem c (TrimPrefix item setLineStart) with
        | Err e => Err e
        | Ok c' => readInterfaceLines c' rest
        end
  end.

Definition readInterfaceText (intConfig : string) : result interfacePhysicalOptions :=
  if negb (String.eqb intConfig emptyWord)
  then readInterfaceLines zeroInterfaceOptions (SplitLF intConfig)
  else Ok zeroInterfaceOptions.

Definition readInterfacePhysical (sess : Session) (interFace : string)
  : St (result interfacePhysicalOptions) :=
  r <- command sess (showInterface interFace) ;;
  match r with
  | Err e => ret (Err e)
  | Ok intConfig => ret (readInterfaceText intConfig)
  end.

(** The loop of [checkInterfacePhysicalContainsUnit]: [true] when it
    returns the error. *)
Fixpoint containsUnitLines (items : list string) : bool :=
  match items with
  | [] => false
  | item :: rest =>
      if Contains item "<configuration-output>" then containsUnitLines rest
      else if Contains item "</configuration-output>" then false
      else if HasPrefix item "set unit" then
        if Contains item "ethernet-switching" then containsUnitLines rest
        else true
      else containsUnitLines rest
  end.

Definition sonUnitError (interFace : string) : error :=
  ErrMsg ("interface " ++ interFace ++ " is used for other son unit interface").

Definition checkInterfacePhysicalContainsUnit (sess : Session) (interFace : string)
  : St (option error) :=
  r <- command sess (showInterface interFace) ;;
  match r with
  | Err e => ret (Some e)
  | Ok intConfig =>
      if containsUnitLines (SplitLF intConfig)
      then ret (Some (sonUnitError interFace))
      else ret None
  end.

(** The device-count statement both branches of [delInterfacePhysical]
    stage once the count is known. *)
Definition stageDeviceCount (sess : Session) (aggregatedCount : string)
  : St (option error) :=
  if String.eqb aggregatedCount "0"
  then configSet sess [deviceCountDelete]
  else configSet sess [deviceCountSet aggregatedCount].

Definition delInterfacePhysical (sess : Session) (d : InterfaceData)
  : St (option error) :=
  e <- checkInterfacePhysicalContainsUnit sess (d_name d) ;;
  match e with
  | Some err => ret (Some err)
  | None =>
      e <- configSet sess ["delete interfaces " ++ d_name d] ;;
      match e with
      | Some err => ret (Some err)
      | None =>
          if HasPrefix (d_name d) "ae" then
            r <- interfaceAggregatedCountSearchMax sess "ae-1" (d_name d) (d_name d) ;;
            match r with
            | Err err => ret (Some err)
            | Ok aggregatedCount => stageDeviceCount sess aggregatedCount
            end
          else if negb (String.eqb (d_ether802_3ad d) "") then
            l <- interfaceAggregatedLastChild sess (d_ether802_3ad d) (d_name d) ;;
            match l with
            | Err err => ret (Some err)
            | Ok lastAEchild =>
                if lastAEchild then
                  r <- interfaceAggregatedCountSearchMax sess "ae-1"
                         (d_ether802_3ad d) (d_name d) ;;
                  match r with
                  | Err err => ret (Some err)
                  | Ok aggregatedCount => stageDeviceCount sess aggregatedCount
                  end
                else ret None
            end
          else ret None
      end
  end.

Definition delInterfaceNC (sess : Session) (d : InterfaceData) : St (option error) :=
  let delPrefix := "delete interfaces " ++ d_name d ++ " " in
  let configSet0 :=
    if negb (String.eqb (junosGroupIntDel sess) "")
    then append [] (delPrefix ++ "apply-groups " ++ junosGroupIntDel sess)
    else [] in
  configSet sess (append (append configSet0 (delPrefix ++ "description"))
                    (delPrefix ++ "disable")).

Definition delInterfacePhysicalOpts (sess : Session) (d : InterfaceData)
  : St (option error) :=
  let delPrefix := "delete interfaces " ++ d_name d ++ " " in
  configSet sess
    [delPrefix ++ "aggregated-ether-options";
     delPrefix ++ "esi";
     delPrefix ++ "ether-options 802.3ad";
     delPrefix ++ "gigether-options 802.3ad";
     delPrefix ++ "native-vlan-id";
     delPrefix ++ "unit 0 family ethernet-switching interface-mode";
     delPrefix ++ "unit 0 family ethernet-switching vlan members";
     delPrefix ++ "vlan-tagging"].

(** [resourceInterfacePhysicalReadWJnprSess].  The process-wide mutex is
    not modelled (one operation runs at a time here), and
    [fillInterfacePhysicalData] only copies the decoded options into [d],
    which no later step reads back. *)
Definition resourceInterfacePhysicalReadWJnprSess (sess : Session) (d : InterfaceData)
  : St Diagnostics :=
  r <- checkInterfacePhysicalNCEmpty sess (d_name d) ;;
  match r with
  | Err err => ret (FromErr err)
  | Ok (ncInt, emptyInt) =>
      if ncInt then SetId "" ;;; ret []
      else
        x <- (if emptyInt then checkInterfaceExists sess (d_name d) else ret (Ok true)) ;;
        match x with
        | Err err => ret (FromErr err)
        | Ok intExists =>
            if negb intExists then SetId "" ;;; ret []
            else
              o <- readInterfacePhysical sess (d_name d) ;;
              match o with
              | Err err => ret (FromErr err)
              | Ok _ => ret []
              end
        end
  end.

Definition resourceInterfacePhysicalCreate (sess : Session) (d : InterfaceData)
  : St Diagnostics :=
  s <- startNewSession sess ;;
  match s with
  | Some err => ret (FromErr err)
  | None =>
  configLock sess ;;;
  r <- checkInterfacePhysicalNCEmpty sess (d_name d) ;;
  match r with
  | Err err => configClear sess ;;; ret (FromErr err)
  | Ok (ncInt, emptyInt) =>
  if negb ncInt && negb emptyInt then
    configClear sess ;;;
    ret (FromErr (ErrMsg ("interface " ++ d_name d ++ " already configured")))
  else
  e <- (if ncInt then delInterfaceNC sess d else ret None) ;;
  match e with
  | Some err => configClear sess ;;; ret (FromErr err)
  | None =>
  e <- setInterfacePhysical sess d ;;
  match e with
  | Some err => configClear sess ;;; ret (FromErr err)
  | None =>
  c <- commitConf sess "create resource junos_interface_physical" ;;
  let diagWarns := warnsOf (fst c) in
  match snd c with
  | Some err => configClear sess ;;; ret (app diagWarns (FromErr err))
  | None =>
  r <- checkInterfacePhysicalNCEmpty sess (d_name d) ;;
  match r with
  | Err err => ret (app diagWarns (FromErr err))
  | Ok (ncInt, emptyInt) =>
  if ncInt then
    ret (app diagWarns (FromErr (ErrMsg ("interface " ++ d_name d
           ++ " always disable after commit => check your config"))))
  else
  x <- (if emptyInt then checkInterfaceExists sess (d_name d) else ret (Ok true)) ;;
  match x with
  | Err err => ret (app diagWarns (FromErr err))
  | Ok intExists =>
  if negb intExists then
    ret (app diagWarns (FromErr (ErrMsg ("interface " ++ d_name d
           ++ " not exists and config can't found after commit => check your config"))))
  else
  SetId (d_name d) ;;;
  ds <- resourceInterfacePhysicalReadWJnprSess sess d ;;
  ret (app diagWarns ds)
  end end end end end end end.

Definition resourceInterfacePhysicalUpdate (sess : Session) (d : InterfaceData)
  : St Diagnostics :=
  s <- startNewSession sess ;;
  match s with
  | Some err => ret (FromErr err)
  | None =>
  configLock sess ;;;
  e <- delInterfacePhysicalOpts sess d ;;
  match e with
  | Some err => configClear sess ;;; ret (FromErr err)
  | None =>
  e <- setInterfacePhysical sess d ;;
  match e with
  | Some err => configClear sess ;;; ret (FromErr err)
  | None =>
  c <- commitConf sess "update resource junos_interface_physical" ;;
  let diagWarns := warnsOf (fst c) in
  match snd c with
  | Some err => configClear sess ;;; ret (app diagWarns (FromErr err))
  | None =>
  ds <- resourceInterfacePhysicalReadWJnprSess sess d ;;
  ret (app diagWarns ds)
  end end end end.

Definition resourceInterfacePhysicalDelete (sess : Session) (d : InterfaceData)
  : St Diagnostics :=
  s <- startNewSession sess ;;
  match s with
  | Some err => ret (FromErr err)
  | None =>
  configLock sess ;;;
  e <- delInterfacePhysical sess d ;;
  match e with
  | Some err => configClear sess ;;; ret (FromErr err)
  | None =>
  c <- commitConf sess "delete resource junos_interface_physical" ;;
  let diagWarns := warnsOf (fst c) in
  match snd c with
  | Some err => configClear sess ;;; ret (app diagWarns (FromErr err))
  | None =>
  if negb (d_no_disable_on_destroy d) then
    x <- checkInterfaceExists sess (d_name d) ;;
    match x with
    | Err err => ret (app diagWarns (warnsOf [err]))
    | Ok intExists =>
        if intExists then
          e <- addInterfacePhysicalNC sess (d_name d) ;;
          match e with
          | Some err => configClear sess ;;; ret (app diagWarns (FromErr err))
          | None =>
              c2 <- commitConf sess "disable(NC) resource junos_interface_physical" ;;
              match snd c2 with
              | Some err => configClear sess ;;; ret (app diagWarns (FromErr err))
              | None => ret diagWarns
              end
          end
        else ret diagWarns
    end
  else ret diagWarns
  end end end.

(* ===================================================================== *)
(** ** The UTM policy resource                                            *)
(* ===================================================================== *)

(** One element of [anti_virus] or [content_filtering]: the map that
    [genMapUtmPolicyProfile] shapes. *)
Record utmProfile := {
  ftp_download_profile : string;
  ftp_upload_profile : string;
  http_profile : string;
  imap_profile : string;
  pop3_profile : string;
  smtp_profile : string
}.

(** One element of [traffic_sessions_per_client]. *)
Record utmTraffic := {
  limit : Z;
  over_limit : string
}.

(** [type utmPolicyOptions struct]. *)
Record utmPolicyOptions := {
  name : string;
  antiSpamSMTPProfile : string;
  webFilteringProfile : string;
  antiVirus : list utmProfile;
  contentFiltering : list utmProfile;
  trafficSessionsPerClient : list utmTraffic
}.

(** [d *schema.ResourceData] of the UTM policy resource. *)
Record UtmData := {
  u_name : string;
  u_anti_spam_smtp_profile : string;
  u_anti_virus : list (option utmProfile);
  u_content_filtering : list (option utmProfile);
  u_traffic_sessions_per_client : list (option utmTraffic);
  u_web_filtering_profile : string
}.

Definition showUtmPolicy (policy : string) : string :=
  "show configuration security utm utm-policy " ++ dq ++ policy ++ dq
  ++ " | display set".

Definition showUtmPolicyRelative (policy : string) : string :=
  "show configuration security utm utm-policy " ++ dq ++ policy ++ dq
  ++ " | display set relative".

Definition checkUtmPolicysExists (sess : Session) (policy : string)
  : St (result bool) :=
  r <- command sess (showUtmPolicy policy) ;;
  match r with
  | Err e => ret (Err e)
  | Ok policyConfig => ret (Ok (negb (String.eqb policyConfig emptyWord)))
  end.

Definition quoted (v : string) : string := dq ++ v ++ dq.

(** The six [if]s on one profile map, under the prefix of its block. *)
Definition profileConfigSet (setPrefixBlock : string) (p : utmProfile) : list string :=
  let one (path v : string) :=
    if negb (String.eqb v "") then [setPrefixBlock ++ path ++ quoted v] else [] in
  app (one "ftp download-profile " (ftp_download_profile p))
 (app (one "ftp upload-profile " (ftp_upload_profile p))
 (app (one "http-profile " (http_profile p))
 (app (one "imap-profile " (imap_profile p))
 (app (one "pop3-profile " (pop3_profile p))
      (one "smtp-profile " (smtp_profile p)))))).

(** A [for] over a profile block list; a [nil] element is the error. *)
Fixpoint profileBlocksConfigSet (setPrefixBlock emptyMsg : string)
  (blocks : list (option utmProfile)) : result (list string) :=
  match blocks with
  | [] => Ok []
  | None :: _ => Err (ErrMsg emptyMsg)
  | Some p :: rest =>
      match profileBlocksConfigSet setPrefixBlock emptyMsg rest with
      | Err e => Err e
      | Ok l => Ok (app (profileConfigSet setPrefixBlock p) l)
      end
  end.

Definition trafficConfigSet (setPrefix : string) (t : utmTraffic) : list string :=
  app (if negb (limit t =? -1)
       then [setPrefix ++ "traffic-options sessions-per-client limit " ++ Itoa (limit t)]
       else [])
      (if negb (String.eqb (over_limit t) "")
       then [setPrefix ++ "traffic-options sessions-per-client over-limit "
             ++ over_limit t]
       else []).

Fixpoint trafficBlocksConfigSet (setPrefix : string)
  (blocks : list (option utmTraffic)) : result (list string) :=
  match blocks with
  | [] => Ok []
  | None :: _ => Err (ErrMsg "traffic_sessions_per_client block is empty")
  | Some t :: rest =>
      match trafficBlocksConfigSet setPrefix rest with
      | Err e => Err e
      | Ok l => Ok (app (trafficConfigSet setPrefix t) l)
      end
  end.

Definition utmSetPrefix (policy : string) : string :=
  "set security utm utm-policy " ++ dq ++ policy ++ dq ++ " ".

(** The [configSet] that [setUtmPolicy] builds under its local variable
    [setPrefix], or the error it returns before anything is sent. *)
Definition utmConfigSetFrom (setPrefix : string) (d : UtmData) : result (list string) :=
  let spam :=
    if negb (String.eqb (u_anti_spam_smtp_profile d) "")
    then [setPrefix ++ "anti-spam smtp-profile " ++ quoted (u_anti_spam_smtp_profile d)]
    else [] in
  match profileBlocksConfigSet (setPrefix ++ "anti-virus ") "anti_virus block is empty"
          (u_anti_virus d) with
  | Err e => Err e
  | Ok av =>
  match profileBlocksConfigSet (setPrefix ++ "content-filtering ")
          "content_filtering block is empty" (u_content_filtering d) with
  | Err e => Err e
  | Ok cf =>
  match trafficBlocksConfigSet setPrefix (u_traffic_sessions_per_client d) with
  | Err e => Err e
  | Ok tr =>
      let web :=
        if negb (String.eqb (u_web_filtering_profile d) "")
        then [setPrefix ++ "web-filtering http-profile "
              ++ quoted (u_web_filtering_profile d)]
        else [] in
      Ok (app spam (app av (app cf (app tr web))))
  end end end.

Definition utmConfigSet (d : UtmData) : result (list string) :=
  utmConfigSetFrom (utmSetPrefix (u_name d)) d.

Definition setUtmPolicy (sess : Session) (d : UtmData) : St (option error) :=
  match utmConfigSet d with
  | Err e => ret (Some e)
  | Ok configSet0 => configSet sess configSet0
  end.

Definition genMapUtmPolicyProfile : utmProfile :=
  {| ftp_download_profile := ""; ftp_upload_profile := ""; http_profile := "";
     imap_profile := ""; pop3_profile := ""; smtp_profile := "" |}.

(** [readUtmPolicyProfile]: one key of the map is assigned. *)
Definition readUtmPolicyProfile (itemTrimPolicyProfile : string) (m : utmProfile)
  : utmProfile :=
  let s := itemTrimPolicyProfile in
  let val p := TrimQuote (TrimPrefix s p) in
  if HasPrefix s "ftp download-profile " then
    {| ftp_download_profile := val "ftp download-profile ";
       ftp_upload_profile := ftp_upload_profile m; http_profile := http_profile m;
       imap_profile := imap_profile m; pop3_profile := pop3_profile m;
       smtp_profile := smtp_profile m |}
  else if HasPrefix s "ftp upload-profile " then
    {| ftp_download_profile := ftp_download_profile m;
       ftp_upload_profile := val "ftp upload-profile "; http_profile := http_profile m;
       imap_profile := imap_profile m; pop3_profile := pop3_profile m;
       smtp_profile := smtp_profile m |}
  else if HasPrefix s "http-profile " then
    {| ftp_download_profile := ftp_download_profile m;
       ftp_upload_profile := ftp_upload_profile m; http_profile := val "http-profile ";
       imap_profile := imap_profile m; pop3_profile := pop3_profile m;
       smtp_profile := smtp_profile m |}
  else if HasPrefix s "imap-profile " then
    {| ftp_download_profile := ftp_download_profile m;
       ftp_upload_profile := ftp_upload_profile m; http_profile := http_profile m;
       imap_profile := val "imap-profile "; pop3_profile := pop3_profile m;
       smtp_profile := smtp_profile m |}
  else if HasPrefix s "pop3-profile " then
    {| ftp_download_profile := ftp_download_profile m;
       ftp_upload_profile := ftp_upload_profile m; http_profile := http_profile m;
       imap_profile := imap_profile m; pop3_profile := val "pop3-profile ";
       smtp_profile := smtp_profile m |}
  else if HasPrefix s "smtp-profile " then
    {| ftp_download_profile := ftp_download_profile m;
       ftp_upload_profile := ftp_upload_profile m; http_profile := http_profile m;
       imap_profile := imap_profile m; pop3_profile := pop3_profile m;
       smtp_profile := val "smtp-profile " |}
  else m.

(** A profile block list after one line of its block: the map is created
    when the list is empty, then updated in place. *)
Definition touchProfile (l : list utmProfile) (rest : string) : list utmProfile :=
  match l with
  | [] => [readUtmPolicyProfile rest genMapUtmPolicyProfile]
  | m :: tl => readUtmPolicyProfile rest m :: tl
  end.

Definition touchTraffic (l : list utmTraffic) : utmTraffic * list utmTraffic :=
  match l with
  | [] => ({| limit := -1; over_limit := "" |}, [])
  | m :: tl => (m, tl)
  end.

(** The [switch] of [readUtmPolicy] on one trimmed line. *)
Definition readUtmItem (c : utmPolicyOptions) (itemTrim : string)
  : result utmPolicyOptions :=
  if HasPrefix itemTrim "anti-spam smtp-profile " then
    Ok {| name := name c;
          antiSpamSMTPProfile := TrimQuote (TrimPrefix itemTrim "anti-spam smtp-profile ");
          webFilteringProfile := webFilteringProfile c; antiVirus := antiVirus c;
          contentFiltering := contentFiltering c;
          trafficSessionsPerClient := trafficSessionsPerClient c |}
  else if HasPrefix itemTrim "anti-virus " then
    Ok {| name := name c; antiSpamSMTPProfile := antiSpamSMTPProfile c;
          webFilteringProfile := webFilteringProfile c;
          antiVirus := touchProfile (antiVirus c) (TrimPrefix itemTrim "anti-virus ");
          contentFiltering := contentFiltering c;
          trafficSessionsPerClient := trafficSessionsPerClient c |}
  else if HasPrefix itemTrim "content-filtering " then
    Ok {| name := name c; antiSpamSMTPProfile := antiSpamSMTPProfile c;
          webFilteringProfile := webFilteringProfile c; antiVirus := antiVirus c;
          contentFiltering :=
            touchProfile (contentFiltering c) (TrimPrefix itemTrim "content-filtering ");
          trafficSessionsPerClient := trafficSessionsPerClient c |}
  else if HasPrefix itemTrim "traffic-options sessions-per-client " then
    let (m, tl) := touchTraffic (trafficSessionsPerClient c) in
    let withTraffic (t : utmTraffic) :=
      {| name := name c; antiSpamSMTPProfile := antiSpamSMTPProfile c;
         webFilteringProfile := webFilteringProfile c; antiVirus := antiVirus c;
         contentFiltering := contentFiltering c;
         trafficSessionsPerClient := t :: tl |} in
    let afterLimit :=
      if HasPrefix itemTrim "traffic-options sessions-per-client limit " then
        match Atoi (TrimPrefix itemTrim "traffic-options sessions-per-client limit ") with
        | Err e => Err e
        | Ok n => Ok {| limit := n; over_limit := over_limit m |}
        end
      else Ok m in
    match afterLimit with
    | Err e => Err e
    | Ok m1 =>
        if HasPrefix itemTrim "traffic-options sessions-per-client over-limit " then
          Ok (withTraffic
                {| limit := limit m1;
                   over_limit := TrimPrefix itemTrim
                     "traffic-options sessions-per-client over-limit " |})
        else Ok (withTraffic m1)
    end
  else if HasPrefix itemTrim "web-filtering http-profile " then
    Ok {| name := name c; antiSpamSMTPProfile := antiSpamSMTPProfile c;
          webFilteringProfile :=
            TrimQuote (TrimPrefix itemTrim "web-filtering http-profile ");
          antiVirus := antiVirus c; contentFiltering := contentFiltering c;
          trafficSessionsPerClient := trafficSessionsPerClient c |}
  else Ok c.

(** The loop of [readUtmPolicy]. *)
Fixpoint readUtmLines (c : utmPolicyOptions) (items : list string)
  : result utmPolicyOptions :=
  match items with
  | [] => Ok c
  | item :: rest =>
      if Contains item "<configuration-output>" then readUtmLines c rest
      else if Contains item "</configuration-output>" then Ok c
      else
        match readUtmItem c (TrimPrefix item setLineStart) with
        | Err e => Err e
        | Ok c' => readUtmLines c' rest
        end
  end.

Definition zeroUtmOptions (policy : string) : utmPolicyOptions :=
  {| name := policy; antiSpamSMTPProfile := ""; webFilteringProfile := "";
     antiVirus := []; contentFiltering := []; trafficSessionsPerClient := [] |}.

Definition readUtmText (policy policyConfig : string) : result utmPolicyOptions :=
  if negb (String.eqb policyConfig emptyWord)
  then readUtmLines (zeroUtmOptions policy) (SplitLF policyConfig)
  else Ok (zeroUtmOptions "").

Definition readUtmPolicy (sess : Session) (policy : string)
  : St (result utmPolicyOptions) :=
  r <- command sess (showUtmPolicyRelative policy) ;;
  match r with
  | Err e => ret (Err e)
  | Ok policyConfig => ret (readUtmText policy policyConfig)
  end.

Definition delUtmPolicy (sess : Session) (policy : string) : St (option error) :=
  configSet sess ["delete security utm utm-policy " ++ dq ++ policy ++ dq].

(** [resourceSecurityUtmPolicyRead]: it opens a session of its own. *)
Definition resourceSecurityUtmPolicyRead (sess : Session) (d : UtmData)
  : St (option error) :=
  s <- startNewSession sess ;;
  match s with
  | Some err => ret (Some err)
  | None =>
      o <- readUtmPolicy sess (u_name d) ;;
      match o with
      | Err err => ret (Some err)
      | Ok opts =>
          if String.eqb (name opts) "" then SetId "" ;;; ret None
          else ret None
      end
  end.

Definition resourceSecurityUtmPolicyCreate (sess : Session) (d : UtmData)
  : St (option error) :=
  s <- startNewSession sess ;;
  match s with
  | Some err => ret (Some err)
  | None =>
  if negb (compatibleSecurity sess) then
    ret (Some (ErrMsg ("security utm utm-policy not compatible with Junos device "
                       ++ platformModel sess)))
  else
  l <- configLock sess ;;
  match l with
  | Some err => ret (Some err)
  | None =>
  r <- checkUtmPolicysExists sess (u_name d) ;;
  match r with
  | Err err => configClear sess ;;; ret (Some err)
  | Ok utmPolicyExists =>
  if utmPolicyExists then
    configClear sess ;;;
    ret (Some (ErrMsg ("security utm utm-policy " ++ u_name d ++ " already exists")))
  else
  e <- setUtmPolicy sess d ;;
  match e with
  | Some err => configClear sess ;;; ret (Some err)
  | None =>
  c <- commitConf sess "create resource junos_security_utm_policy" ;;
  match snd c with
  | Some err => configClear sess ;;; ret (Some err)
  | None =>
  r <- checkUtmPolicysExists sess (u_name d) ;;
  match r with
  | Err err => ret (Some err)
  | Ok utmPolicyExists =>
  if utmPolicyExists then
    SetId (u_name d) ;;;
    resourceSecurityUtmPolicyRead sess d
  else
    ret (Some (ErrMsg ("security utm utm-policy " ++ u_name d
                       ++ " not exists after commit => check your config")))
  end end end end end end.

Definition resourceSecurityUtmPolicyUpdate (sess : Session) (d : UtmData)
  : St (option error) :=
  s <- startNewSession sess ;;
  match s with
  | Some err => ret (Some err)
  | None =>
  l <- configLock sess ;;
  match l with
  | Some err => ret (Some err)
  | None =>
  e <- delUtmPolicy sess (u_name d) ;;
  match e with
  | Some err => configClear sess ;;; ret (Some err)
  | None =>
  e <- setUtmPolicy sess d ;;
  match e with
  | Some err => configClear sess ;;; ret (Some err)
  | None =>
  c <- commitConf sess "update resource junos_security_utm_policy" ;;
  match snd c with
  | Some err => configClear sess ;;; ret (Some err)
  | None => resourceSecurityUtmPolicyRead sess d
  end end end end end.

Definition resourceSecurityUtmPolicyDelete (sess : Session) (d : UtmData)
  : St (option error) :=
  s <- startNewSession sess ;;
  match s with
  | Some err => ret (Some err)
  | None =>
  l <- configLock sess ;;
  match l with
  | Some err => ret (Some err)
  | None =>
  e <- delUtmPolicy sess (u_name d) ;;
  match e with
  | Some err => configClear sess ;;; ret (Some err)
  | None =>
  c <- commitConf sess "delete resource junos_security_utm_policy" ;;
  match snd c with
  | Some err => configClear sess ;;; ret (Some err)
  | None => ret None
  end end end end.

(** The six mutating operations of the two resources. *)
Inductive Operation :=
| InterfaceCreate (d : InterfaceData)
| InterfaceUpdate (d : InterfaceData)
| InterfaceDelete (d : InterfaceData)
| UtmCreate (d : UtmData)
| UtmUpdate (d : UtmData)
| UtmDelete (d : UtmData).

(** An operation run on a session: whether it surfaces an error, and the
    session it leaves. *)
Definition runOperation (sess : Session) (op : Operation) (j : NetconfObject)
  : bool * NetconfObject :=
  match op with
  | InterfaceCreate d =>
      let (ds, j') := resourceInterfacePhysicalCreate sess d j in (HasError ds, j')
  | InterfaceUpdate d =>
      let (ds, j') := resourceInterfacePhysicalUpdate sess d j in (HasError ds, j')
  | InterfaceDelete d =>
      let (ds, j') := resourceInterfacePhysicalDelete sess d j in (HasError ds, j')
  | UtmCreate d =>
      let (e, j') := resourceSecurityUtmPolicyCreate sess d j in
      (match e with Some _ => true | None => false end, j')
  | UtmUpdate d =>
      let (e, j') := resourceSecurityUtmPolicyUpdate sess d j in
      (match e with Some _ => true | None => false end, j')
  | UtmDelete d =>
      let (e, j') := resourceSecurityUtmPolicyDelete sess d j in
      (match e with Some _ => true | None => false end, j')
  end.

(** The names handed to the maximum search when both scans of
    [interfaceAggregatedCountSearchMax] read the same dump: the names the
    loop found, and [oldAE] again when it keeps another child. *)
Definition referencedAE (oldAE interFace showConf : string) : list string :=
  let listAEFound := listAEFoundOfLines oldAE interFace (SplitLF showConf) in
  if negb (lastChildOfLines oldAE interFace (SplitLF showConf))
  then append listAEFound oldAE else listAEFound.

(** A line that the scan counts as a parent declaration of [ae]. *)
Definition declaresParent (ae line : string) : bool :=
  negb (regexpAEchild line) && regexpAEparent line
  && String.eqb (secondWord (Fields line)) ae.

(* ===================================================================== *)
(** ** The lifecycle states of the data model                             *)
(* ===================================================================== *)



(** The classifier on a dump: the pair that [checkInterfacePhysicalNCEmpty]
    returns once the query has answered. *)
Definition classifyDump (group intConfig : string) : bool * bool :=
  ncEmptyOfLines group (intConfigLines (SplitLF intConfig)).



(* ===================================================================== *)
(** ** Sample sessions and dumps                                          *)
(* ===================================================================== *)

(** A device that answers every query with one dump and accepts every
    edit. *)
Definition sessionShowing (showConf : string) : Session :=
  {| junosGroupIntDel := ""; compatibleSecurity := true; platformModel := "";
     startNewSessionReply := fun _ => None;
     configLockReply := fun _ => None;
     commandReply := fun _ _ => Ok showConf;
     commandXMLReply := fun _ _ => Ok "";
     configSetReply := fun _ _ => None;
     commitConfReply := fun _ _ => ([], None) |}.

Definition confOneChild : string :=
  "set ae1 aggregated-ether-options lacp active" ++ String LF
  "set ge-0/0/1 ether-options 802.3ad ae7".

Definition confDeclaredParent : string :=
  "set ae7 description uplink" ++ String LF
  "set ge-0/0/1 ether-options 802.3ad ae7".

(* ===================================================================== *)
(** ** Vocabulary of the properties                                       *)
(* ===================================================================== *)



(** The lines of a dump that the loops look at: the lines that carry the
    opening marker are skipped and the closing marker ends the dump. *)
Fixpoint framedLines (items : list string) : list string :=
  match items with
  | [] => []
  | item :: rest =>
      if Contains item "<configuration-output>" then framedLines rest
      else if Contains item "</configuration-output>" then []
      else item :: framedLines rest
  end.

(** A [set unit] statement that is not an ethernet-switching one. *)
Definition sonUnitLine (item : string) : bool :=
  HasPrefix item "set unit" && negb (Contains item "ethernet-switching").

Definition sampleInterface (nm ether : string) : InterfaceData :=
  {| d_name := nm; d_no_disable_on_destroy := false; d_ae_lacp := "";
     d_ae_link_speed := ""; d_ae_minimum_links := 0; d_description := "";
     d_esi := []; d_ether802_3ad := ether; d_ether802_3ad_old := ether;
     d_trunk := false; d_vlan_members := []; d_vlan_native := 0;
     d_vlan_tagging := false |}.

Definition sampleUtm (av : list (option utmProfile)) : UtmData :=
  {| u_name := "p1"; u_anti_spam_smtp_profile := ""; u_anti_virus := av;
     u_content_filtering := []; u_traffic_sessions_per_client := [];
     u_web_filtering_profile := "web" |}.

(** An operation gets to its edits when the session opens and, for the UTM
    policy (whose operations return on a failed lock, and whose creation
    first checks the platform), the lock is taken. *)
Definition reachesEdits (sess : Session) (op : Operation) (j : NetconfObject) : bool :=
  match startNewSessionReply sess (tick j) with
  | Some _ => false
  | None =>
      match op with
      | InterfaceCreate _ | InterfaceUpdate _ | InterfaceDelete _ => true
      | UtmCreate _ =>
          compatibleSecurity sess
          && match configLockReply sess (S (tick j)) with None => true | Some _ => false end
      | UtmUpdate _ | UtmDelete _ =>
          match configLockReply sess (S (tick j)) with None => true | Some _ => false end
      end
  end.

(** A step never forgets a commit and never takes back a discard. *)
Definition grows {A} (c : St A) : Prop :=
  forall j,
    (List.length (commits j) <= List.length (commits (snd (c j))))%nat
    /\ (discards j <= discards (snd (c j)))%nat.

(** How an operation can end: it returned before its edits with the
    session as it was; or it discarded the pending edits; or it committed. *)
Definition outcomeOf (sess : Session) (op : Operation) (j : NetconfObject)
  (r : bool * NetconfObject) : Prop :=
  (reachesEdits sess op j = false /\ fst r = true
   /\ staged (snd r) = staged j /\ commits (snd r) = commits j)
  \/ (reachesEdits sess op j = true /\ staged (snd r) = []
      /\ (discards j < discards (snd r))%nat)
  \/ (reachesEdits sess op j = true
      /\ (List.length (commits j) < List.length (commits (snd r)))%nat).


(** A device that refuses every edit. *)
Definition sessionRefusingEdits : Session :=
  {| junosGroupIntDel := ""; compatibleSecurity := true; platformModel := "";
     startNewSessionReply := fun _ => None;
     configLockReply := fun _ => None;
     commandReply := fun _ _ => Ok emptyWord;
     commandXMLReply := fun _ _ => Ok "";
     configSetReply := fun _ _ => Some (ErrTransport "edit refused");
     commitConfReply := fun _ _ => ([], None) |}.

(** The name of the aggregated interface of index [k]. *)
Definition aeName (k : Z) : string := "ae" ++ Itoa k.

(** The greatest of a list of indices ([-1] for none). *)
Definition maxIndex (ks : list Z) : Z := fold_right Z.max (-1) ks.

(** Insertion sort on indices, the image of [sortStringsLength] on names. *)
Fixpoint insertIndex (x : Z) (l : list Z) : list Z :=
  match l with
  | [] => [x]
  | y :: l' => if y <? x then y :: insertIndex x l' else x :: l
  end.

Definition sortIndex (l : list Z) : list Z := fold_right insertIndex [] l.

Definition confThreeParents : string :=
  "set ae1 aggregated-ether-options lacp active" ++ String LF
  ("set ae3 aggregated-ether-options lacp active" ++ String LF
   "set ae7 aggregated-ether-options lacp active").

(** A device that accepts every edit and answers the scan of all the
    interfaces with [showConf] and every other query with [intConfig]. *)
Definition sessionWith (intConfig showConf : string) : Session :=
  {| junosGroupIntDel := ""; compatibleSecurity := true; platformModel := "";
     startNewSessionReply := fun _ => None;
     configLockReply := fun _ => None;
     commandReply := fun _ cmd =>
       if String.eqb cmd showInterfaces then Ok showConf else Ok intConfig;
     commandXMLReply := fun _ _ => Ok "";
     configSetReply := fun _ _ => None;
     commitConfReply := fun _ _ => ([], None) |}.

Definition confTwoChildren : string :=
  "set ge-0/0/1 ether-options 802.3ad ae3" ++ String LF
  "set ge-0/0/2 ether-options 802.3ad ae3".

Definition confSoleChild : string := "set ge-0/0/1 ether-options 802.3ad ae3".

(** Whether [delInterfacePhysical] recomputes the count for [d]: the
    interface is an aggregated parent, or a child that the last-child
    check finds alone. *)
Definition recomputesCount (d : InterfaceData) (showConf : string) : bool :=
  HasPrefix (d_name d) "ae"
  || (negb (String.eqb (d_ether802_3ad d) "")
      && lastChildOfLines (d_ether802_3ad d) (d_name d) (SplitLF showConf)).

(** The binding that the recomputation excludes. *)
Definition deletedBinding (d : InterfaceData) : string :=
  if HasPrefix (d_name d) "ae" then d_name d else d_ether802_3ad d.

(** The lines of a dump that [readInterfacePhysical] dispatches on: the
    unit lines that are not ethernet-switching ones are skipped first,
    then the framing is removed. *)
Fixpoint interfaceLines (items : list string) : list string :=
  match items with
  | [] => []
  | item :: rest =>
      if Contains item " unit " && negb (Contains item "ethernet-switching")
      then interfaceLines rest
      else if Contains item "<configuration-output>" then interfaceLines rest
      else if Contains item "</configuration-output>" then []
      else item :: interfaceLines rest
  end.

(** The text that a trimmed statement gives to [strconv.Atoi], when the
    statement projects a numeric field. *)
Definition utmNumericText (itemTrim : string) : option string :=
  if HasPrefix itemTrim "traffic-options sessions-per-client limit "
  then Some (TrimPrefix itemTrim "traffic-options sessions-per-client limit ")
  else None.

Definition interfaceNumericText (itemTrim : string) : option string :=
  if HasPrefix itemTrim "aggregated-ether-options minimum-links "
  then Some (TrimPrefix itemTrim "aggregated-ether-options minimum-links ")
  else if HasPrefix itemTrim "native-vlan-id"
  then Some (TrimPrefix itemTrim "native-vlan-id ")
  else None.

(** A dumped line whose numeric text cannot be parsed. *)
Definition unparsable (numericText : string -> option string) (item : string) : bool :=
  match numericText (TrimPrefix item setLineStart) with
  | Some txt => isErr (Atoi txt)
  | None => false
  end.

(** The patterns the two decoders know. *)
Definition utmKnown (itemTrim : string) : bool :=
  HasPrefix itemTrim "anti-spam smtp-profile "
  || HasPrefix itemTrim "anti-virus "
  || HasPrefix itemTrim "content-filtering "
  || HasPrefix itemTrim "traffic-options sessions-per-client "
  || HasPrefix itemTrim "web-filtering http-profile ".

Definition interfaceKnown (itemTrim : string) : bool :=
  HasPrefix itemTrim "aggregated-ether-options lacp "
  || HasPrefix itemTrim "aggregated-ether-options link-speed "
  || HasPrefix itemTrim "aggregated-ether-options minimum-links "
  || HasPrefix itemTrim "description "
  || HasPrefix itemTrim "esi "
  || HasPrefix itemTrim "ether-options 802.3ad "
  || HasPrefix itemTrim "gigether-options 802.3ad "
  || HasPrefix itemTrim "native-vlan-id"
  || String.eqb itemTrim "unit 0 family ethernet-switching interface-mode trunk"
  || HasPrefix itemTrim "unit 0 family ethernet-switching vlan members"
  || String.eqb itemTrim "vlan-tagging".

(** The texts an error value carries. *)
Fixpoint errorTexts (e : error) : list string :=
  match e with
  | ErrTransport msg => [msg]
  | ErrNum fn num _ => [fn; num]
  | ErrMsg msg => [msg]
  | ErrWrap msg inner => msg :: errorTexts inner
  end.

(** An error names a statement when one of its texts contains it. *)
Definition errorNames (e : error) (stmt : string) : Prop :=
  exists t, In t (errorTexts e) /\ Contains t stmt = true.

(* ===================================================================== *)
(** ** The device side of the round trip                                  *)
(* ===================================================================== *)

(** What the device shows of one staged statement under [display set
    relative] for the path of [setPrefix]: the statement without that
    path, or nothing when the statement is under another path. *)
Definition relativeLine (setPrefix stmt : string) : option string :=
  match cutPrefix setPrefix stmt with
  | Some r => Some (setLineStart ++ r)
  | None => None
  end.

Fixpoint relativeLines (setPrefix : string) (stmts : list string) : list string :=
  match stmts with
  | [] => []
  | s :: rest =>
      match relativeLine setPrefix s with
      | Some l => l :: relativeLines setPrefix rest
      | None => relativeLines setPrefix rest
      end
  end.

(** The dump of the path once the statements are applied to an empty
    path: the empty-dump sentinel when nothing is under the path. *)
Definition relativeDump (setPrefix : string) (stmts : list string) : string :=
  match relativeLines setPrefix stmts with
  | [] => emptyWord
  | ls => JoinLF ls
  end.

(** A line that the framing of the decoders lets through: no line break
    and no framing marker in it. *)
Definition cleanLine (line : string) : bool :=
  noByte LF line
  && negb (Contains line "<configuration-output>")
  && negb (Contains line "</configuration-output>").

(** A value that is written between double quotes and read back by
    trimming them: it neither begins nor ends with a double quote. *)
Definition quotable (v : string) : bool := String.eqb (TrimQuote v) v.

Definition profileQuotable (p : utmProfile) : bool :=
  quotable (ftp_download_profile p) && quotable (ftp_upload_profile p)
  && quotable (http_profile p) && quotable (imap_profile p)
  && quotable (pop3_profile p) && quotable (smtp_profile p).

Definition blockValid {A} (ok : A -> bool) (l : list (option A)) : bool :=
  match l with
  | [] => true
  | [Some p] => ok p
  | _ => false
  end.

(** The valid UTM policy option sets: at most one block of each kind and
    none empty, quoted values that can be quoted, a session limit that is
    an int, and statements that carry no line break or framing marker. *)
Definition validUtm (d : UtmData) : bool :=
  quotable (u_anti_spam_smtp_profile d)
  && quotable (u_web_filtering_profile d)
  && blockValid profileQuotable (u_anti_virus d)
  && blockValid profileQuotable (u_content_filtering d)
  && blockValid (fun t => (minInt <=? limit t) && (limit t <=? maxInt))
       (u_traffic_sessions_per_client d)
  && match utmConfigSetFrom setLineStart d with
     | Ok lines => forallb cleanLine lines
     | Err _ => false
     end.

(** Normalization: a block none of whose fields is populated is no block,
    and a policy none of whose fields is populated is no policy. *)
Definition normalizeProfile (l : list (option utmProfile)) : list utmProfile :=
  match l with
  | [Some p] => match profileConfigSet "" p with [] => [] | _ => [p] end
  | _ => []
  end.

Definition normalizeTraffic (l : list (option utmTraffic)) : list utmTraffic :=
  match l with
  | [Some t] => match trafficConfigSet "" t with [] => [] | _ => [t] end
  | _ => []
  end.

Definition normalizeUtm (d : UtmData) : utmPolicyOptions :=
  {| name := match utmConfigSet d with Ok (_ :: _) => u_name d | _ => "" end;
     antiSpamSMTPProfile := u_anti_spam_smtp_profile d;
     webFilteringProfile := u_web_filtering_profile d;
     antiVirus := normalizeProfile (u_anti_virus d);
     contentFiltering := normalizeProfile (u_content_filtering d);
     trafficSessionsPerClient := normalizeTraffic (u_traffic_sessions_per_client d) |}.

(** The decoding loop on lines that need no framing. *)
Fixpoint readUtmItems (c : utmPolicyOptions) (lines : list string)
  : result utmPolicyOptions :=
  match lines with
  | [] => Ok c
  | l :: rest =>
      match readUtmItem c (TrimPrefix l setLineStart) with
      | Err e => Err e
      | Ok c' => readUtmItems c' rest
      end
  end.

(** The two binding statements of a child, under a prefix. *)
Definition etherConfigSet (setPrefix : string) (d : InterfaceData) : list string :=
  if HasPrefix (d_name d) "ae" then []
  else if negb (String.eqb (d_ether802_3ad d) "")
  then [setPrefix ++ "ether-options 802.3ad " ++ d_ether802_3ad d;
        setPrefix ++ "gigether-options 802.3ad " ++ d_ether802_3ad d]
  else [].








Definition sampleTrunk : InterfaceData :=
  {| d_name := "ge-0/0/3"; d_no_disable_on_destroy := false; d_ae_lacp := "";
     d_ae_link_speed := ""; d_ae_minimum_links := 0; d_description := "uplink to core";
     d_esi := []; d_ether802_3ad := ""; d_ether802_3ad_old := "";
     d_trunk := true; d_vlan_members := ["v10"; "v20"]; d_vlan_native := 10;
     d_vlan_tagging := false |}.

Definition sampleProfile : utmProfile :=
  {| ftp_download_profile := ""; ftp_upload_profile := ""; http_profile := "av http";
     imap_profile := ""; pop3_profile := ""; smtp_profile := "av-smtp" |}.

Definition samplePolicy : UtmData :=
  {| u_name := "p1"; u_anti_spam_smtp_profile := "spam1";
     u_anti_virus := [Some sampleProfile]; u_content_filtering := [];
     u_traffic_sessions_per_client := [Some {| limit := 100; over_limit := "block" |}];
     u_web_filtering_profile := "" |}.




(* ===================================================================== *)
(** ** Schema checks, read entry point, import and the copy into the data *)
(* ===================================================================== *)

(** [strings.Count(s, ".")]: how many bytes of [s] are the dot. *)
Fixpoint countDots (s : string) : nat :=
  match s with
  | EmptyString => O
  | String c s' => if Ascii.eqb c "." then S (countDots s') else countDots s'
  end.


(** The [ValidateFunc] of the key [ether802_3ad]: whether it appends an
    error ([!strings.HasPrefix(value, "ae")]). *)
Definition ether802_3adValidateFails (value : string) : bool :=
  negb (HasPrefix value "ae").

(** The class of the regular expression of the schema key [identifier].
    The expression is written in a raw string with doubled backslashes,
    so each class holds an escaped backslash and the letters d and w. *)
Definition isSchemaIdByte (c : ascii) : bool :=
  Ascii.eqb c "092" || Ascii.eqb c "d" || Ascii.eqb c "w".

(** [n] times two bytes of the class and a colon, then two bytes of the
    class and the end of the text. *)
Fixpoint schemaIdGroups (n : nat) (s : string) : bool :=
  match s with
  | String a (String b r) =>
      isSchemaIdByte a && isSchemaIdByte b &&
      match n with
      | O => String.eqb r ""
      | S n' => match r with
                | String c r' => Ascii.eqb c ":" && schemaIdGroups n' r'
                | EmptyString => false
                end
      end
  | _ => false
  end.

(** The expression handed to [validation.StringMatch] for [identifier]:
    ten groups with a colon, one without, anchored at both ends. *)
Definition regexpEsiIdentifierSchema (s : string) : bool := schemaIdGroups 10 s.

(** [resourceInterfacePhysicalRead]: a session of its own, then the read
    with that session. *)
Definition resourceInterfacePhysicalRead (sess : Session) (d : InterfaceData)
  : St Diagnostics :=
  s <- startNewSession sess ;;
  match s with
  | Some err => ret (FromErr err)
  | None => resourceInterfacePhysicalReadWJnprSess sess d
  end.

(** [fillInterfacePhysicalData]: the ten [d.Set]; the keys [name] and
    [no_disable_on_destroy] and the prior value of [ether802_3ad] are not
    written.  A decoded esi map is a block that is not [nil]. *)
Definition fillInterfacePhysicalData (d : InterfaceData)
  (interfaceOpt : interfacePhysicalOptions) : InterfaceData :=
  {| d_name := d_name d;
     d_no_disable_on_destroy := d_no_disable_on_destroy d;
     d_ae_lacp := aeLacp interfaceOpt;
     d_ae_link_speed := aeLinkSpeed interfaceOpt;
     d_ae_minimum_links := aeMinLink interfaceOpt;
     d_description := description interfaceOpt;
     d_esi := map Some (esi interfaceOpt);
     d_ether802_3ad := v8023ad interfaceOpt;
     d_ether802_3ad_old := d_ether802_3ad_old d;
     d_trunk := trunk interfaceOpt;
     d_vlan_members := vlanMembers interfaceOpt;
     d_vlan_native := vlanNative interfaceOpt;
     d_vlan_tagging := vlanTagging interfaceOpt |}.

(** [d.Set("name", d.Id())]. *)
Definition setName (d : InterfaceData) (id : string) : InterfaceData :=
  {| d_name := id;
     d_no_disable_on_destroy := d_no_disable_on_destroy d;
     d_ae_lacp := d_ae_lacp d; d_ae_link_speed := d_ae_link_speed d;
     d_ae_minimum_links := d_ae_minimum_links d; d_description := d_description d;
     d_esi := d_esi d; d_ether802_3ad := d_ether802_3ad d;
     d_ether802_3ad_old := d_ether802_3ad_old d; d_trunk := d_trunk d;
     d_vlan_members := d_vlan_members d; d_vlan_native := d_vlan_native d;
     d_vlan_tagging := d_vlan_tagging d |}.

(** [resourceInterfacePhysicalImport]: [id] is what [d.Id()] answers. *)
Definition resourceInterfacePhysicalImport (sess : Session) (d : InterfaceData)
  (id : string) : St (result (list InterfaceData)) :=
  if negb (Nat.eqb (countDots id) 0) then
    ret (Err (ErrMsg ("name of interface " ++ id ++ " need to doesn't have a dot")))
  else
  s <- startNewSession sess ;;
  match s with
  | Some err => ret (Err err)
  | None =>
  r <- checkInterfacePhysicalNCEmpty sess id ;;
  match r with
  | Err err => ret (Err err)
  | Ok (ncInt, emptyInt) =>
  if ncInt then
    ret (Err (ErrMsg ("interface '" ++ id ++ "' is disabled, import is not possible")))
  else
  x <- (if emptyInt then checkInterfaceExists sess id else ret (Ok true)) ;;
  match x with
  | Err err => ret (Err err)
  | Ok intExists =>
  if negb intExists then
    ret (Err (ErrMsg ("don't find interface with id '" ++ id
                      ++ "' (id must be <name>)")))
  else
  o <- readInterfacePhysical sess id ;;
  match o with
  | Err err => ret (Err err)
  | Ok interfaceOpt => ret (Ok [fillInterfacePhysicalData (setName d id) interfaceOpt])
  end end end end.

(** [fillUtmPolicyData]: the six [d.Set]. *)
Definition fillUtmPolicyData (d : UtmData) (o : utmPolicyOptions) : UtmData :=
  {| u_name := name o;
     u_anti_spam_smtp_profile := antiSpamSMTPProfile o;
     u_anti_virus := map Some (antiVirus o);
     u_content_filtering := map Some (contentFiltering o);
     u_traffic_sessions_per_client := map Some (trafficSessionsPerClient o);
     u_web_filtering_profile := webFilteringProfile o |}.

(** [resourceSecurityUtmPolicyImport]. *)
Definition resourceSecurityUtmPolicyImport (sess : Session) (d : UtmData)
  (id : string) : St (result (list UtmData)) :=
  s <- startNewSession sess ;;
  match s with
  | Some err => ret (Err err)
  | None =>
  r <- checkUtmPolicysExists sess id ;;
  match r with
  | Err err => ret (Err err)
  | Ok utmPolicyExists =>
  if negb utmPolicyExists then
    ret (Err (ErrMsg ("don't find security utm utm-policy with id '" ++ id
                      ++ "' (id must be <name>)")))
  else
  o <- readUtmPolicy sess id ;;
  match o with
  | Err err => ret (Err err)
  | Ok opts => ret (Ok [fillUtmPolicyData d opts])
  end end end.

(** ** Vocabulary of the further properties *)

(** Every byte of a string satisfies a test. *)
Fixpoint everyByte (p : ascii -> bool) (s : string) : bool :=
  match s with
  | EmptyString => true
  | String c s' => p c && everyByte p s'
  end.

(** A step that leaves the candidate configuration and the transaction
    counters as they are. *)
Definition readOnly {A} (c : St A) : Prop :=
  forall j,
    staged (snd (c j)) = staged j /\ commits (snd (c j)) = commits j
    /\ locks (snd (c j)) = locks j /\ discards (snd (c j)) = discards j.

(** A statement within the reach of [setInterfacePhysical] for the path
    of [setPrefix]: under that path, or the chassis device count. *)
Definition ownStatement (setPrefix s : string) : Prop :=
  HasPrefix s setPrefix = true \/ exists count, s = deviceCountSet count.

(** An aggregated parent whose options are all set. *)
Definition sampleParent : InterfaceData :=
  {| d_name := "ae2"; d_no_disable_on_destroy := false; d_ae_lacp := "active";
     d_ae_link_speed := "10g"; d_ae_minimum_links := 2; d_description := "";
     d_esi := []; d_ether802_3ad := ""; d_ether802_3ad_old := "";
     d_trunk := false; d_vlan_members := []; d_vlan_native := 0;
     d_vlan_tagging := true |}.

(** A physical port that is given the lacp mode of an aggregated parent. *)
Definition samplePortWithLacp : InterfaceData :=
  {| d_name := "ge-0/0/5"; d_no_disable_on_destroy := false; d_ae_lacp := "active";
     d_ae_link_speed := ""; d_ae_minimum_links := 0; d_description := "";
     d_esi := []; d_ether802_3ad := ""; d_ether802_3ad_old := "";
     d_trunk := false; d_vlan_members := []; d_vlan_native := 0;
     d_vlan_tagging := false |}.

(** A device like [sessionShowing] on which a group parks the deleted
    interfaces. *)
Definition sessionParkingByGroup (group showConf : string) : Session :=
  {| junosGroupIntDel := group; compatibleSecurity := true; platformModel := "";
     startNewSessionReply := fun _ => None;
     configLockReply := fun _ => None;
     commandReply := fun _ _ => Ok showConf;
     commandXMLReply := fun _ _ => Ok "";
     configSetReply := fun _ _ => None;
     commitConfReply := fun _ _ => ([], None) |}.

(** The dump of an interface that carries two logical units and nothing
    of its own. *)
Definition confOnlyUnits : string :=
  "set unit 0 family inet address 192.0.2.1/24" ++ String LF
  "set unit 1 vlan-id 10".

(** The statements of [delInterfacePhysicalOpts]. *)
Definition optionDeletes (d : InterfaceData) : list string :=
  let delPrefix := "delete interfaces " ++ d_name d ++ " " in
  [delPrefix ++ "aggregated-ether-options";
   delPrefix ++ "esi";
   delPrefix ++ "ether-options 802.3ad";
   delPrefix ++ "gigether-options 802.3ad";
   delPrefix ++ "native-vlan-id";
   delPrefix ++ "unit 0 family ethernet-switching interface-mode";
   delPrefix ++ "unit 0 family ethernet-switching vlan members";
   delPrefix ++ "vlan-tagging"].

(** A statement that touches the description of an interface: it sets or
    deletes something at the path of the description. *)
Definition touchesDescription (interFace s : string) : bool :=
  HasPrefix s ("set interfaces " ++ interFace ++ " description")
  || HasPrefix s ("delete interfaces " ++ interFace ++ " description").

(** A statement that [setInterfacePhysical] may stage for [d]. *)
Definition settingOf (d : InterfaceData) (s : string) : Prop :=
  ownStatement ("set interfaces " ++ d_name d ++ " ") s
  /\ (d_description d = "" -> touchesDescription (d_name d) s = false).

(** The statement that parks an interface. *)
Definition parkingStatement (sess : Session) (interFace : string) : string :=
  if String.eqb (junosGroupIntDel sess) ""
  then "set interfaces " ++ interFace ++ " disable description NC"
  else "set interfaces " ++ interFace ++ " apply-groups " ++ junosGroupIntDel sess.

(** The statements that un-park an interface ([delInterfaceNC]). *)
Definition unparkingStatements (sess : Session) (d : InterfaceData) : list string :=
  let delPrefix := "delete interfaces " ++ d_name d ++ " " in
  app (if negb (String.eqb (junosGroupIntDel sess) "")
       then [delPrefix ++ "apply-groups " ++ junosGroupIntDel sess] else [])
      [delPrefix ++ "description"; delPrefix ++ "disable"].

(** What [delInterfacePhysical] stages when it returns no error: the
    deletion of the interface, then at most one device-count statement. *)
Definition deletionOf (d : InterfaceData) (emitted : list string) : Prop :=
  emitted = ["delete interfaces " ++ d_name d]
  \/ emitted = ["delete interfaces " ++ d_name d; deviceCountDelete]
  \/ exists count, emitted = ["delete interfaces " ++ d_name d; deviceCountSet count].

(** An update of the trunk port that leaves the description empty. *)
Definition sampleTrunkNoDescription : InterfaceData :=
  {| d_name := "ge-0/0/3"; d_no_disable_on_destroy := false; d_ae_lacp := "";
     d_ae_link_speed := ""; d_ae_minimum_links := 0; d_description := "";
     d_esi := []; d_ether802_3ad := ""; d_ether802_3ad_old := "";
     d_trunk := true; d_vlan_members := ["v10"]; d_vlan_native := 0;
     d_vlan_tagging := false |}.

(** The query of [checkInterfaceExists]. *)
Definition rpcInterfaceInformation (interFace : string) : string :=
  "<get-interface-information><interface-name>" ++ interFace
  ++ "</interface-name></get-interface-information>".

(** A device like [sessionShowing] that fails every query of the
    interface information and reports one warning at each commit. *)
Definition sessionLosingInterfaceInformation (showConf : string) : Session :=
  {| junosGroupIntDel := ""; compatibleSecurity := true; platformModel := "";
     startNewSessionReply := fun _ => None;
     configLockReply := fun _ => None;
     commandReply := fun _ _ => Ok showConf;
     commandXMLReply := fun _ _ => Err (ErrTransport "rpc timeout");
     configSetReply := fun _ _ => None;
     commitConfReply := fun _ _ => ([ErrMsg "commit warning"], None) |}.

(** A device like [sessionShowing] that reports one warning at each
    commit. *)
Definition sessionWarning (showConf : string) : Session :=
  {| junosGroupIntDel := ""; compatibleSecurity := true; platformModel := "";
     startNewSessionReply := fun _ => None;
     configLockReply := fun _ => None;
     commandReply := fun _ _ => Ok showConf;
     commandXMLReply := fun _ _ => Ok "";
     configSetReply := fun _ _ => None;
     commitConfReply := fun _ _ => ([ErrMsg "commit warning"], None) |}.

(** The dump of a parked interface. *)
Definition confParked : string :=
  "set description NC" ++ String LF "set disable".

(** A device that shows a parked interface before the first commit and a
    configured one after it, and accepts every edit. *)
Definition sessionUnparking : Session :=
  {| junosGroupIntDel := ""; compatibleSecurity := true; platformModel := "";
     startNewSessionReply := fun _ => None;
     configLockReply := fun _ => None;
     commandReply := fun t _ =>
       if Nat.leb t 2 then Ok confParked else Ok "set vlan-tagging";
     commandXMLReply := fun _ _ => Ok "";
     configSetReply := fun _ _ => None;
     commitConfReply := fun _ _ => ([], None) |}.

(** The statement of [delUtmPolicy]. *)
Definition utmDeletion (policy : string) : string :=
  "delete security utm utm-policy " ++ dq ++ policy ++ dq.

(** A device that accepts every edit, knows no policy before the first
    commit and shows [policyConfig] for every policy after it. *)
Definition sessionCreatingPolicy (policyConfig : string) : Session :=
  {| junosGroupIntDel := ""; compatibleSecurity := true; platformModel := "";
     startNewSessionReply := fun _ => None;
     configLockReply := fun _ => None;
     commandReply := fun t _ => if Nat.leb t 2 then Ok emptyWord else Ok policyConfig;
     commandXMLReply := fun _ _ => Ok "";
     configSetReply := fun _ _ => None;
     commitConfReply := fun _ _ => ([], None) |}.

(** A device like [sessionShowing] on which the configuration is locked
    by another session. *)
Definition sessionLocked (showConf : string) : Session :=
  {| junosGroupIntDel := ""; compatibleSecurity := true; platformModel := "";
     startNewSessionReply := fun _ => None;
     configLockReply := fun _ => Some (ErrTransport "configuration database locked");
     commandReply := fun _ _ => Ok showConf;
     commandXMLReply := fun _ _ => Ok "";
     configSetReply := fun _ _ => None;
     commitConfReply := fun _ _ => ([], None) |}.

(** A session whose answers to [configLock] are replaced. *)
Definition withLockReply (sess : Session) (reply : nat -> option error) : Session :=
  {| junosGroupIntDel := junosGroupIntDel sess;
     compatibleSecurity := compatibleSecurity sess;
     platformModel := platformModel sess;
     startNewSessionReply := startNewSessionReply sess;
     configLockReply := reply;
     commandReply := commandReply sess;
     commandXMLReply := commandXMLReply sess;
     configSetReply := configSetReply sess;
     commitConfReply := commitConfReply sess |}.

(** Two sessions that differ at most by the count of the locks taken. *)
Definition sameButLocks (j1 j2 : NetconfObject) : Prop :=
  tick j1 = tick j2 /\ staged j1 = staged j2 /\ commits j1 = commits j2
  /\ discards j1 = discards j2 /\ resourceId j1 = resourceId j2.

(** A step whose result and effects do not depend on the locks taken. *)
Definition lockBlind {A} (c : St A) : Prop :=
  forall j1 j2,
    sameButLocks j1 j2 ->
    fst (c j1) = fst (c j2) /\ sameButLocks (snd (c j1)) (snd (c j2)).

(** A device like [sessionShowing] that is not a security platform. *)
Definition sessionNotSecurity (model : string) : Session :=
  {| junosGroupIntDel := ""; compatibleSecurity := false; platformModel := model;
     startNewSessionReply := fun _ => None;
     configLockReply := fun _ => None;
     commandReply := fun _ _ => Ok emptyWord;
     commandXMLReply := fun _ _ => Ok "";
     configSetReply := fun _ _ => None;
     commitConfReply := fun _ _ => ([], None) |}.

(** A port bound to a name that begins with ae and holds no index. *)
Definition samplePortBadBinding : InterfaceData :=
  {| d_name := "ge-0/0/6"; d_no_disable_on_destroy := false; d_ae_lacp := "";
     d_ae_link_speed := ""; d_ae_minimum_links := 0; d_description := "";
     d_esi := [Some {| mode := "all-active"; auto_derive_lacp := false;
                       df_election_type := ""; identifier := ""; source_bmac := "" |}];
     d_ether802_3ad := "aeX"; d_ether802_3ad_old := "";
     d_trunk := false; d_vlan_members := []; d_vlan_native := 0;
     d_vlan_tagging := false |}.

(** A device that knows no interface: the query of the interface
    information answers that the device is not found. *)
Definition sessionMissingInterface (showConf : string) : Session :=
  {| junosGroupIntDel := ""; compatibleSecurity := true; platformModel := "";
     startNewSessionReply := fun _ => None;
     configLockReply := fun _ => None;
     commandReply := fun _ _ => Ok showConf;
     commandXMLReply := fun _ _ => Ok ("error: device ge-0/0/9 not found" ++ String LF "");
     configSetReply := fun _ _ => None;
     commitConfReply := fun _ _ => ([], None) |}.

(* ===================================================================== *)
(** * Properties                                                          *)
(* ===================================================================== *)

(** ** Strings *)

Lemma cutPrefix_app p r : cutPrefix p (p ++ r) = Some r.
Proof.
  induction p as [|a p IH]; simpl; [reflexivity|].
  now rewrite Ascii.eqb_refl.
Qed.

Lemma cutPrefix_Some p s r : cutPrefix p s = Some r -> s = p ++ r.
Proof.
  revert s; induction p as [|a p IH]; simpl; intros s H.
  - now inversion H.
  - destruct s as [|b s]; [discriminate|].
    destruct (Ascii.eqb a b) eqn:E; [|discriminate].
    apply Ascii.eqb_eq in E; subst b. now rewrite (IH _ H).
Qed.

Lemma HasPrefix_app p r : HasPrefix (p ++ r) p = true.
Proof. unfold HasPrefix. now rewrite cutPrefix_app. Qed.

Lemma TrimPrefix_app p r : TrimPrefix (p ++ r) p = r.
Proof. unfold TrimPrefix. now rewrite cutPrefix_app. Qed.



Lemma SplitLF_noLF s : noByte LF s = true -> SplitLF s = [s].
Proof.
  induction s as [|c s IH]; simpl; intros H; [reflexivity|].
  apply andb_true_iff in H as [Hc Hs].
  apply negb_true_iff in Hc. rewrite Hc, (IH Hs). reflexivity.
Qed.

Lemma SplitLF_app_LF a b :
  noByte LF a = true -> SplitLF (a ++ String LF b) = a :: SplitLF b.
Proof.
  induction a as [|c a IH]; simpl; intros H.
  - reflexivity.
  - apply andb_true_iff in H as [Hc Ha].
    apply negb_true_iff in Hc. rewrite Hc, (IH Ha). reflexivity.
Qed.


Lemma SplitLF_JoinLF lines :
  lines <> [] -> Forall (fun l => noByte LF l = true) lines ->
  SplitLF (JoinLF lines) = lines.
Proof.
  induction lines as [|l ls IH]; intros Hne Hall; [congruence|].
  inversion Hall as [|? ? Hl Hls]; subst.
  destruct ls as [|l2 ls].
  - simpl. now apply SplitLF_noLF.
  - change (JoinLF (l :: l2 :: ls)) with (l ++ String LF (JoinLF (l2 :: ls))).
    rewrite SplitLF_app_LF by assumption.
    f_equal. apply IH; [discriminate|assumption].
Qed.


(** ** The interface lifecycle classifier *)







(** ** The last-child check *)

Lemma lastChildLoop_false ae interFace items :
  lastChildLoop ae interFace false items = false.
Proof.
  induction items as [|item rest IH]; simpl; [reflexivity|].
  now destruct (_ && _).
Qed.

Lemma lastChildOfLines_iff ae interFace items :
  lastChildOfLines ae interFace items = true
  <-> forall item, In item items ->
        HasSuffix item ("ether-options 802.3ad " ++ ae) = true ->
        HasPrefix item ("set " ++ interFace ++ " ") = true.
Proof.
  unfold lastChildOfLines.
  induction items as [|item rest IH]; simpl.
  - split; [intros _ ? []|reflexivity].
  - destruct (HasSuffix item _) eqn:Hs; simpl.
    + destruct (HasPrefix item _) eqn:Hp; simpl.
      * rewrite IH. split.
        -- intros H x [<-|Hx] Hx'; [assumption|now apply H].
        -- intros H x Hx. apply H. now right.
      * rewrite lastChildLoop_false. split; [discriminate|].
        intros H. specialize (H item (or_introl eq_refl) Hs). congruence.
    + rewrite IH. split.
      * intros H x [<-|Hx] Hx'; [congruence|now apply H].
      * intros H x Hx. apply H. now right.
Qed.

Lemma listAEFound_In oldAE interFace lines x :
  interFace <> oldAE ->
  In x (listAEFoundOfLines oldAE interFace lines)
  <-> exists line, In line lines
      /\ ((regexpAEchild line = true /\ lastWord (Fields line) = x /\ x <> oldAE)
          \/ (regexpAEchild line = false /\ regexpAEparent line = true
              /\ secondWord (Fields line) = x)).
Proof.
  intros Hne. apply String.eqb_neq in Hne.
  induction lines as [|line rest IH]; simpl.
  - split; [intros []|intros (? & [] & _)].
  - rewrite in_app_iff, IH, Hne. simpl. split.
    + intros [H|(l & Hl & H)].
      * exists line. split; [now left|].
        destruct (regexpAEchild line) eqn:Ec.
        -- destruct (String.eqb (lastWord (Fields line)) oldAE) eqn:Ew; simpl in H;
             [contradiction|].
           destruct H as [<-|[]]. left. apply String.eqb_neq in Ew. auto.
        -- destruct (regexpAEparent line) eqn:Ep; simpl in H; [|contradiction].
           destruct H as [<-|[]]. right. auto.
      * exists l. split; [now right|assumption].
    + intros (l & [<-|Hl] & H).
      * left. destruct H as [(Ec & Ew & Hx)|(Ec & Ep & Ew)]; rewrite Ec.
        -- subst x. apply String.eqb_neq in Hx. rewrite Hx. simpl. now left.
        -- rewrite Ep. simpl. now left.
      * right. now exists l.
Qed.

(** C4 (as amended).  The last-child check answers true exactly when every
    line that ends with the 802.3ad binding to the parent is a line of the
    acting interface; and when it does, for an acting interface other than
    the parent, the parent is among the names the count is recomputed from
    only through a parent declaration line of its own: with no such line
    the recomputed count leaves the parent out. *)
Theorem last_child_check_and_exclusion
  (sess : Session) (j : NetconfObject) (ae interFace showConf : string) :
  commandReply sess (tick j) showInterfaces = Ok showConf ->
  (fst (interfaceAggregatedLastChild sess ae interFace j) = Ok true
   <-> forall item, In item (SplitLF showConf) ->
         HasSuffix item ("ether-options 802.3ad " ++ ae) = true ->
         HasPrefix item ("set " ++ interFace ++ " ") = true)
  /\ (fst (interfaceAggregatedLastChild sess ae interFace j) = Ok true ->
      interFace <> ae ->
      (In ae (referencedAE ae interFace showConf)
       <-> exists line, In line (SplitLF showConf) /\ declaresParent ae line = true)).
Proof.
  intros Hc.
  assert (R : fst (interfaceAggregatedLastChild sess ae interFace j)
              = Ok (lastChildOfLines ae interFace (SplitLF showConf))).
  { unfold interfaceAggregatedLastChild, bind, command. now rewrite Hc. }
  rewrite R. split.
  - rewrite <- lastChildOfLines_iff. split; [now inversion 1|now intros ->].
  - intros Hl Hne. inversion Hl as [Hl']. unfold referencedAE. rewrite Hl'. simpl.
    rewrite (listAEFound_In _ _ _ _ Hne). unfold declaresParent. split.
    + intros (line & Hin & [(_ & _ & H)|(Ec & Ep & Ew)]); [congruence|].
      exists line. split; [assumption|].
      rewrite Ec, Ep, Ew, String.eqb_refl. reflexivity.
    + intros (line & Hin & H).
      apply andb_true_iff in H as [H Ew]. apply andb_true_iff in H as [Ec Ep].
      apply negb_true_iff in Ec. apply String.eqb_eq in Ew.
      exists line. split; [assumption|]. right. auto.
Qed.

Lemma last_child_check_and_exclusion_witness :
  fst (interfaceAggregatedLastChild (sessionShowing confOneChild) "ae7" "ge-0/0/1"
         newNetconf) = Ok true
  /\ ~ In "ae7" (referencedAE "ae7" "ge-0/0/1" confOneChild)
  /\ countOfFound (-1) (referencedAE "ae7" "ge-0/0/1" confOneChild) = Ok "2".
Proof.
  pose proof (last_child_check_and_exclusion (sessionShowing confOneChild)
                newNetconf "ae7" "ge-0/0/1" confOneChild eq_refl) as [_ H].
  split; [reflexivity|]. split; [|reflexivity].
  intros Hin. apply (H eq_refl) in Hin; [|discriminate].
  destruct Hin as (line & [<-|[<-|[]]] & Hd); discriminate.
Defined.

(** The claim as the spec words it fails when the parent is itself
    declared: its only child is the acting interface, the check answers
    true, and the parent still counts (the count is 8). *)
Lemma last_child_declared_parent_still_counts :
  ~ (forall ae interFace showConf,
       lastChildOfLines ae interFace (SplitLF showConf) = true ->
       interFace <> ae ->
       ~ In ae (referencedAE ae interFace showConf))
  /\ lastChildOfLines "ae7" "ge-0/0/1" (SplitLF confDeclaredParent) = true
  /\ countOfFound (-1) (referencedAE "ae7" "ge-0/0/1" confDeclaredParent) = Ok "8".
Proof.
  split; [|split; reflexivity].
  intros H. apply (H "ae7" "ge-0/0/1" confDeclaredParent).
  - reflexivity.
  - discriminate.
  - left. reflexivity.
Qed.

(** ** The esi encoder *)



(** ** Empty blocks *)








(** ** Deleting an interface that carries units *)

Lemma containsUnitLines_framed items :
  containsUnitLines items = existsb sonUnitLine (framedLines items).
Proof.
  induction items as [|item rest IH]; simpl; [reflexivity|].
  destruct (Contains item "<configuration-output>"); [assumption|].
  destruct (Contains item "</configuration-output>"); [reflexivity|].
  simpl. unfold sonUnitLine at 1.
  destruct (HasPrefix item "set unit"); simpl; [|assumption].
  destruct (Contains item "ethernet-switching"); simpl; [assumption|reflexivity].
Qed.

(** C10.  When the dump of the interface holds a [set unit] statement that
    is not an ethernet-switching one, [delInterfacePhysical] returns the
    son-unit error after its one query and stages nothing; the delete
    operation then surfaces that error with nothing staged and nothing
    committed. *)
Theorem delete_refused_for_son_unit
  (sess : Session) (d : InterfaceData) (j : NetconfObject) (intConfig : string) :
  (forall t, commandReply sess t (showInterface (d_name d)) = Ok intConfig) ->
  (exists item, In item (framedLines (SplitLF intConfig))
                /\ HasPrefix item "set unit" = true
                /\ Contains item "ethernet-switching" = false) ->
  delInterfacePhysical sess d j = (Some (sonUnitError (d_name d)), nextTick j)
  /\ staged (snd (delInterfacePhysical sess d j)) = staged j
  /\ (startNewSessionReply sess (tick j) = None ->
      fst (resourceInterfacePhysicalDelete sess d j) = FromErr (sonUnitError (d_name d))
      /\ staged (snd (resourceInterfacePhysicalDelete sess d j)) = []
      /\ commits (snd (resourceInterfacePhysicalDelete sess d j)) = commits j).
Proof.
  intros Hc (item & Hin & Hp & He).
  assert (U : containsUnitLines (SplitLF intConfig) = true).
  { rewrite containsUnitLines_framed. apply existsb_exists.
    exists item. split; [assumption|]. unfold sonUnitLine. now rewrite Hp, He. }
  assert (D : forall j0, delInterfacePhysical sess d j0
                         = (Some (sonUnitError (d_name d)), nextTick j0)).
  { intros j0. unfold delInterfacePhysical, checkInterfacePhysicalContainsUnit,
      bind, command. rewrite Hc, U. reflexivity. }
  split; [apply D|]. split; [now rewrite D|].
  intros Hs. unfold resourceInterfacePhysicalDelete, bind, startNewSession.
  rewrite Hs. unfold configLock.
  destruct (configLockReply sess (tick (nextTick j))); rewrite D; simpl; auto.
Qed.

Lemma delete_refused_for_son_unit_witness :
  delInterfacePhysical (sessionShowing "set unit 0 family inet")
    (sampleInterface "ge-0/0/1" "") newNetconf
  = (Some (ErrMsg "interface ge-0/0/1 is used for other son unit interface"),
     nextTick newNetconf).
Proof.
  apply (delete_refused_for_son_unit (sessionShowing "set unit 0 family inet")
           (sampleInterface "ge-0/0/1" "") newNetconf "set unit 0 family inet").
  - reflexivity.
  - exists "set unit 0 family inet". repeat split. now left.
Defined.

(** ** Transactions *)

Lemma grows_ret {A} (a : A) : grows (ret a).
Proof. intros j. simpl. lia. Qed.

Lemma grows_bind {A B} (c : St A) (k : A -> St B) :
  grows c -> (forall a, grows (k a)) -> grows (bind c k).
Proof.
  intros Hc Hk j. unfold bind. specialize (Hc j).
  destruct (c j) as [a j1]. specialize (Hk a j1). simpl in *. lia.
Qed.

Lemma grows_command sess cmd : grows (command sess cmd).
Proof. intros j. simpl. lia. Qed.

Lemma grows_commandXML sess cmd : grows (commandXML sess cmd).
Proof. intros j. simpl. lia. Qed.

Lemma grows_startNewSession sess : grows (startNewSession sess).
Proof. intros j. simpl. lia. Qed.

Lemma grows_configLock sess : grows (configLock sess).
Proof. intros j. unfold configLock. destruct (configLockReply _ _); simpl; lia. Qed.

Lemma grows_configSet sess l : grows (configSet sess l).
Proof. intros j. unfold configSet. destruct (configSetReply _ _ _); simpl; lia. Qed.

Lemma grows_configClear sess : grows (configClear sess).
Proof. intros j. simpl. lia. Qed.

Lemma grows_SetId id : grows (SetId id).
Proof. intros j. simpl. lia. Qed.

Lemma grows_commitConf sess msg : grows (commitConf sess msg).
Proof.
  intros j. unfold commitConf.
  destruct (commitConfReply _ _ _) as [w [e|]]; simpl; rewrite ?length_app; simpl; lia.
Qed.

Create HintDb grows.
#[export] Hint Resolve grows_ret grows_command grows_commandXML grows_startNewSession
  grows_configLock grows_configSet grows_configClear grows_SetId grows_commitConf
  : grows.

Ltac grows_step :=
  match goal with
  | |- grows (bind _ _) => apply grows_bind; [|intros ?]
  | |- grows (match ?x with _ => _ end) => destruct x
  | |- grows _ => solve [auto with grows]
  end.

Ltac grows_tac := repeat grows_step.

Lemma grows_checkNCEmpty sess i : grows (checkInterfacePhysicalNCEmpty sess i).
Proof. unfold checkInterfacePhysicalNCEmpty. grows_tac. Qed.

Lemma grows_checkExists sess i : grows (checkInterfaceExists sess i).
Proof. unfold checkInterfaceExists. grows_tac. Qed.

Lemma grows_lastChild sess a i : grows (interfaceAggregatedLastChild sess a i).
Proof. unfold interfaceAggregatedLastChild. grows_tac. Qed.

#[export] Hint Resolve grows_checkNCEmpty grows_checkExists grows_lastChild : grows.

Lemma grows_countSearchMax sess n o i :
  grows (interfaceAggregatedCountSearchMax sess n o i).
Proof. unfold interfaceAggregatedCountSearchMax. grows_tac. Qed.

Lemma grows_readInterface sess i : grows (readInterfacePhysical sess i).
Proof. unfold readInterfacePhysical. grows_tac. Qed.

#[export] Hint Resolve grows_countSearchMax grows_readInterface : grows.

Lemma grows_setInterfacePhysical sess d : grows (setInterfacePhysical sess d).
Proof. unfold setInterfacePhysical, setIntEsi. grows_tac. Qed.

Lemma grows_delInterfacePhysical sess d : grows (delInterfacePhysical sess d).
Proof.
  unfold delInterfacePhysical, checkInterfacePhysicalContainsUnit, stageDeviceCount.
  grows_tac.
Qed.

Lemma grows_delInterfaceNC sess d : grows (delInterfaceNC sess d).
Proof. unfold delInterfaceNC. grows_tac. Qed.

Lemma grows_delInterfacePhysicalOpts sess d : grows (delInterfacePhysicalOpts sess d).
Proof. unfold delInterfacePhysicalOpts. grows_tac. Qed.

Lemma grows_addNC sess i : grows (addInterfacePhysicalNC sess i).
Proof. unfold addInterfacePhysicalNC. grows_tac. Qed.

Lemma grows_readW sess d : grows (resourceInterfacePhysicalReadWJnprSess sess d).
Proof. unfold resourceInterfacePhysicalReadWJnprSess. grows_tac. Qed.

Lemma grows_checkUtm sess p : grows (checkUtmPolicysExists sess p).
Proof. unfold checkUtmPolicysExists. grows_tac. Qed.

Lemma grows_setUtm sess d : grows (setUtmPolicy sess d).
Proof. unfold setUtmPolicy. grows_tac. Qed.

Lemma grows_delUtm sess p : grows (delUtmPolicy sess p).
Proof. unfold delUtmPolicy. grows_tac. Qed.

Lemma grows_readUtm sess p : grows (readUtmPolicy sess p).
Proof. unfold readUtmPolicy. grows_tac. Qed.

#[export] Hint Resolve grows_readUtm : grows.

Lemma grows_utmRead sess d : grows (resourceSecurityUtmPolicyRead sess d).
Proof. unfold resourceSecurityUtmPolicyRead. grows_tac. Qed.

#[export] Hint Resolve grows_setInterfacePhysical grows_delInterfacePhysical
  grows_delInterfaceNC grows_delInterfacePhysicalOpts grows_addNC grows_readW
  grows_checkUtm grows_setUtm grows_delUtm grows_utmRead : grows.

Ltac step :=
  match goal with
  | |- context [match ?c ?j with pair _ _ => _ end] =>
      let G := fresh "G" in
      let E := fresh "E" in
      assert (G : grows c) by auto with grows;
      specialize (G j); destruct (c j) as [? ?] eqn:E; simpl in G;
      rewrite ?length_app in G; simpl in G
  end.

Ltac finish :=
  simpl; unfold outcomeOf; simpl; rewrite ?length_app; simpl;
  first [ left; repeat split; solve [auto; lia]
        | right; left; repeat split; solve [auto; lia]
        | right; right; repeat split; solve [auto; lia] ].

Ltac run :=
  repeat first
    [ finish
    | match goal with
      | |- context [match ?x with Ok _ => _ | Err _ => _ end] => is_var x; destruct x
      | |- context [match ?x with Some _ => _ | None => _ end] => is_var x; destruct x
      | |- context [match ?x with pair _ _ => _ end] => is_var x; destruct x
      | |- context [if ?x then _ else _] => is_var x; destruct x
      | |- context [if negb ?x then _ else _] => is_var x; destruct x
      end
    | progress cbn beta iota zeta delta [configClear ret SetId fst snd negb andb]
    | progress unfold commitConf
    | match goal with
      | |- context [commitConfReply ?s ?t ?m] =>
          let E := fresh "Ec" in
          destruct (commitConfReply s t m) as [? [?|]] eqn:E
      | |- context [if negb ?x then _ else _] => destruct x
      end
    | step ].

Lemma outcome_InterfaceCreate sess d j :
  outcomeOf sess (InterfaceCreate d) j (runOperation sess (InterfaceCreate d) j).
Proof.
  unfold runOperation, resourceInterfacePhysicalCreate, bind.
  unfold startNewSession at 1.
  assert (R : reachesEdits sess (InterfaceCreate d) j
              = match startNewSessionReply sess (tick j) with
                | Some _ => false | None => true end) by reflexivity.
  destruct (startNewSessionReply sess (tick j)) eqn:Es; run.
Qed.

Lemma outcome_InterfaceUpdate sess d j :
  outcomeOf sess (InterfaceUpdate d) j (runOperation sess (InterfaceUpdate d) j).
Proof.
  unfold runOperation, resourceInterfacePhysicalUpdate, bind.
  unfold startNewSession at 1.
  assert (R : reachesEdits sess (InterfaceUpdate d) j
              = match startNewSessionReply sess (tick j) with
                | Some _ => false | None => true end) by reflexivity.
  destruct (startNewSessionReply sess (tick j)) eqn:Es; run.
Qed.

Lemma outcome_InterfaceDelete sess d j :
  outcomeOf sess (InterfaceDelete d) j (runOperation sess (InterfaceDelete d) j).
Proof.
  unfold runOperation, resourceInterfacePhysicalDelete, bind.
  unfold startNewSession at 1.
  assert (R : reachesEdits sess (InterfaceDelete d) j
              = match startNewSessionReply sess (tick j) with
                | Some _ => false | None => true end) by reflexivity.
  destruct (startNewSessionReply sess (tick j)) eqn:Es; run.
Qed.

Lemma outcome_UtmCreate sess d j :
  outcomeOf sess (UtmCreate d) j (runOperation sess (UtmCreate d) j).
Proof.
  unfold runOperation, resourceSecurityUtmPolicyCreate, bind.
  unfold startNewSession at 1. unfold configLock at 1.
  assert (R : reachesEdits sess (UtmCreate d) j
              = match startNewSessionReply sess (tick j) with
                | Some _ => false
                | None => compatibleSecurity sess
                          && match configLockReply sess (S (tick j)) with
                             | None => true | Some _ => false end
                end) by reflexivity.
  destruct (startNewSessionReply sess (tick j)) eqn:Es; [run|].
  destruct (compatibleSecurity sess) eqn:Ecs; simpl in *; [|run].
  destruct (configLockReply sess (S (tick j))) eqn:El; simpl in *; run.
Qed.

Lemma outcome_UtmUpdate sess d j :
  outcomeOf sess (UtmUpdate d) j (runOperation sess (UtmUpdate d) j).
Proof.
  unfold runOperation, resourceSecurityUtmPolicyUpdate, bind.
  unfold startNewSession at 1. unfold configLock at 1.
  assert (R : reachesEdits sess (UtmUpdate d) j
              = match startNewSessionReply sess (tick j) with
                | Some _ => false
                | None => match configLockReply sess (S (tick j)) with
                          | None => true | Some _ => false end
                end) by reflexivity.
  destruct (startNewSessionReply sess (tick j)) eqn:Es; [run|].
  simpl in *.
  destruct (configLockReply sess (S (tick j))) eqn:El; simpl in *; run.
Qed.

Lemma outcome_UtmDelete sess d j :
  outcomeOf sess (UtmDelete d) j (runOperation sess (UtmDelete d) j).
Proof.
  unfold runOperation, resourceSecurityUtmPolicyDelete, bind.
  unfold startNewSession at 1. unfold configLock at 1.
  assert (R : reachesEdits sess (UtmDelete d) j
              = match startNewSessionReply sess (tick j) with
                | Some _ => false
                | None => match configLockReply sess (S (tick j)) with
                          | None => true | Some _ => false end
                end) by reflexivity.
  destruct (startNewSessionReply sess (tick j)) eqn:Es; [run|].
  simpl in *.
  destruct (configLockReply sess (S (tick j))) eqn:El; simpl in *; run.
Qed.

Lemma outcome_runOperation sess op j : outcomeOf sess op j (runOperation sess op j).
Proof.
  destruct op; [apply outcome_InterfaceCreate | apply outcome_InterfaceUpdate
    | apply outcome_InterfaceDelete | apply outcome_UtmCreate
    | apply outcome_UtmUpdate | apply outcome_UtmDelete].
Qed.

(** C8.  When a mutating operation of either resource surfaces an error
    and has committed nothing, no staged statement is left; and when the
    operation had got to its edits (the failure is one of the existence
    check, a conflict, the encoder or the apply), the pending-edit discard
    was invoked before the error was returned. *)
Theorem failure_before_commit_discards
  (sess : Session) (op : Operation) (j : NetconfObject) :
  fst (runOperation sess op j) = true ->
  commits (snd (runOperation sess op j)) = commits j ->
  (staged j = [] -> staged (snd (runOperation sess op j)) = [])
  /\ (reachesEdits sess op j = true ->
      staged (snd (runOperation sess op j)) = []
      /\ (discards j < discards (snd (runOperation sess op j)))%nat).
Proof.
  intros Hf Hc.
  destruct (outcome_runOperation sess op j)
    as [(Hr & _ & Hs & _)|[(Hr & Hs & Hd)|(Hr & Hl)]].
  - split; [congruence|]. rewrite Hr. discriminate.
  - auto.
  - rewrite Hc in Hl. lia.
Qed.

Lemma failure_before_commit_discards_witness :
  staged (snd (runOperation sessionRefusingEdits (UtmUpdate (sampleUtm [])) newNetconf))
  = []
  /\ (0 < discards (snd (runOperation sessionRefusingEdits (UtmUpdate (sampleUtm []))
                           newNetconf)))%nat.
Proof.
  apply (proj2 (failure_before_commit_discards sessionRefusingEdits
                  (UtmUpdate (sampleUtm [])) newNetconf eq_refl eq_refl)).
  reflexivity.
Defined.

(** ** Decimal numerals *)

Lemma digit_cases d : 0 <= d < 10 ->
  d = 0 \/ d = 1 \/ d = 2 \/ d = 3 \/ d = 4 \/ d = 5 \/ d = 6 \/ d = 7 \/ d = 8 \/ d = 9.
Proof. lia. Qed.

Lemma digitChar_ok d : 0 <= d < 10 ->
  isDigit (digitChar d) = true /\ digitVal (digitChar d) = d.
Proof.
  intros H. destruct (digit_cases d H) as [->|[->|[->|[->|[->|[->|[->|[->|[->| ->]]]]]]]]];
    split; reflexivity.
Qed.

Lemma isDigit_val c : isDigit c = true -> 0 <= digitVal c < 10.
Proof.
  unfold isDigit, digitVal. intros H.
  apply andb_true_iff in H as [H1 H2].
  apply Nat.leb_le in H1, H2. lia.
Qed.

Lemma isDigit_not_sign c :
  isDigit c = true -> Ascii.eqb c "-" = false /\ Ascii.eqb c "+" = false.
Proof.
  intros H. split; apply Ascii.eqb_neq; intros ->; discriminate.
Qed.

Lemma length_app_1 s c : String.length (s ++ String c "") = S (String.length s).
Proof. induction s as [|x s IH]; simpl; [reflexivity|now rewrite IH]. Qed.

Lemma allDigits_app a b : allDigits (a ++ b) = allDigits a && allDigits b.
Proof.
  induction a as [|x a IH]; simpl; [reflexivity|].
  now rewrite IH, andb_assoc.
Qed.

Lemma parseDigits_app acc a b :
  parseDigits acc (a ++ b)
  = match parseDigits acc a with Some v => parseDigits v b | None => None end.
Proof.
  revert acc; induction a as [|x a IH]; intros acc; simpl; [reflexivity|].
  destruct (isDigit x); [apply IH|reflexivity].
Qed.

(** A digit string read from [acc] lies in the window of [acc]. *)
Lemma parseDigits_bounds s : forall acc,
  allDigits s = true ->
  exists v, parseDigits acc s = Some v
    /\ acc * 10 ^ Z.of_nat (String.length s) <= v
    /\ v < (acc + 1) * 10 ^ Z.of_nat (String.length s).
Proof.
  induction s as [|c s IH]; intros acc H.
  - exists acc. simpl. repeat split; lia.
  - simpl in H. apply andb_true_iff in H as [Hc Hs].
    destruct (IH (10 * acc + digitVal c) Hs) as (v & Hv & Hlo & Hhi).
    exists v. cbn [parseDigits String.length]. rewrite Hc. split; [assumption|].
    pose proof (isDigit_val c Hc) as Hd.
    rewrite Nat2Z.inj_succ, Z.pow_succ_r by lia.
    set (p := 10 ^ Z.of_nat (String.length s)) in *.
    assert (0 < p) by (apply Z.pow_pos_nonneg; lia).
    split; nia.
Qed.

(** The digits written for [n] are read back as [n], and a positive [n]
    has no leading zero: it is at least the power of ten of its length. *)
Lemma digitsOf_spec f : forall n,
  0 <= n < 2 ^ Z.of_nat f -> (0 < f)%nat ->
  let s := digitsOf f n in
  allDigits s = true /\ s <> ""
  /\ parseDigits 0 s = Some n
  /\ (0 < n -> 10 ^ (Z.of_nat (String.length s) - 1) <= n).
Proof.
  induction f as [|f IH]; intros n Hn Hf.
  - lia.
  - cbn [digitsOf]. destruct (n <? 10) eqn:E.
    + apply Z.ltb_lt in E.
      destruct (digitChar_ok n) as [Hd Hv]; [lia|].
      cbn -[Z.pow]. rewrite Hd, Hv. repeat split; try discriminate.
      intros. simpl. lia.
    + apply Z.ltb_ge in E.
      assert (Hq : 0 <= n / 10 < 2 ^ Z.of_nat f).
      { rewrite Nat2Z.inj_succ, Z.pow_succ_r in Hn by lia.
        split; [apply Z.div_pos; lia|].
        apply Z.div_lt_upper_bound; lia. }
      assert (Hf' : (0 < f)%nat).
      { destruct f; [simpl in Hn; lia|lia]. }
      destruct (IH (n / 10) Hq Hf') as (Ha & Hne & Hp & Hl).
      destruct (digitChar_ok (n mod 10)) as [Hd Hv];
        [apply Z.mod_pos_bound; lia|].
      cbn zeta. rewrite allDigits_app, parseDigits_app, Hp, length_app_1.
      cbn -[Z.pow Z.mul Z.div Z.modulo Z.of_nat Z.sub]. rewrite Ha, Hd, Hv.
      repeat split.
      * destruct (digitsOf f (n / 10)); discriminate.
      * f_equal. pose proof (Z.div_mod n 10). lia.
      * intros _.
        assert (0 < n / 10) by (apply Z.div_str_pos; lia).
        specialize (Hl H).
        replace (Z.of_nat (S (String.length (digitsOf f (n / 10)))) - 1)
          with (Z.succ (Z.of_nat (String.length (digitsOf f (n / 10))) - 1)) by lia.
        assert (0 < String.length (digitsOf f (n / 10)))%nat
          by (destruct (digitsOf f (n / 10)); [congruence|simpl; lia]).
        rewrite Z.pow_succ_r by lia.
        pose proof (Z.div_mod n 10). pose proof (Z.mod_pos_bound n 10). lia.
Qed.

Lemma uDigits_spec n : 0 <= n ->
  allDigits (uDigits n) = true /\ uDigits n <> ""
  /\ parseDigits 0 (uDigits n) = Some n
  /\ (0 < n -> 10 ^ (Z.of_nat (String.length (uDigits n)) - 1) <= n).
Proof.
  intros Hn. apply digitsOf_spec; [|lia]. split; [assumption|].
  rewrite Nat2Z.inj_succ, Z2Nat.id by apply Z.log2_nonneg.
  destruct (Z.eq_dec n 0) as [->|]; [reflexivity|].
  apply Z.log2_spec. lia.
Qed.

Lemma Atoi_uDigits n : 0 <= n <= maxInt -> Atoi (uDigits n) = Ok n.
Proof.
  intros Hn. destruct (uDigits_spec n) as (Ha & Hne & Hp & _); [lia|].
  unfold Atoi. destruct (uDigits n) as [|c s] eqn:E; [congruence|].
  simpl in Ha. apply andb_true_iff in Ha as [Hc _].
  destruct (isDigit_not_sign c Hc) as [-> ->]. simpl orb. cbv iota.
  rewrite Hp.
  replace ((minInt <=? n) && (n <=? maxInt)) with true; [reflexivity|].
  symmetry. apply andb_true_iff. unfold minInt, maxInt in *. split; lia.
Qed.

Lemma Atoi_Itoa z : minInt <= z <= maxInt -> Atoi (Itoa z) = Ok z.
Proof.
  intros Hz. unfold Itoa. destruct (z <? 0) eqn:E.
  - apply Z.ltb_lt in E.
    destruct (uDigits_spec (- z)) as (Ha & Hne & Hp & _); [lia|].
    unfold Atoi. simpl orb. cbv iota.
    destruct (uDigits (- z)) as [|c s] eqn:Eu; [congruence|].
    change (Ascii.eqb "-" "-") with true. cbv iota. rewrite Hp.
    replace (- - z) with z by lia.
    replace ((minInt <=? z) && (z <=? maxInt)) with true; [reflexivity|].
    symmetry. apply andb_true_iff. split; lia.
  - apply Z.ltb_ge in E. apply Atoi_uDigits. lia.
Qed.

Lemma Itoa_inj a b :
  minInt <= a <= maxInt -> minInt <= b <= maxInt -> Itoa a = Itoa b -> a = b.
Proof.
  intros Ha Hb H. apply Atoi_Itoa in Ha, Hb. rewrite H in Ha. congruence.
Qed.

(** ** Names in numeric order *)

Lemma ltString_digits s : forall t acc v w,
  allDigits s = true -> allDigits t = true ->
  String.length s = String.length t ->
  parseDigits acc s = Some v -> parseDigits acc t = Some w ->
  ltString s t = (v <? w).
Proof.
  induction s as [|c s IH]; intros [|c' t] acc v w Hs Ht Hl Hv Hw;
    try discriminate.
  - simpl in *. inversion Hv; inversion Hw; subst. symmetry. apply Z.ltb_irrefl.
  - simpl in Hs, Ht. apply andb_true_iff in Hs as [Hc Hs], Ht as [Hc' Ht].
    simpl in Hl. injection Hl as Hl.
    cbn [parseDigits] in Hv, Hw. rewrite Hc in Hv. rewrite Hc' in Hw.
    cbn [ltString].
    destruct (parseDigits_bounds s (10 * acc + digitVal c) Hs) as (v' & Ev & Lv & Uv).
    destruct (parseDigits_bounds t (10 * acc + digitVal c') Ht) as (w' & Ew & Lw & Uw).
    rewrite Ev in Hv. rewrite Ew in Hw. inversion Hv; inversion Hw; subst v' w'.
    rewrite <- Hl in *.
    set (p := 10 ^ Z.of_nat (String.length s)) in *.
    assert (0 < p) by (apply Z.pow_pos_nonneg; lia).
    unfold digitVal in *.
    destruct (Nat.ltb (nat_of_ascii c) (nat_of_ascii c')) eqn:E1.
    + apply Nat.ltb_lt in E1. symmetry. apply Z.ltb_lt. nia.
    + apply Nat.ltb_ge in E1.
      destruct (Nat.ltb (nat_of_ascii c') (nat_of_ascii c)) eqn:E2.
      * apply Nat.ltb_lt in E2. symmetry. apply Z.ltb_ge. nia.
      * apply Nat.ltb_ge in E2.
        assert (nat_of_ascii c = nat_of_ascii c') by lia.
        apply (IH t (10 * acc + (Z.of_nat (nat_of_ascii c) - 48))); auto.
        rewrite H0. assumption.
Qed.

Lemma lessLength_uDigits a b : 0 <= a -> 0 <= b ->
  lessLength (uDigits a) (uDigits b) = (a <? b).
Proof.
  intros Ha Hb.
  destruct (uDigits_spec a Ha) as (Da & Na & Pa & La).
  destruct (uDigits_spec b Hb) as (Db & Nb & Pb & Lb).
  destruct (parseDigits_bounds (uDigits a) 0 Da) as (va & Eva & _ & Ua).
  destruct (parseDigits_bounds (uDigits b) 0 Db) as (vb & Evb & _ & Ub).
  rewrite Pa in Eva. rewrite Pb in Evb. inversion Eva; inversion Evb; subst va vb.
  assert (0 < String.length (uDigits a))%nat
    by (destruct (uDigits a); [congruence|simpl; lia]).
  assert (0 < String.length (uDigits b))%nat
    by (destruct (uDigits b); [congruence|simpl; lia]).
  unfold lessLength.
  destruct (Nat.ltb (String.length (uDigits a)) (String.length (uDigits b))) eqn:E1.
  - apply Nat.ltb_lt in E1. symmetry. apply Z.ltb_lt.
    assert (0 < b).
    { destruct (Z.eq_dec b 0) as [->|]; [|lia]. simpl in E1. lia. }
    specialize (Lb H1).
    assert (10 ^ Z.of_nat (String.length (uDigits a))
            <= 10 ^ (Z.of_nat (String.length (uDigits b)) - 1))
      by (apply Z.pow_le_mono_r; lia).
    lia.
  - apply Nat.ltb_ge in E1.
    destruct (Nat.ltb (String.length (uDigits b)) (String.length (uDigits a))) eqn:E2.
    + apply Nat.ltb_lt in E2. symmetry. apply Z.ltb_ge.
      assert (0 < a).
      { destruct (Z.eq_dec a 0) as [->|]; [|lia]. simpl in E2. lia. }
      specialize (La H1).
      assert (10 ^ Z.of_nat (String.length (uDigits b))
              <= 10 ^ (Z.of_nat (String.length (uDigits a)) - 1))
        by (apply Z.pow_le_mono_r; lia).
      lia.
    + apply Nat.ltb_ge in E2.
      apply (ltString_digits _ _ 0); auto. lia.
Qed.

Lemma Itoa_nonneg k : 0 <= k -> Itoa k = uDigits k.
Proof. intros H. unfold Itoa. now rewrite (proj2 (Z.ltb_ge k 0) H). Qed.

Lemma lessLength_aeName a b : 0 <= a -> 0 <= b ->
  lessLength (aeName a) (aeName b) = (a <? b).
Proof.
  intros Ha Hb. rewrite <- (lessLength_uDigits a b Ha Hb).
  unfold aeName. rewrite !Itoa_nonneg by assumption.
  unfold lessLength. cbn [String.append String.length ltString].
  change (Nat.ltb (nat_of_ascii "a") (nat_of_ascii "a")) with false.
  change (Nat.ltb (nat_of_ascii "e") (nat_of_ascii "e")) with false.
  reflexivity.
Qed.

Lemma insertLength_aeName x l :
  0 <= x -> Forall (fun k => 0 <= k) l ->
  insertLength (aeName x) (map aeName l) = map aeName (insertIndex x l).
Proof.
  intros Hx. induction 1 as [|y l Hy Hl IH]; simpl; [reflexivity|].
  rewrite lessLength_aeName by assumption.
  destruct (y <? x); simpl; [now rewrite IH|reflexivity].
Qed.

Lemma insertIndex_In x l z : In z (insertIndex x l) <-> z = x \/ In z l.
Proof.
  induction l as [|y l IH]; simpl; [intuition|].
  destruct (y <? x); simpl; [rewrite IH|]; intuition.
Qed.

Lemma insertIndex_nonneg x l :
  0 <= x -> Forall (fun k => 0 <= k) l -> Forall (fun k => 0 <= k) (insertIndex x l).
Proof.
  intros Hx Hl. apply Forall_forall. intros z Hz.
  apply insertIndex_In in Hz as [->|Hz]; [assumption|].
  rewrite Forall_forall in Hl. auto.
Qed.

Lemma sortIndex_nonneg l :
  Forall (fun k => 0 <= k) l -> Forall (fun k => 0 <= k) (sortIndex l).
Proof.
  induction 1 as [|x l Hx Hl IH]; simpl; [constructor|].
  now apply insertIndex_nonneg.
Qed.

Lemma sort_aeName l :
  Forall (fun k => 0 <= k) l ->
  sortStringsLength (map aeName l) = map aeName (sortIndex l).
Proof.
  induction 1 as [|x l Hx Hl IH]; [reflexivity|].
  unfold sortStringsLength, sortIndex in *. cbn [map fold_right]. rewrite IH.
  apply insertLength_aeName; [assumption|now apply sortIndex_nonneg].
Qed.

(** In a list whose last element bounds it, insertion keeps that so and
    the last element becomes the greater of the two. *)
Lemma insertIndex_last x l d :
  l <> [] -> (forall z, In z l -> z <= last l d) ->
  last (insertIndex x l) d = Z.max x (last l d).
Proof.
  induction l as [|y l IH]; intros Hne Hb; [congruence|].
  cbn [insertIndex]. destruct (y <? x) eqn:E.
  - apply Z.ltb_lt in E. destruct l as [|z l].
    + simpl. lia.
    + assert (Hb' : forall w, In w (z :: l) -> w <= last (z :: l) d).
      { intros w Hw. specialize (Hb w (or_intror Hw)). exact Hb. }
      specialize (IH ltac:(discriminate) Hb').
      change (last (y :: z :: l) d) with (last (z :: l) d).
      rewrite <- IH.
      destruct (insertIndex x (z :: l)) eqn:Ei; [|reflexivity].
      exfalso. assert (In x []) by (rewrite <- Ei; apply insertIndex_In; now left).
      contradiction.
  - apply Z.ltb_ge in E.
    change (last (x :: y :: l) d) with (last (y :: l) d).
    specialize (Hb y (or_introl eq_refl)). lia.
Qed.

Lemma sortIndex_last l d :
  l <> [] -> Forall (fun k => 0 <= k) l ->
  last (sortIndex l) d = maxIndex l
  /\ (forall z, In z (sortIndex l) -> z <= last (sortIndex l) d)
  /\ sortIndex l <> [].
Proof.
  induction l as [|x l IH]; intros Hne Hall; [congruence|].
  inversion Hall as [|? ? Hx Hl]; subst.
  destruct l as [|y l].
  - simpl. repeat split; [lia| |discriminate]. intros z [->|[]]. lia.
  - destruct (IH ltac:(discriminate) Hl) as (Hm & Hb & Hn).
    change (sortIndex (x :: y :: l)) with (insertIndex x (sortIndex (y :: l))).
    rewrite (insertIndex_last x _ d Hn Hb).
    change (maxIndex (x :: y :: l)) with (Z.max x (maxIndex (y :: l))).
    rewrite Hm. repeat split.
    + intros z Hz. apply insertIndex_In in Hz as [->|Hz]; [lia|].
      specialize (Hb z Hz). lia.
    + intros H. assert (In x []) by (rewrite <- H; apply insertIndex_In; now left).
      contradiction.
Qed.

Lemma last_map {A B} (f : A -> B) l d : last (map f l) (f d) = f (last l d).
Proof.
  induction l as [|x l IH]; [reflexivity|].
  destruct l; [reflexivity|exact IH].
Qed.

Lemma last_nonempty {A} (l : list A) d d' : l <> [] -> last l d = last l d'.
Proof.
  induction l as [|x l IH]; intros H; [congruence|].
  destruct l; [reflexivity|]. apply IH. discriminate.
Qed.

Lemma maxIndex_ge ks : -1 <= maxIndex ks.
Proof. induction ks; simpl; lia. Qed.

Lemma maxIndex_nonneg ks :
  ks <> [] -> Forall (fun k => 0 <= k) ks -> 0 <= maxIndex ks.
Proof. intros Hne H. destruct H; [congruence|]. simpl. lia. Qed.

Lemma maxIndex_bound ks b :
  -1 < b -> Forall (fun k => k < b) ks -> maxIndex ks < b.
Proof. intros Hb. induction 1; simpl; lia. Qed.

(** ** The aggregated-device count *)

Lemma wrapInt_id z : minInt <= z <= maxInt -> wrapInt z = z.
Proof.
  unfold wrapInt, minInt, maxInt. intros H.
  rewrite Z.mod_small; lia.
Qed.

Lemma TrimPrefix_aeName k : TrimPrefix (aeName k) "ae" = Itoa k.
Proof. reflexivity. Qed.

Lemma countOfFound_names n ks :
  minInt <= n < maxInt -> ks <> [] -> Forall (fun k => 0 <= k < maxInt) ks ->
  countOfFound n (map aeName ks)
  = Ok (Itoa (if maxIndex ks >? n then maxIndex ks + 1 else n + 1)).
Proof.
  intros Hn Hne Hall.
  assert (Hnn : Forall (fun k => 0 <= k) ks)
    by (eapply Forall_impl; [|exact Hall]; simpl; lia).
  assert (Hub : Forall (fun k => k < maxInt) ks)
    by (eapply Forall_impl; [|exact Hall]; simpl; lia).
  pose proof (maxIndex_nonneg ks Hne Hnn) as Hm0.
  pose proof (maxIndex_bound ks maxInt ltac:(unfold maxInt; lia) Hub) as Hm1.
  unfold countOfFound.
  destruct (map aeName ks) as [|s l] eqn:E.
  { destruct ks; [congruence|discriminate]. }
  rewrite <- E. clear E s l.
  rewrite (sort_aeName ks Hnn).
  destruct (sortIndex_last ks 0 Hne Hnn) as (Hl & _ & Hs).
  rewrite (last_nonempty _ "" (aeName 0))
    by (intros H; apply map_eq_nil in H; contradiction).
  rewrite last_map, Hl, TrimPrefix_aeName.
  rewrite Atoi_Itoa by (unfold minInt in *; lia).
  destruct (maxIndex ks >? n); rewrite wrapInt_id; try reflexivity;
    unfold minInt, maxInt in *; lia.
Qed.

Lemma countSearchMax_run sess j newAE oldAE interFace showConf n :
  (forall t, commandReply sess t showInterfaces = Ok showConf) ->
  Atoi (TrimPrefix newAE "ae") = Ok n ->
  interfaceAggregatedCountSearchMax sess newAE oldAE interFace j
  = (countOfFound n (referencedAE oldAE interFace showConf), nextTick (nextTick j)).
Proof.
  intros Hc Ha.
  unfold interfaceAggregatedCountSearchMax, interfaceAggregatedLastChild, bind, command.
  rewrite Ha, !Hc. reflexivity.
Qed.

Lemma Atoi_range s n : Atoi s = Ok n -> minInt <= n <= maxInt.
Proof.
  unfold Atoi. destruct s as [|c s]; [discriminate|]. cbv zeta.
  match goal with
  | |- context [match ?b with EmptyString => _ | String _ _ => _ end] => destruct b
  end; [discriminate|].
  destruct (parseDigits 0 _); [|discriminate].
  destruct (_ && _) eqn:E; [|discriminate].
  intros H; inversion H; subst. apply andb_true_iff in E as [E1 E2].
  apply Z.leb_le in E1, E2. lia.
Qed.



(** ** The words of the lines the regexps accept *)

Lemma append_assoc_s (a b c : string) : (a ++ b) ++ c = a ++ (b ++ c).
Proof. induction a as [|x a IH]; simpl; [reflexivity|now rewrite IH]. Qed.

Lemma Fields_cons_nonempty c s : isSpace c = false -> Fields (String c s) <> [].
Proof.
  intros H. cbn [Fields]. rewrite H.
  destruct s as [|c' s]; [discriminate|].
  destruct (isSpace c'); [discriminate|].
  destruct (Fields (String c' s)); discriminate.
Qed.

Lemma Fields_app_space a : forall sp b,
  isSpace sp = true -> Fields (a ++ String sp b) = app (Fields a) (Fields b).
Proof.
  induction a as [|c a IH]; intros sp b Hsp.
  - cbn [String.append Fields]. now rewrite Hsp.
  - cbn [String.append]. cbn [Fields]. destruct (isSpace c) eqn:Ec.
    + now apply IH.
    + destruct a as [|c' a].
      * cbn [String.append]. rewrite Hsp. cbn [Fields]. now rewrite Hsp.
      * cbn [String.append] in *. destruct (isSpace c') eqn:Ec'.
        -- rewrite (IH sp b Hsp). reflexivity.
        -- rewrite (IH sp b Hsp).
           pose proof (Fields_cons_nonempty c' a Ec') as Hne.
           destruct (Fields (String c' a)); [congruence|reflexivity].
Qed.

Lemma isDigit_not_space c : isDigit c = true -> isSpace c = false.
Proof.
  unfold isDigit, isSpace. intros H.
  apply andb_true_iff in H as [H1 H2]. apply Nat.leb_le in H1, H2.
  apply orb_false_iff. split.
  - apply andb_false_iff. right. apply Nat.leb_gt. lia.
  - apply Nat.eqb_neq. lia.
Qed.

Lemma Fields_digits ds (c1 c2 : ascii) :
  isSpace c1 = false -> isSpace c2 = false -> allDigits ds = true ->
  Fields (String c1 (String c2 ds)) = [String c1 (String c2 ds)].
Proof.
  intros H1 H2 Hd.
  assert (W : forall c s, isSpace c = false -> allDigits s = true ->
                          Fields (String c s) = [String c s]).
  { intros c s; revert c. induction s as [|x s IH]; intros c Hc Hs.
    - cbn [Fields]. now rewrite Hc.
    - simpl in Hs. apply andb_true_iff in Hs as [Hx Hs].
      apply isDigit_not_space in Hx.
      cbn [Fields]. rewrite Hc, Hx.
      change (Fields (String x s)) with (Fields (String x s)).
      specialize (IH x Hx Hs). cbn [Fields] in IH. rewrite Hx in IH.
      rewrite IH. reflexivity. }
  cbn [Fields]. rewrite H1, H2.
  specialize (W c2 ds H2 Hd). cbn [Fields] in W. rewrite H2 in W. now rewrite W.
Qed.

Lemma digits1_allDigits ds : digits1 ds = true -> allDigits ds = true /\ ds <> "".
Proof. destruct ds; simpl; [discriminate|]. intros H. split; [assumption|discriminate]. Qed.

(** The shape of a line that [regexpAEchild] accepts. *)
Lemma regexpAEchild_shape line :
  regexpAEchild line = true ->
  exists pre ds, line = pre ++ "ether-options 802.3ad ae" ++ ds /\ digits1 ds = true.
Proof.
  induction line as [|c line IH]; intros H.
  - discriminate.
  - cbn [regexpAEchild] in H. apply orb_true_iff in H as [H|H].
    + destruct (cutPrefix "ether-options 802.3ad ae" (String c line)) as [r|] eqn:E;
        [|discriminate].
      apply cutPrefix_Some in E. exists "", r. split; assumption.
    + destruct (IH H) as (pre & ds & -> & Hd).
      exists (String c pre), ds. split; [reflexivity|assumption].
Qed.

(** On such a line the last word exists and is the name bound to. *)
Lemma Fields_child_last line :
  regexpAEchild line = true ->
  exists ds, digits1 ds = true /\ Fields line <> []
             /\ lastWord (Fields line) = "ae" ++ ds.
Proof.
  intros H. destruct (regexpAEchild_shape line H) as (pre & ds & -> & Hd).
  exists ds. split; [assumption|].
  destruct (digits1_allDigits ds Hd) as [Ha _].
  replace (pre ++ "ether-options 802.3ad ae" ++ ds)
    with ((pre ++ "ether-options 802.3ad") ++ String " " ("ae" ++ ds))
    by (rewrite append_assoc_s; reflexivity).
  rewrite Fields_app_space by reflexivity.
  change ("ae" ++ ds) with (String "a" (String "e" ds)).
  rewrite (Fields_digits ds "a" "e") by (reflexivity || assumption).
  unfold lastWord. rewrite last_last. split; [|reflexivity].
  intros E. apply app_eq_nil in E as [_ E]. discriminate.
Qed.

Lemma digitsThenBlank_shape s : forall seen,
  digitsThenBlank seen s = true ->
  exists ds rest, s = ds ++ String " " rest /\ allDigits ds = true
                  /\ (seen = false -> ds <> "").
Proof.
  induction s as [|c s IH]; intros seen H; [discriminate|].
  cbn [digitsThenBlank] in H. destruct (isDigit c) eqn:Ec.
  - destruct (IH true H) as (ds & rest & -> & Hd & _).
    exists (String c ds), rest. repeat split.
    + simpl. now rewrite Ec, Hd.
    + discriminate.
  - apply andb_true_iff in H as [H1 H2]. apply Ascii.eqb_eq in H1. subst.
    exists "", s. repeat split. congruence.
Qed.

(** On a line that [regexpAEparent] accepts the second word exists and is
    the declared name. *)
Lemma Fields_parent_second line :
  regexpAEparent line = true ->
  exists ds, digits1 ds = true /\ (2 <= List.length (Fields line))%nat
             /\ secondWord (Fields line) = "ae" ++ ds.
Proof.
  unfold regexpAEparent. intros H.
  destruct (cutPrefix "set ae" line) as [r|] eqn:E; [|discriminate].
  apply cutPrefix_Some in E. subst line.
  destruct (digitsThenBlank_shape r false H) as (ds & rest & -> & Hd & Hne).
  specialize (Hne eq_refl).
  exists ds. split; [destruct ds; [congruence|exact Hd]|].
  replace ("set ae" ++ ds ++ String " " rest)
    with ("set" ++ String " " (("ae" ++ ds) ++ String " " rest))
    by (rewrite append_assoc_s; reflexivity).
  rewrite !Fields_app_space by reflexivity.
  change ("ae" ++ ds) with (String "a" (String "e" ds)).
  rewrite (Fields_digits ds "a" "e") by (reflexivity || assumption).
  change (Fields "set") with ["set"]. simpl. split; [lia|reflexivity].
Qed.

(** ** The device count on delete *)

Lemma deviceCountSet_inj a b : deviceCountSet a = deviceCountSet b -> a = b.
Proof. unfold deviceCountSet. simpl. intros H. now inversion H. Qed.

Lemma stageDeviceCount_run sess count j :
  (forall t l, configSetReply sess t l = None) ->
  exists j', stageDeviceCount sess count j = (None, j')
    /\ staged j' = app (staged j)
         [if String.eqb count "0" then deviceCountDelete else deviceCountSet count].
Proof.
  intros Hs. unfold stageDeviceCount, configSet.
  destruct (String.eqb count "0"); rewrite Hs; eexists; split; reflexivity.
Qed.

Lemma delInterfacePhysical_run sess d j intConfig showConf :
  (forall t, commandReply sess t (showInterface (d_name d)) = Ok intConfig) ->
  (forall t, commandReply sess t showInterfaces = Ok showConf) ->
  (forall t l, configSetReply sess t l = None) ->
  containsUnitLines (SplitLF intConfig) = false ->
  exists emitted,
    staged (snd (delInterfacePhysical sess d j)) = app (staged j) emitted
    /\ emitted =
       ("delete interfaces " ++ d_name d)
       :: (if recomputesCount d showConf then
             match countOfFound (-1) (referencedAE (deletedBinding d) (d_name d) showConf)
             with
             | Ok count =>
                 [if String.eqb count "0" then deviceCountDelete
                  else deviceCountSet count]
             | Err _ => []
             end
           else [])
    /\ (fst (delInterfacePhysical sess d j) = None
        <-> (recomputesCount d showConf = true ->
             isErr (countOfFound (-1)
                      (referencedAE (deletedBinding d) (d_name d) showConf)) = false)).
Proof.
  intros Hi Hc Hs Hu.
  destruct (delInterfacePhysical sess d j) as [res j'] eqn:E. cbn [fst snd].
  unfold delInterfacePhysical, checkInterfacePhysicalContainsUnit, bind, command in E.
  rewrite Hi, Hu in E. unfold ret at 1 in E. unfold configSet at 1 in E.
  rewrite Hs in E.
  unfold recomputesCount, deletedBinding.
  destruct (HasPrefix (d_name d) "ae") eqn:Eae; cbn [orb].
  - rewrite (countSearchMax_run sess _ "ae-1" (d_name d) (d_name d) showConf (-1)
               Hc eq_refl) in E.
    destruct (countOfFound (-1) _) as [count|e] eqn:Ec.
    + match type of E with
      | context [stageDeviceCount sess count ?j0] =>
          destruct (stageDeviceCount_run sess count j0 Hs) as (j2 & E2 & Hst)
      end.
      rewrite E2 in E. cbn beta iota delta [negb ret] in E; inversion E; subst; clear E. rewrite Hst. cbn [staged nextTick].
      rewrite <- app_assoc. eexists. split; [reflexivity|]. split; [reflexivity|].
      split; reflexivity.
    + cbn beta iota delta [negb ret] in E; inversion E; subst; clear E. cbn [staged nextTick].
      eexists. split; [reflexivity|]. split; [reflexivity|].
      split; [discriminate|]. intros H. specialize (H eq_refl). discriminate.
  - destruct (String.eqb (d_ether802_3ad d) "") eqn:Ee; cbn [negb andb].
    + cbn beta iota delta [negb ret] in E; inversion E; subst; clear E. cbn [staged nextTick].
      eexists. split; [reflexivity|]. split; [reflexivity|].
      split; [intros _ X; discriminate X|reflexivity].
    + cbn beta iota delta [negb] in E.
      unfold interfaceAggregatedLastChild, bind, command in E. rewrite Hc in E.
      unfold ret at 1 in E.
      destruct (lastChildOfLines (d_ether802_3ad d) (d_name d) (SplitLF showConf)).
      * rewrite (countSearchMax_run sess _ "ae-1" (d_ether802_3ad d) (d_name d)
                   showConf (-1) Hc eq_refl) in E.
        destruct (countOfFound (-1) _) as [count|e] eqn:Ec.
        -- match type of E with
           | context [stageDeviceCount sess count ?j0] =>
               destruct (stageDeviceCount_run sess count j0 Hs) as (j2 & E2 & Hst)
           end.
           rewrite E2 in E. cbn beta iota delta [negb ret] in E; inversion E; subst; clear E. rewrite Hst.
           cbn [staged nextTick].
           rewrite <- app_assoc. eexists. split; [reflexivity|]. split; [reflexivity|].
           split; reflexivity.
        -- cbn beta iota delta [negb ret] in E; inversion E; subst; clear E. cbn [staged nextTick].
           eexists. split; [reflexivity|]. split; [reflexivity|].
           split; [discriminate|]. intros H. specialize (H eq_refl). discriminate.
      * cbn beta iota delta [negb ret] in E; inversion E; subst; clear E. cbn [staged nextTick].
        eexists. split; [reflexivity|]. split; [reflexivity|].
        split; [intros _ X; discriminate X|reflexivity].
Qed.

(** C5 (as amended).  On a device that answers and accepts the edits, a
    delete that recomputes the count (of an aggregated parent, or of a
    child that the last-child check finds alone) stages the removal of the
    device-count setting when no name is referred to any more, and the
    setting of the count to the greatest index plus one when names remain;
    a delete that does not recompute the count stages no device-count
    statement; and no delete ever stages a device count of 0. *)
Theorem delete_device_count_statement
  (sess : Session) (d : InterfaceData) (j : NetconfObject)
  (intConfig showConf : string) :
  (forall t, commandReply sess t (showInterface (d_name d)) = Ok intConfig) ->
  (forall t, commandReply sess t showInterfaces = Ok showConf) ->
  (forall t l, configSetReply sess t l = None) ->
  containsUnitLines (SplitLF intConfig) = false ->
  exists emitted,
    staged (snd (delInterfacePhysical sess d j)) = app (staged j) emitted
    /\ ~ In (deviceCountSet "0") emitted
    /\ (recomputesCount d showConf = false ->
        emitted = ["delete interfaces " ++ d_name d])
    /\ (recomputesCount d showConf = true ->
        referencedAE (deletedBinding d) (d_name d) showConf = [] ->
        emitted = ["delete interfaces " ++ d_name d; deviceCountDelete])
    /\ (recomputesCount d showConf = true ->
        forall ks,
          referencedAE (deletedBinding d) (d_name d) showConf = map aeName ks ->
          ks <> [] -> Forall (fun k => 0 <= k < maxInt) ks ->
          emitted = ["delete interfaces " ++ d_name d;
                     deviceCountSet (Itoa (maxIndex ks + 1))]).
Proof.
  intros Hi Hc Hs Hu.
  destruct (delInterfacePhysical_run sess d j intConfig showConf Hi Hc Hs Hu)
    as (emitted & Hst & He & _).
  exists emitted. split; [assumption|]. subst emitted.
  split; [|split; [|split]].
  - intros [H|H]; [discriminate|].
    destruct (recomputesCount d showConf); [|contradiction].
    destruct (countOfFound (-1) _) as [count|e]; [|contradiction].
    destruct (String.eqb count "0") eqn:E; destruct H as [H|[]]; [discriminate|].
    apply deviceCountSet_inj in H. subst count. discriminate.
  - now intros ->.
  - intros -> ->. reflexivity.
  - intros -> ks -> Hne Hall.
    rewrite countOfFound_names; auto; [|unfold minInt, maxInt; lia].
    assert (Hnn : Forall (fun k => 0 <= k) ks)
      by (eapply Forall_impl; [|exact Hall]; simpl; lia).
    assert (Hub : Forall (fun k => k < maxInt) ks)
      by (eapply Forall_impl; [|exact Hall]; simpl; lia).
    pose proof (maxIndex_nonneg ks Hne Hnn) as Hm0.
    pose proof (maxIndex_bound ks maxInt ltac:(unfold maxInt; lia) Hub) as Hm1.
    replace (maxIndex ks >? -1) with true by (symmetry; apply Z.gtb_lt; lia).
    destruct (String.eqb (Itoa (maxIndex ks + 1)) "0") eqn:E; [|reflexivity].
    apply String.eqb_eq in E. change "0" with (Itoa 0) in E.
    apply Itoa_inj in E; unfold minInt, maxInt in *; lia.
Qed.

Lemma delete_device_count_statement_witness :
  staged (snd (delInterfacePhysical
                 (sessionWith "set ether-options 802.3ad ae3" confSoleChild)
                 (sampleInterface "ge-0/0/1" "ae3") newNetconf))
  = ["delete interfaces ge-0/0/1";
     "delete chassis aggregated-devices ethernet device-count"].
Proof.
  destruct (delete_device_count_statement
              (sessionWith "set ether-options 802.3ad ae3" confSoleChild)
              (sampleInterface "ge-0/0/1" "ae3") newNetconf
              "set ether-options 802.3ad ae3" confSoleChild
              (fun _ => eq_refl) (fun _ => eq_refl) (fun _ _ => eq_refl) eq_refl)
    as (emitted & Hst & _ & _ & He & _).
  rewrite Hst, He; reflexivity.
Defined.

(** The claim as the spec words it fails for a child whose parent keeps
    another child: a name is still referred to, and no device-count
    statement is staged at all. *)
Lemma delete_of_other_child_sets_no_count :
  ~ (forall d showConf,
       referencedAE (deletedBinding d) (d_name d) showConf <> [] ->
       exists count,
         In (deviceCountSet count)
            (staged (snd (delInterfacePhysical (sessionWith "" showConf) d
                            newNetconf)))).
Proof.
  intros H.
  destruct (H (sampleInterface "ge-0/0/1" "ae3") confTwoChildren) as (count & Hin).
  - discriminate.
  - destruct Hin as [Hin|[]]. discriminate.
Qed.

(** ** Decode errors *)

Lemma Contains_unfold t s :
  Contains t s
  = HasPrefix t s || match t with EmptyString => false | String _ t' => Contains t' s end.
Proof. destruct t; reflexivity. Qed.

Lemma Contains_refl_app a s b : Contains (a ++ s ++ b) s = true.
Proof.
  induction a as [|c a IH].
  - cbn [String.append]. rewrite Contains_unfold, HasPrefix_app. reflexivity.
  - cbn [String.append Contains]. rewrite IH. apply orb_true_r.
Qed.

Ltac split_prefix H :=
  let r := fresh "r" in
  let E := fresh "E" in
  unfold HasPrefix in H;
  match type of H with
  | context [cutPrefix ?p ?s] =>
      destruct (cutPrefix p s) as [r|] eqn:E; [|discriminate H];
      apply cutPrefix_Some in E; subst s
  end.

Lemma readUtmItem_error c itemTrim :
  match utmNumericText itemTrim with
  | Some txt =>
      match Atoi txt with
      | Err e => readUtmItem c itemTrim = Err e
      | Ok _ => exists c', readUtmItem c itemTrim = Ok c'
      end
  | None => exists c', readUtmItem c itemTrim = Ok c'
  end.
Proof.
  unfold utmNumericText.
  destruct (HasPrefix itemTrim "traffic-options sessions-per-client limit ") eqn:H.
  - split_prefix H. rewrite TrimPrefix_app.
    unfold readUtmItem. cbn -[Atoi]. 
    destruct (touchTraffic (trafficSessionsPerClient c)) as [m tl].
    destruct (Atoi r); [eexists; reflexivity|reflexivity].
  - unfold readUtmItem. rewrite H.
    repeat match goal with
    | |- context [if ?b then _ else _] => destruct b
    | |- context [let (_, _) := ?x in _] => destruct x
    end; eexists; reflexivity.
Qed.

Lemma readUtmItem_unknown c itemTrim :
  utmKnown itemTrim = false -> readUtmItem c itemTrim = Ok c.
Proof.
  unfold utmKnown, readUtmItem. intros H.
  repeat (apply orb_false_iff in H; destruct H as [H ?]).
  repeat match goal with E : _ = false |- _ => rewrite E; clear E end.
  reflexivity.
Qed.

Lemma readUtmLines_error c items :
  (isErr (readUtmLines c items)
   = existsb (unparsable utmNumericText) (framedLines items))
  /\ (forall e, readUtmLines c items = Err e ->
      exists item txt,
        In item (framedLines items)
        /\ utmNumericText (TrimPrefix item setLineStart) = Some txt
        /\ Atoi txt = Err e).
Proof.
  revert c. induction items as [|item rest IH]; intros c.
  - split; [reflexivity|discriminate].
  - cbn [readUtmLines framedLines].
    destruct (Contains item "<configuration-output>"); [apply IH|].
    destruct (Contains item "</configuration-output>");
      [split; [reflexivity|discriminate]|].
    cbn [existsb]. unfold unparsable at 1.
    pose proof (readUtmItem_error c (TrimPrefix item setLineStart)) as R.
    destruct (utmNumericText (TrimPrefix item setLineStart)) as [txt|] eqn:En.
    + destruct (Atoi txt) as [v|e0] eqn:Ea.
      * destruct R as [c' ->]. destruct (IH c') as [I1 I2]. split; [exact I1|].
        intros e He. destruct (I2 e He) as (it & t & Hin & Ht & Hat).
        exists it, t. split; [now right|auto].
      * rewrite R. split; [reflexivity|].
        intros e He. inversion He; subst.
        exists item, txt. split; [now left|auto].
    + destruct R as [c' ->]. destruct (IH c') as [I1 I2]. split; [exact I1|].
      intros e He. destruct (I2 e He) as (it & t & Hin & Ht & Hat).
      exists it, t. split; [now right|auto].
Qed.

Lemma readInterfaceItem_error c itemTrim :
  match interfaceNumericText itemTrim with
  | Some txt =>
      match Atoi txt with
      | Err e => readInterfaceItem c itemTrim = Err (convertError itemTrim e)
      | Ok _ => exists c', readInterfaceItem c itemTrim = Ok c'
      end
  | None => exists c', readInterfaceItem c itemTrim = Ok c'
  end.
Proof.
  unfold interfaceNumericText.
  destruct (HasPrefix itemTrim "aggregated-ether-options minimum-links ") eqn:H1.
  - split_prefix H1. rewrite TrimPrefix_app.
    unfold readInterfaceItem.
    change (HasPrefix ("aggregated-ether-options minimum-links " ++ r)
              "aggregated-ether-options lacp ") with false.
    change (HasPrefix ("aggregated-ether-options minimum-links " ++ r)
              "aggregated-ether-options link-speed ") with false.
    rewrite HasPrefix_app, TrimPrefix_app. cbv iota.
    destruct (Atoi r); [eexists; reflexivity|reflexivity].
  - destruct (HasPrefix itemTrim "native-vlan-id") eqn:H2.
    + split_prefix H2. unfold readInterfaceItem.
      change (HasPrefix ("native-vlan-id" ++ r) "aggregated-ether-options lacp ")
        with false.
      change (HasPrefix ("native-vlan-id" ++ r) "aggregated-ether-options link-speed ")
        with false.
      change (HasPrefix ("native-vlan-id" ++ r) "aggregated-ether-options minimum-links ")
        with false.
      change (HasPrefix ("native-vlan-id" ++ r) "description ") with false.
      change (HasPrefix ("native-vlan-id" ++ r) "esi ") with false.
      change (HasPrefix ("native-vlan-id" ++ r) "ether-options 802.3ad ") with false.
      change (HasPrefix ("native-vlan-id" ++ r) "gigether-options 802.3ad ") with false.
      rewrite HasPrefix_app. cbv iota.
      destruct (Atoi _); [eexists; reflexivity|reflexivity].
    + unfold readInterfaceItem. rewrite H1, H2.
      repeat match goal with
      | |- context [if ?b then _ else _] => destruct b
      end; eexists; reflexivity.
Qed.

Lemma readInterfaceItem_unknown c itemTrim :
  interfaceKnown itemTrim = false -> readInterfaceItem c itemTrim = Ok c.
Proof.
  unfold interfaceKnown, readInterfaceItem. intros H.
  repeat (apply orb_false_iff in H; destruct H as [H ?]).
  repeat match goal with E : _ = false |- _ => rewrite E; clear E end.
  reflexivity.
Qed.

Lemma readInterfaceLines_error c items :
  (isErr (readInterfaceLines c items)
   = existsb (unparsable interfaceNumericText) (interfaceLines items))
  /\ (forall e, readInterfaceLines c items = Err e ->
      exists item txt e0,
        In item (interfaceLines items)
        /\ interfaceNumericText (TrimPrefix item setLineStart) = Some txt
        /\ Atoi txt = Err e0
        /\ e = convertError (TrimPrefix item setLineStart) e0).
Proof.
  revert c. induction items as [|item rest IH]; intros c.
  - split; [reflexivity|discriminate].
  - cbn [readInterfaceLines interfaceLines].
    destruct (Contains item " unit " && negb (Contains item "ethernet-switching"));
      [apply IH|].
    destruct (Contains item "<configuration-output>"); [apply IH|].
    destruct (Contains item "</configuration-output>");
      [split; [reflexivity|discriminate]|].
    cbn [existsb]. unfold unparsable at 1.
    pose proof (readInterfaceItem_error c (TrimPrefix item setLineStart)) as R.
    destruct (interfaceNumericText (TrimPrefix item setLineStart)) as [txt|] eqn:En.
    + destruct (Atoi txt) as [v|e0] eqn:Ea.
      * destruct R as [c' ->]. destruct (IH c') as [I1 I2]. split; [exact I1|].
        intros e He. destruct (I2 e He) as (it & t & e1 & Hin & Ht & Hat & Hc).
        exists it, t, e1. split; [now right|auto].
      * rewrite R. split; [reflexivity|].
        intros e He. inversion He; subst.
        exists item, txt, e0. split; [now left|auto].
    + destruct R as [c' ->]. destruct (IH c') as [I1 I2]. split; [exact I1|].
      intros e He. destruct (I2 e He) as (it & t & e1 & Hin & Ht & Hat & Hc).
      exists it, t, e1. split; [now right|auto].
Qed.

Lemma Atoi_error s e : Atoi s = Err e -> exists k, e = ErrNum "Atoi" s k.
Proof.
  unfold Atoi. destruct s as [|c s]; [intros H; inversion H; now eexists|].
  cbv zeta.
  match goal with
  | |- context [match ?b with EmptyString => _ | String _ _ => _ end] => destruct b
  end; [intros H; inversion H; now eexists|].
  destruct (parseDigits 0 _); [|intros H; inversion H; now eexists].
  destruct (_ && _); [discriminate|intros H; inversion H; now eexists].
Qed.

(** C7 (as amended).  Each decoder returns an error exactly when one of
    the lines it reads projects a numeric field whose text is not an
    integer; a statement matching no known pattern leaves the decoded
    options as they are; the error of the interface decoder names the
    offending statement (without its set prefix), and the error of the UTM
    decoder is the integer parser's own, which carries the unparsable
    text of the offending statement. *)
Theorem decode_fails_only_on_bad_numbers (policy text : string) :
  (isErr (readUtmText policy text)
   = existsb (unparsable utmNumericText) (framedLines (SplitLF text)))
  /\ (forall e, readUtmText policy text = Err e ->
      exists item txt k,
        In item (framedLines (SplitLF text))
        /\ utmNumericText (TrimPrefix item setLineStart) = Some txt
        /\ isErr (Atoi txt) = true
        /\ e = ErrNum "Atoi" txt k)
  /\ (forall c itemTrim, utmKnown itemTrim = false -> readUtmItem c itemTrim = Ok c)
  /\ (isErr (readInterfaceText text)
      = existsb (unparsable interfaceNumericText) (interfaceLines (SplitLF text)))
  /\ (forall e, readInterfaceText text = Err e ->
      exists item,
        In item (interfaceLines (SplitLF text))
        /\ unparsable interfaceNumericText item = true
        /\ errorNames e (TrimPrefix item setLineStart))
  /\ (forall c itemTrim,
        interfaceKnown itemTrim = false -> readInterfaceItem c itemTrim = Ok c).
Proof.
  unfold readUtmText, readInterfaceText.
  destruct (String.eqb text emptyWord) eqn:Ee.
  { apply String.eqb_eq in Ee. subst text. cbn [negb].
    repeat split; try discriminate;
      auto using readUtmItem_unknown, readInterfaceItem_unknown. }
  cbn [negb].
  destruct (readUtmLines_error (zeroUtmOptions policy) (SplitLF text)) as [U1 U2].
  destruct (readInterfaceLines_error zeroInterfaceOptions (SplitLF text)) as [I1 I2].
  split; [exact U1|]. split.
  { intros e He. destruct (U2 e He) as (item & txt & Hin & Ht & Ha).
    destruct (Atoi_error txt e Ha) as [k ->].
    exists item, txt, k. rewrite Ha. auto. }
  split; [apply readUtmItem_unknown|]. split; [exact I1|]. split.
  { intros e He. destruct (I2 e He) as (item & txt & e0 & Hin & Ht & Ha & ->).
    exists item. split; [assumption|]. split.
    - unfold unparsable. now rewrite Ht, Ha.
    - eexists. split; [left; reflexivity|].
      apply (Contains_refl_app "failed to convert value from '" _ "' to integer : "). }
  apply readInterfaceItem_unknown.
Qed.

(** The claim as the spec words it fails for the UTM decoder: the error
    it returns for a bad session limit carries the words Atoi and x, and
    neither contains the statement. *)
Lemma utm_decode_error_names_no_statement :
  ~ (forall policy text e,
       readUtmText policy text = Err e ->
       exists item, In item (framedLines (SplitLF text))
                    /\ errorNames e (TrimPrefix item setLineStart)).
Proof.
  intros H.
  destruct (H "p1" "set traffic-options sessions-per-client limit x"
              (ErrNum "Atoi" "x" ErrSyntax) eq_refl) as (item & Hin & t & Ht & Hc).
  destruct Hin as [<-|[]].
  destruct Ht as [<-|[<-|[]]]; discriminate.
Qed.

(** ** The round trip of the UTM policy *)

Lemma relativeLines_app P a b :
  relativeLines P (app a b) = app (relativeLines P a) (relativeLines P b).
Proof.
  induction a as [|x a IH]; simpl; [reflexivity|].
  destruct (relativeLine P x); simpl; now rewrite IH.
Qed.

Lemma relativeLine_under P B x :
  relativeLine P ((P ++ B) ++ x) = Some ((setLineStart ++ B) ++ x).
Proof.
  unfold relativeLine. rewrite append_assoc_s, cutPrefix_app.
  now rewrite append_assoc_s.
Qed.

Lemma relativeLine_direct P x : relativeLine P (P ++ x) = Some (setLineStart ++ x).
Proof. unfold relativeLine. now rewrite cutPrefix_app. Qed.

Lemma relativeLines_profile P B p :
  relativeLines P (profileConfigSet (P ++ B) p) = profileConfigSet (setLineStart ++ B) p.
Proof.
  unfold profileConfigSet.
  repeat rewrite relativeLines_app.
  repeat match goal with
  | |- context [if ?b then _ else _] => destruct b
  end; cbn [relativeLines app]; rewrite ?relativeLine_under; reflexivity.
Qed.

Lemma relativeLines_profileBlocks P B msg blocks l :
  profileBlocksConfigSet (P ++ B) msg blocks = Ok l ->
  profileBlocksConfigSet (setLineStart ++ B) msg blocks = Ok (relativeLines P l).
Proof.
  revert l. induction blocks as [|[p|] rest IH]; intros l H; simpl in *.
  - now inversion H.
  - destruct (profileBlocksConfigSet (P ++ B) msg rest) as [l'|]; [|discriminate].
    inversion H; subst. rewrite (IH l' eq_refl).
    now rewrite relativeLines_app, relativeLines_profile.
  - discriminate.
Qed.

Lemma relativeLines_traffic P t :
  relativeLines P (trafficConfigSet P t) = trafficConfigSet setLineStart t.
Proof.
  unfold trafficConfigSet. rewrite relativeLines_app.
  repeat match goal with
  | |- context [if ?b then _ else _] => destruct b
  end; cbn [relativeLines app]; rewrite ?relativeLine_direct; reflexivity.
Qed.

Lemma relativeLines_trafficBlocks P blocks l :
  trafficBlocksConfigSet P blocks = Ok l ->
  trafficBlocksConfigSet setLineStart blocks = Ok (relativeLines P l).
Proof.
  revert l. induction blocks as [|[t|] rest IH]; intros l H; simpl in *.
  - now inversion H.
  - destruct (trafficBlocksConfigSet P rest) as [l'|]; [|discriminate].
    inversion H; subst. rewrite (IH l' eq_refl).
    now rewrite relativeLines_app, relativeLines_traffic.
  - discriminate.
Qed.

(** The relative lines of the statements of a policy are the statements
    built under the bare prefix. *)
Lemma relativeLines_utm P d stmts :
  utmConfigSetFrom P d = Ok stmts ->
  utmConfigSetFrom setLineStart d = Ok (relativeLines P stmts).
Proof.
  unfold utmConfigSetFrom. intros H.
  destruct (profileBlocksConfigSet (P ++ "anti-virus ") _ _) as [av|] eqn:Eav;
    [|discriminate].
  destruct (profileBlocksConfigSet (P ++ "content-filtering ") _ _) as [cf|] eqn:Ecf;
    [|discriminate].
  destruct (trafficBlocksConfigSet P _) as [tr|] eqn:Etr; [|discriminate].
  inversion H; subst.
  rewrite (relativeLines_profileBlocks _ _ _ _ _ Eav),
    (relativeLines_profileBlocks _ _ _ _ _ Ecf),
    (relativeLines_trafficBlocks _ _ _ Etr).
  repeat rewrite relativeLines_app.
  repeat match goal with
  | |- context [if ?b then _ else _] => destruct b
  end; cbn [relativeLines app]; rewrite ?relativeLine_direct; reflexivity.
Qed.

Lemma readUtmLines_clean c lines :
  forallb cleanLine lines = true -> readUtmLines c lines = readUtmItems c lines.
Proof.
  revert c. induction lines as [|l rest IH]; intros c H; [reflexivity|].
  cbn [forallb] in H. apply andb_true_iff in H as [Hl Hr].
  unfold cleanLine in Hl. apply andb_true_iff in Hl as [Hl H3].
  apply andb_true_iff in Hl as [H1 H2].
  apply negb_true_iff in H2, H3.
  cbn [readUtmLines readUtmItems]. rewrite H2, H3.
  destruct (readUtmItem c _); [now apply IH|reflexivity].
Qed.

Lemma readUtmItems_app c a b :
  readUtmItems c (app a b)
  = match readUtmItems c a with
    | Ok c' => readUtmItems c' b
    | Err e => Err e
    end.
Proof.
  revert c. induction a as [|x a IH]; intros c; [reflexivity|].
  cbn [app readUtmItems]. destruct (readUtmItem c _); [apply IH|reflexivity].
Qed.

Lemma cleanLines_LF lines :
  forallb cleanLine lines = true -> Forall (fun l => noByte LF l = true) lines.
Proof.
  induction lines as [|l rest IH]; intros H; [constructor|].
  cbn [forallb] in H. apply andb_true_iff in H as [Hl Hr].
  constructor; [|now apply IH].
  unfold cleanLine in Hl. apply andb_true_iff in Hl as [Hl _].
  now apply andb_true_iff in Hl as [Hl _].
Qed.

Lemma TrimQuote_quoted v : quotable v = true -> TrimQuote (quoted v) = v.
Proof.
  unfold quotable. rewrite String.eqb_eq. intros H.
  rewrite <- H at 2. unfold TrimQuote, quoted, dq. cbn [String.append].
  assert (R : forall s, trimRightByte quote (s ++ String quote "")
                        = trimRightByte quote s).
  { induction s as [|c s IH]; [reflexivity|].
    cbn [String.append trimRightByte]. now rewrite IH. }
  cbn [trimRightByte]. rewrite R.
  destruct (trimRightByte quote v) eqn:E; reflexivity.
Qed.


Lemma profileConfigSet_map Q p :
  profileConfigSet Q p = map (fun r => Q ++ r) (profileConfigSet "" p).
Proof.
  unfold profileConfigSet.
  repeat match goal with
  | |- context [if ?b then _ else _] => destruct b
  end; reflexivity.
Qed.

Lemma readUtmPolicyProfile_ftp_download x m :
  readUtmPolicyProfile ("ftp download-profile " ++ x) m
  = {| ftp_download_profile := TrimQuote x;
       ftp_upload_profile := ftp_upload_profile m; http_profile := http_profile m;
       imap_profile := imap_profile m; pop3_profile := pop3_profile m;
       smtp_profile := smtp_profile m |}.
Proof. reflexivity. Qed.

Lemma readUtmPolicyProfile_ftp_upload x m :
  readUtmPolicyProfile ("ftp upload-profile " ++ x) m
  = {| ftp_download_profile := ftp_download_profile m;
       ftp_upload_profile := TrimQuote x; http_profile := http_profile m;
       imap_profile := imap_profile m; pop3_profile := pop3_profile m;
       smtp_profile := smtp_profile m |}.
Proof. reflexivity. Qed.

Lemma readUtmPolicyProfile_http x m :
  readUtmPolicyProfile ("http-profile " ++ x) m
  = {| ftp_download_profile := ftp_download_profile m;
       ftp_upload_profile := ftp_upload_profile m; http_profile := TrimQuote x;
       imap_profile := imap_profile m; pop3_profile := pop3_profile m;
       smtp_profile := smtp_profile m |}.
Proof. reflexivity. Qed.

Lemma readUtmPolicyProfile_imap x m :
  readUtmPolicyProfile ("imap-profile " ++ x) m
  = {| ftp_download_profile := ftp_download_profile m;
       ftp_upload_profile := ftp_upload_profile m; http_profile := http_profile m;
       imap_profile := TrimQuote x; pop3_profile := pop3_profile m;
       smtp_profile := smtp_profile m |}.
Proof. reflexivity. Qed.

Lemma readUtmPolicyProfile_pop3 x m :
  readUtmPolicyProfile ("pop3-profile " ++ x) m
  = {| ftp_download_profile := ftp_download_profile m;
       ftp_upload_profile := ftp_upload_profile m; http_profile := http_profile m;
       imap_profile := imap_profile m; pop3_profile := TrimQuote x;
       smtp_profile := smtp_profile m |}.
Proof. reflexivity. Qed.

Lemma readUtmPolicyProfile_smtp x m :
  readUtmPolicyProfile ("smtp-profile " ++ x) m
  = {| ftp_download_profile := ftp_download_profile m;
       ftp_upload_profile := ftp_upload_profile m; http_profile := http_profile m;
       imap_profile := imap_profile m; pop3_profile := pop3_profile m;
       smtp_profile := TrimQuote x |}.
Proof. reflexivity. Qed.

Lemma fold_touch_opt (b : bool) x l :
  fold_left touchProfile (if b then [x] else []) l = if b then touchProfile l x else l.
Proof. destruct b; reflexivity. Qed.

Lemma append_nil_l (s : string) : "" ++ s = s.
Proof. reflexivity. Qed.

Ltac empty_or_not v :=
  let E := fresh "E" in
  destruct (String.eqb v "") eqn:E;
  [apply String.eqb_eq in E; subst v|].

(** The lines of one profile block, read into an absent block, give the
    normalized block. *)
Lemma touchProfile_fold p :
  profileQuotable p = true ->
  fold_left touchProfile (profileConfigSet "" p) [] = normalizeProfile [Some p].
Proof.
  destruct p as [f1 f2 f3 f4 f5 f6]. unfold profileQuotable.
  cbn [ftp_download_profile ftp_upload_profile http_profile imap_profile
       pop3_profile smtp_profile].
  intros H.
  repeat (apply andb_true_iff in H; destruct H as [H ?]).
  apply TrimQuote_quoted in H, H0, H1, H2, H3, H4.
  unfold normalizeProfile, profileConfigSet.
  cbn [ftp_download_profile ftp_upload_profile http_profile imap_profile
       pop3_profile smtp_profile].
  rewrite !append_nil_l, !fold_left_app, !fold_touch_opt.
  empty_or_not f1; empty_or_not f2; empty_or_not f3; empty_or_not f4;
    empty_or_not f5; empty_or_not f6;
    cbn [negb app]; unfold touchProfile, genMapUtmPolicyProfile;
    rewrite ?readUtmPolicyProfile_ftp_download, ?readUtmPolicyProfile_ftp_upload,
      ?readUtmPolicyProfile_http, ?readUtmPolicyProfile_imap,
      ?readUtmPolicyProfile_pop3, ?readUtmPolicyProfile_smtp;
    cbn [ftp_download_profile ftp_upload_profile http_profile imap_profile
         pop3_profile smtp_profile];
    rewrite ?H, ?H0, ?H1, ?H2, ?H3, ?H4; reflexivity.
Qed.

Lemma readUtmItems_antiVirus rests : forall c,
  readUtmItems c (map (fun r => (setLineStart ++ "anti-virus ") ++ r) rests)
  = Ok {| name := name c; antiSpamSMTPProfile := antiSpamSMTPProfile c;
          webFilteringProfile := webFilteringProfile c;
          antiVirus := fold_left touchProfile rests (antiVirus c);
          contentFiltering := contentFiltering c;
          trafficSessionsPerClient := trafficSessionsPerClient c |}.
Proof.
  induction rests as [|r rests IH]; intros c.
  - destruct c; reflexivity.
  - cbn [map readUtmItems].
    change (readUtmItem c (TrimPrefix ((setLineStart ++ "anti-virus ") ++ r) setLineStart))
      with (Ok {| name := name c; antiSpamSMTPProfile := antiSpamSMTPProfile c;
                 webFilteringProfile := webFilteringProfile c;
                 antiVirus := touchProfile (antiVirus c) r;
                 contentFiltering := contentFiltering c;
                 trafficSessionsPerClient := trafficSessionsPerClient c |}).
    cbv beta iota. rewrite IH. reflexivity.
Qed.

Lemma readUtmItems_contentFiltering rests : forall c,
  readUtmItems c (map (fun r => (setLineStart ++ "content-filtering ") ++ r) rests)
  = Ok {| name := name c; antiSpamSMTPProfile := antiSpamSMTPProfile c;
          webFilteringProfile := webFilteringProfile c;
          antiVirus := antiVirus c;
          contentFiltering := fold_left touchProfile rests (contentFiltering c);
          trafficSessionsPerClient := trafficSessionsPerClient c |}.
Proof.
  induction rests as [|r rests IH]; intros c.
  - destruct c; reflexivity.
  - cbn [map readUtmItems].
    change (readUtmItem c
              (TrimPrefix ((setLineStart ++ "content-filtering ") ++ r) setLineStart))
      with (Ok {| name := name c; antiSpamSMTPProfile := antiSpamSMTPProfile c;
                 webFilteringProfile := webFilteringProfile c;
                 antiVirus := antiVirus c;
                 contentFiltering := touchProfile (contentFiltering c) r;
                 trafficSessionsPerClient := trafficSessionsPerClient c |}).
    cbv beta iota. rewrite IH. reflexivity.
Qed.

Lemma readUtmItem_limit c txt :
  readUtmItem c ("traffic-options sessions-per-client limit " ++ txt)
  = match Atoi txt with
    | Err e => Err e
    | Ok n =>
        Ok {| name := name c; antiSpamSMTPProfile := antiSpamSMTPProfile c;
              webFilteringProfile := webFilteringProfile c;
              antiVirus := antiVirus c; contentFiltering := contentFiltering c;
              trafficSessionsPerClient :=
                {| limit := n;
                   over_limit := over_limit (fst (touchTraffic (trafficSessionsPerClient c))) |}
                :: snd (touchTraffic (trafficSessionsPerClient c)) |}
    end.
Proof.
  unfold readUtmItem.
  change (HasPrefix ("traffic-options sessions-per-client limit " ++ txt)
            "anti-spam smtp-profile ") with false.
  change (HasPrefix ("traffic-options sessions-per-client limit " ++ txt)
            "anti-virus ") with false.
  change (HasPrefix ("traffic-options sessions-per-client limit " ++ txt)
            "content-filtering ") with false.
  change (HasPrefix ("traffic-options sessions-per-client limit " ++ txt)
            "traffic-options sessions-per-client ") with true.
  change (HasPrefix ("traffic-options sessions-per-client limit " ++ txt)
            "traffic-options sessions-per-client over-limit ") with false.
  rewrite HasPrefix_app, TrimPrefix_app. cbv iota.
  destruct (touchTraffic (trafficSessionsPerClient c)) as [m tl].
  destruct (Atoi txt); reflexivity.
Qed.

Lemma readUtmItem_over_limit c v :
  readUtmItem c ("traffic-options sessions-per-client over-limit " ++ v)
  = Ok {| name := name c; antiSpamSMTPProfile := antiSpamSMTPProfile c;
          webFilteringProfile := webFilteringProfile c;
          antiVirus := antiVirus c; contentFiltering := contentFiltering c;
          trafficSessionsPerClient :=
            {| limit := limit (fst (touchTraffic (trafficSessionsPerClient c)));
               over_limit := v |}
            :: snd (touchTraffic (trafficSessionsPerClient c)) |}.
Proof.
  unfold readUtmItem.
  change (HasPrefix ("traffic-options sessions-per-client over-limit " ++ v)
            "anti-spam smtp-profile ") with false.
  change (HasPrefix ("traffic-options sessions-per-client over-limit " ++ v)
            "anti-virus ") with false.
  change (HasPrefix ("traffic-options sessions-per-client over-limit " ++ v)
            "content-filtering ") with false.
  change (HasPrefix ("traffic-options sessions-per-client over-limit " ++ v)
            "traffic-options sessions-per-client ") with true.
  change (HasPrefix ("traffic-options sessions-per-client over-limit " ++ v)
            "traffic-options sessions-per-client limit ") with false.
  rewrite HasPrefix_app, TrimPrefix_app. cbv iota.
  destruct (touchTraffic (trafficSessionsPerClient c)) as [m tl]. reflexivity.
Qed.

Lemma TrimPrefix_set x : TrimPrefix (setLineStart ++ x) setLineStart = x.
Proof. apply TrimPrefix_app. Qed.

Lemma readUtmItems_traffic c t :
  trafficSessionsPerClient c = [] ->
  minInt <= limit t <= maxInt ->
  readUtmItems c (trafficConfigSet setLineStart t)
  = Ok {| name := name c; antiSpamSMTPProfile := antiSpamSMTPProfile c;
          webFilteringProfile := webFilteringProfile c;
          antiVirus := antiVirus c; contentFiltering := contentFiltering c;
          trafficSessionsPerClient := normalizeTraffic [Some t] |}.
Proof.
  intros Hc Hl. destruct t as [lim ov]. cbn [limit over_limit] in *.
  unfold trafficConfigSet, normalizeTraffic. cbn [limit over_limit].
  pose proof (Atoi_Itoa lim Hl) as Ha.
  destruct (lim =? -1) eqn:El; [apply Z.eqb_eq in El; subst lim|];
    empty_or_not ov; cbn [negb app readUtmItems];
    rewrite ?TrimPrefix_set, ?readUtmItem_limit, ?Ha; cbv beta iota;
    rewrite ?TrimPrefix_set, ?readUtmItem_over_limit; rewrite ?Hc;
    cbn [name antiSpamSMTPProfile webFilteringProfile antiVirus contentFiltering
         trafficSessionsPerClient touchTraffic fst snd limit over_limit];
    try reflexivity.
  all: try (destruct c; cbn in *; subst; reflexivity).
  all: unfold trafficConfigSet; cbn [limit over_limit]; rewrite ?El, ?E; reflexivity.
Qed.

Lemma blockValid_cases {A} (ok : A -> bool) (l : list (option A)) :
  blockValid ok l = true -> l = [] \/ exists p, l = [Some p] /\ ok p = true.
Proof.
  destruct l as [|[p|] [|? ?]]; simpl; intros H; try discriminate; eauto.
Qed.

(** Reading the lines of a valid policy into the zero options of any name
    gives the normalized fields. *)
Lemma readUtmItems_policy d nm :
  quotable (u_anti_spam_smtp_profile d) = true ->
  quotable (u_web_filtering_profile d) = true ->
  blockValid profileQuotable (u_anti_virus d) = true ->
  blockValid profileQuotable (u_content_filtering d) = true ->
  blockValid (fun t => (minInt <=? limit t) && (limit t <=? maxInt))
    (u_traffic_sessions_per_client d) = true ->
  exists lines,
    utmConfigSetFrom setLineStart d = Ok lines
    /\ readUtmItems (zeroUtmOptions nm) lines
       = Ok {| name := nm;
               antiSpamSMTPProfile := u_anti_spam_smtp_profile d;
               webFilteringProfile := u_web_filtering_profile d;
               antiVirus := normalizeProfile (u_anti_virus d);
               contentFiltering := normalizeProfile (u_content_filtering d);
               trafficSessionsPerClient :=
                 normalizeTraffic (u_traffic_sessions_per_client d) |}.
Proof.
  intros Hs Hw Hav Hcf Htr. unfold utmConfigSetFrom.
  apply TrimQuote_quoted in Hs, Hw.
  assert (Rav : exists av,
    profileBlocksConfigSet (setLineStart ++ "anti-virus ") "anti_virus block is empty"
      (u_anti_virus d) = Ok av
    /\ forall c, antiVirus c = [] ->
       readUtmItems c av
       = Ok {| name := name c; antiSpamSMTPProfile := antiSpamSMTPProfile c;
               webFilteringProfile := webFilteringProfile c;
               antiVirus := normalizeProfile (u_anti_virus d);
               contentFiltering := contentFiltering c;
               trafficSessionsPerClient := trafficSessionsPerClient c |}).
  { destruct (blockValid_cases _ _ Hav) as [->|(p & -> & Hp)].
    - exists []. split; [reflexivity|]. intros c Hc. destruct c; simpl in *; now subst.
    - eexists. split; [reflexivity|]. intros c Hc.
      rewrite app_nil_r, profileConfigSet_map, readUtmItems_antiVirus, Hc.
      now rewrite touchProfile_fold. }
  assert (Rcf : exists cf,
    profileBlocksConfigSet (setLineStart ++ "content-filtering ")
      "content_filtering block is empty" (u_content_filtering d) = Ok cf
    /\ forall c, contentFiltering c = [] ->
       readUtmItems c cf
       = Ok {| name := name c; antiSpamSMTPProfile := antiSpamSMTPProfile c;
               webFilteringProfile := webFilteringProfile c;
               antiVirus := antiVirus c;
               contentFiltering := normalizeProfile (u_content_filtering d);
               trafficSessionsPerClient := trafficSessionsPerClient c |}).
  { destruct (blockValid_cases _ _ Hcf) as [->|(p & -> & Hp)].
    - exists []. split; [reflexivity|]. intros c Hc. destruct c; simpl in *; now subst.
    - eexists. split; [reflexivity|]. intros c Hc.
      rewrite app_nil_r, profileConfigSet_map, readUtmItems_contentFiltering, Hc.
      now rewrite touchProfile_fold. }
  assert (Rtr : exists tr,
    trafficBlocksConfigSet setLineStart (u_traffic_sessions_per_client d) = Ok tr
    /\ forall c, trafficSessionsPerClient c = [] ->
       readUtmItems c tr
       = Ok {| name := name c; antiSpamSMTPProfile := antiSpamSMTPProfile c;
               webFilteringProfile := webFilteringProfile c;
               antiVirus := antiVirus c; contentFiltering := contentFiltering c;
               trafficSessionsPerClient :=
                 normalizeTraffic (u_traffic_sessions_per_client d) |}).
  { destruct (blockValid_cases _ _ Htr) as [->|(t & -> & Ht)].
    - exists []. split; [reflexivity|]. intros c Hc. destruct c; simpl in *; now subst.
    - eexists. split; [reflexivity|]. intros c Hc.
      rewrite app_nil_r. apply readUtmItems_traffic; [assumption|].
      apply andb_true_iff in Ht as [H1 H2]. apply Z.leb_le in H1, H2. lia. }
  destruct Rav as (av & -> & Dav). destruct Rcf as (cf & -> & Dcf).
  destruct Rtr as (tr & -> & Dtr).
  eexists. split; [reflexivity|].
  rewrite readUtmItems_app.
  assert (R1 : readUtmItems (zeroUtmOptions nm)
      (if negb (String.eqb (u_anti_spam_smtp_profile d) "")
       then [setLineStart ++ "anti-spam smtp-profile " ++ quoted (u_anti_spam_smtp_profile d)]
       else [])
    = Ok {| name := nm; antiSpamSMTPProfile := u_anti_spam_smtp_profile d;
            webFilteringProfile := ""; antiVirus := []; contentFiltering := [];
            trafficSessionsPerClient := [] |}).
  { destruct (String.eqb (u_anti_spam_smtp_profile d) "") eqn:E.
    - apply String.eqb_eq in E. rewrite E. reflexivity.
    - cbn [negb readUtmItems].
      change (readUtmItem (zeroUtmOptions nm) _)
        with (Ok {| name := nm;
                    antiSpamSMTPProfile := TrimQuote (quoted (u_anti_spam_smtp_profile d));
                    webFilteringProfile := ""; antiVirus := []; contentFiltering := [];
                    trafficSessionsPerClient := [] |}).
      now rewrite Hs. }
  rewrite R1. cbv beta iota. rewrite readUtmItems_app, Dav by reflexivity.
  cbv beta iota. cbn [name antiSpamSMTPProfile webFilteringProfile
    antiVirus contentFiltering trafficSessionsPerClient].
  rewrite readUtmItems_app, Dcf by reflexivity.
  cbv beta iota. cbn [name antiSpamSMTPProfile webFilteringProfile
    antiVirus contentFiltering trafficSessionsPerClient].
  rewrite readUtmItems_app, Dtr by reflexivity.
  cbv beta iota. cbn [name antiSpamSMTPProfile webFilteringProfile
    antiVirus contentFiltering trafficSessionsPerClient].
  destruct (String.eqb (u_web_filtering_profile d) "") eqn:E.
  - apply String.eqb_eq in E. rewrite E. reflexivity.
  - cbn [negb readUtmItems].
    match goal with
    | |- context [readUtmItem ?c _] =>
        change (readUtmItem c _)
          with (Ok {| name := name c; antiSpamSMTPProfile := antiSpamSMTPProfile c;
                      webFilteringProfile := TrimQuote (quoted (u_web_filtering_profile d));
                      antiVirus := antiVirus c; contentFiltering := contentFiltering c;
                      trafficSessionsPerClient := trafficSessionsPerClient c |})
    end.
    now rewrite Hw.
Qed.

Lemma relativeLines_head P stmts l ls :
  relativeLines P stmts = l :: ls -> exists r, l = setLineStart ++ r.
Proof.
  induction stmts as [|s rest IH]; simpl; [discriminate|].
  unfold relativeLine. destruct (cutPrefix P s) as [r|]; [|exact IH].
  intros [= <- _]. now exists r.
Qed.

Lemma relativeLines_length P stmts :
  (List.length (relativeLines P stmts) <= List.length stmts)%nat.
Proof.
  induction stmts as [|s rest IH]; simpl; [lia|].
  destruct (relativeLine P s); simpl; lia.
Qed.

Lemma profileBlocks_length Q Q' msg blocks l l' :
  profileBlocksConfigSet Q msg blocks = Ok l ->
  profileBlocksConfigSet Q' msg blocks = Ok l' ->
  List.length l = List.length l'.
Proof.
  revert l l'. induction blocks as [|[p|] rest IH]; intros l l' H H'; simpl in *.
  - inversion H; inversion H'; reflexivity.
  - destruct (profileBlocksConfigSet Q msg rest) as [a|]; [|discriminate].
    destruct (profileBlocksConfigSet Q' msg rest) as [a'|]; [|discriminate].
    inversion H; inversion H'; subst.
    rewrite !length_app, (IH a a' eq_refl eq_refl).
    rewrite (profileConfigSet_map Q), (profileConfigSet_map Q'), !length_map.
    reflexivity.
  - discriminate.
Qed.

Lemma trafficBlocks_length Q Q' blocks l l' :
  trafficBlocksConfigSet Q blocks = Ok l ->
  trafficBlocksConfigSet Q' blocks = Ok l' ->
  List.length l = List.length l'.
Proof.
  revert l l'. induction blocks as [|[t|] rest IH]; intros l l' H H'; simpl in *.
  - inversion H; inversion H'; reflexivity.
  - destruct (trafficBlocksConfigSet Q rest) as [a|]; [|discriminate].
    destruct (trafficBlocksConfigSet Q' rest) as [a'|]; [|discriminate].
    inversion H; inversion H'; subst.
    rewrite !length_app, (IH a a' eq_refl eq_refl). f_equal.
    unfold trafficConfigSet.
    repeat match goal with
    | |- context [if ?b then _ else _] => destruct b
    end; reflexivity.
  - discriminate.
Qed.

(** The number of statements of a policy does not depend on the prefix. *)
Lemma utmConfigSetFrom_length Q Q' d l l' :
  utmConfigSetFrom Q d = Ok l -> utmConfigSetFrom Q' d = Ok l' ->
  List.length l = List.length l'.
Proof.
  unfold utmConfigSetFrom. intros H H'.
  destruct (profileBlocksConfigSet (Q ++ "anti-virus ") _ _) as [av|] eqn:Eav;
    [|discriminate].
  destruct (profileBlocksConfigSet (Q ++ "content-filtering ") _ _) as [cf|] eqn:Ecf;
    [|discriminate].
  destruct (trafficBlocksConfigSet Q _) as [tr|] eqn:Etr; [|discriminate].
  destruct (profileBlocksConfigSet (Q' ++ "anti-virus ") _ _) as [av'|] eqn:Eav';
    [|discriminate].
  destruct (profileBlocksConfigSet (Q' ++ "content-filtering ") _ _) as [cf'|] eqn:Ecf';
    [|discriminate].
  destruct (trafficBlocksConfigSet Q' _) as [tr'|] eqn:Etr'; [|discriminate].
  assert (L1 := profileBlocks_length _ _ _ _ _ _ Eav Eav').
  assert (L2 := profileBlocks_length _ _ _ _ _ _ Ecf Ecf').
  assert (L3 := trafficBlocks_length _ _ _ _ _ Etr Etr').
  apply (f_equal (fun r => match r with Ok x => List.length x | Err _ => O end)) in H, H'.
  rewrite <- H, <- H'. rewrite !length_app, L1, L2, L3.
  destruct (negb (String.eqb (u_anti_spam_smtp_profile d) ""));
    destruct (negb (String.eqb (u_web_filtering_profile d) "")); reflexivity.
Qed.

Lemma JoinLF_set_not_empty l ls r :
  l = setLineStart ++ r -> String.eqb (JoinLF (l :: ls)) emptyWord = false.
Proof.
  intros ->. apply String.eqb_neq. unfold JoinLF.
  destruct ls; cbn [String.concat]; discriminate.
Qed.

(** The round trip of the UTM policy: the decoder, on the relative dump of
    what the encoder stages, gives back the normalized option set. *)
Lemma utm_round_trip d :
  validUtm d = true ->
  exists stmts,
    utmConfigSet d = Ok stmts
    /\ readUtmText (u_name d) (relativeDump (utmSetPrefix (u_name d)) stmts)
       = Ok (normalizeUtm d).
Proof.
  unfold validUtm. intros H.
  apply andb_true_iff in H as [H Hclean]. apply andb_true_iff in H as [H Htr].
  apply andb_true_iff in H as [H Hcf]. apply andb_true_iff in H as [H Hav].
  apply andb_true_iff in H as [Hs Hw].
  destruct (utmConfigSetFrom setLineStart d) as [lines|] eqn:EL; [|discriminate].
  assert (Hst : exists stmts, utmConfigSet d = Ok stmts).
  { unfold utmConfigSet, utmConfigSetFrom in *.
    destruct (blockValid_cases _ _ Hav) as [->|(p & -> & _)];
      destruct (blockValid_cases _ _ Hcf) as [->|(p' & -> & _)];
      destruct (blockValid_cases _ _ Htr) as [->|(t & -> & _)];
      eexists; reflexivity. }
  destruct Hst as [stmts Est]. exists stmts. split; [assumption|].
  pose proof (relativeLines_utm _ _ _ Est) as Hrel. rewrite EL in Hrel.
  injection Hrel as Hrel.
  pose proof (utmConfigSetFrom_length _ _ _ _ _ Est EL) as Hlen.
  unfold relativeDump. rewrite <- Hrel. unfold readUtmText, normalizeUtm.
  rewrite Est.
  destruct lines as [|l ls] eqn:El.
  - destruct stmts; [|discriminate]. cbn [negb String.eqb].
    change (String.eqb emptyWord emptyWord) with true. cbn [negb].
    destruct (readUtmItems_policy d "" Hs Hw Hav Hcf Htr) as (lines' & EL' & R).
    rewrite EL in EL'. injection EL' as <-. cbn [readUtmItems] in R.
    exact R.
  - rewrite <- El in *.
    destruct (relativeLines_head _ _ _ _ (eq_trans (eq_sym Hrel) El)) as [r Hr].
    assert (Hne : lines <> []) by (subst lines; discriminate).
    assert (Hj : String.eqb (JoinLF lines) emptyWord = false)
      by (subst lines; eapply JoinLF_set_not_empty; eassumption).
    replace (match lines with [] => emptyWord | _ :: _ => JoinLF lines end)
      with (JoinLF lines) by (subst lines; reflexivity).
    rewrite Hj. cbn [negb].
    rewrite SplitLF_JoinLF by (auto using cleanLines_LF).
    rewrite readUtmLines_clean by assumption.
    destruct (readUtmItems_policy d (u_name d) Hs Hw Hav Hcf Htr) as (lines' & EL' & R).
    rewrite EL in EL'. injection EL' as <-. rewrite R.
    destruct stmts; [subst lines; discriminate|reflexivity].
Qed.

(** ** The round trip of the physical interface *)

Lemma append_nil_r_s (s : string) : s ++ "" = s.
Proof. induction s as [|c s IH]; simpl; [reflexivity|now rewrite IH]. Qed.




Lemma relativeLines_ether P d :
  relativeLines P (etherConfigSet P d) = etherConfigSet setLineStart d.
Proof.
  unfold etherConfigSet.
  repeat match goal with
  | |- context [if ?b then _ else _] => destruct b
  end; cbn [relativeLines]; rewrite ?relativeLine_direct; reflexivity.
Qed.



Lemma relativeLine_chassis nm count :
  relativeLine ("set interfaces " ++ nm ++ " ") (deviceCountSet count) = None.
Proof. reflexivity. Qed.

Lemma staged_countSearchMax sess n o i j :
  staged (snd (interfaceAggregatedCountSearchMax sess n o i j)) = staged j.
Proof.
  unfold interfaceAggregatedCountSearchMax, interfaceAggregatedLastChild, bind,
    command, ret.
  destruct (Atoi _); [|reflexivity].
  destruct (commandReply sess (tick j) showInterfaces); [|reflexivity].
  destruct (commandReply sess _ showInterfaces); reflexivity.
Qed.


















Lemma head_shape Q d h :
  physicalConfigSetHeadFrom Q d = Ok h ->
  h = Q ::
      app (if negb (String.eqb (d_ae_lacp d) "")
           then [Q ++ "aggregated-ether-options lacp " ++ d_ae_lacp d] else [])
     (app (if negb (String.eqb (d_ae_link_speed d) "")
           then [Q ++ "aggregated-ether-options link-speed " ++ d_ae_link_speed d]
           else [])
     (app (if d_ae_minimum_links d >? 0
           then [Q ++ "aggregated-ether-options minimum-links "
                 ++ Itoa (d_ae_minimum_links d)] else [])
          (if negb (String.eqb (d_description d) "")
           then [Q ++ "description " ++ quoted (d_description d)] else []))).
Proof.
  unfold physicalConfigSetHeadFrom, append, quoted.
  destruct (negb (String.eqb (d_ae_lacp d) ""));
  destruct (negb (String.eqb (d_ae_link_speed d) ""));
  destruct (d_ae_minimum_links d >? 0);
  destruct (negb (String.eqb (d_description d) ""));
  destruct (negb (HasPrefix (d_name d) "ae"));
  cbn [andb app]; intros H; try discriminate H;
  injection H as <-; reflexivity.
Qed.















(** ** The round trip of encoder and decoder *)

(** The decoder reads the lines of a dump relative to the path of the
    resource: on the statements as the encoder writes them, with the whole
    path in each, it finds no field. *)
Lemma utm_decoder_ignores_absolute_statements :
  validUtm samplePolicy = true
  /\ exists stmts,
       utmConfigSet samplePolicy = Ok stmts
       /\ readUtmText "p1" (JoinLF stmts) = Ok (zeroUtmOptions "p1")
       /\ Ok (zeroUtmOptions "p1") <> Ok (normalizeUtm samplePolicy).
Proof.
  split; [vm_compute; reflexivity|].
  eexists. split; [vm_compute; reflexivity|].
  split; [vm_compute; reflexivity|].
  vm_compute. discriminate.
Qed.




(** ** Steps that only read *)

Lemma readOnly_ret {A} (a : A) : readOnly (ret a).
Proof. intros j. simpl. auto. Qed.

Lemma readOnly_bind {A B} (c : St A) (k : A -> St B) :
  readOnly c -> (forall a, readOnly (k a)) -> readOnly (bind c k).
Proof.
  intros Hc Hk j. unfold bind. specialize (Hc j).
  destruct (c j) as [a j1]. specialize (Hk a j1). simpl in *.
  destruct Hc as (H1 & H2 & H3 & H4). destruct Hk as (K1 & K2 & K3 & K4).
  repeat split; congruence.
Qed.

Lemma readOnly_command sess cmd : readOnly (command sess cmd).
Proof. intros j. simpl. auto. Qed.

Lemma readOnly_commandXML sess rpc : readOnly (commandXML sess rpc).
Proof. intros j. simpl. auto. Qed.

Lemma readOnly_startNewSession sess : readOnly (startNewSession sess).
Proof. intros j. simpl. auto. Qed.

Lemma readOnly_SetId id : readOnly (SetId id).
Proof. intros j. simpl. auto. Qed.

Create HintDb readonly.
#[export] Hint Resolve readOnly_ret readOnly_command readOnly_commandXML
  readOnly_startNewSession readOnly_SetId : readonly.

Ltac readonly_step :=
  match goal with
  | |- readOnly (bind _ _) => apply readOnly_bind; [|intros ?]
  | |- readOnly (match ?x with _ => _ end) => destruct x
  | |- readOnly _ => solve [auto with readonly]
  end.

Ltac readonly_tac := repeat readonly_step.

Lemma readOnly_checkNCEmpty sess i : readOnly (checkInterfacePhysicalNCEmpty sess i).
Proof. unfold checkInterfacePhysicalNCEmpty. readonly_tac. Qed.

Lemma readOnly_checkExists sess i : readOnly (checkInterfaceExists sess i).
Proof. unfold checkInterfaceExists. readonly_tac. Qed.

Lemma readOnly_lastChild sess a i : readOnly (interfaceAggregatedLastChild sess a i).
Proof. unfold interfaceAggregatedLastChild. readonly_tac. Qed.

Lemma readOnly_containsUnit sess i :
  readOnly (checkInterfacePhysicalContainsUnit sess i).
Proof. unfold checkInterfacePhysicalContainsUnit. readonly_tac. Qed.

Lemma readOnly_readInterface sess i : readOnly (readInterfacePhysical sess i).
Proof. unfold readInterfacePhysical. readonly_tac. Qed.

Lemma readOnly_checkUtm sess p : readOnly (checkUtmPolicysExists sess p).
Proof. unfold checkUtmPolicysExists. readonly_tac. Qed.

Lemma readOnly_readUtm sess p : readOnly (readUtmPolicy sess p).
Proof. unfold readUtmPolicy. readonly_tac. Qed.

#[export] Hint Resolve readOnly_checkNCEmpty readOnly_checkExists readOnly_lastChild
  readOnly_containsUnit readOnly_readInterface readOnly_checkUtm readOnly_readUtm
  : readonly.

Lemma readOnly_countSearchMax sess n o i :
  readOnly (interfaceAggregatedCountSearchMax sess n o i).
Proof. unfold interfaceAggregatedCountSearchMax. readonly_tac. Qed.

Lemma readOnly_readW sess d : readOnly (resourceInterfacePhysicalReadWJnprSess sess d).
Proof. unfold resourceInterfacePhysicalReadWJnprSess. readonly_tac. Qed.

#[export] Hint Resolve readOnly_countSearchMax readOnly_readW : readonly.

Lemma readOnly_interfaceRead sess d : readOnly (resourceInterfacePhysicalRead sess d).
Proof. unfold resourceInterfacePhysicalRead. readonly_tac. Qed.

Lemma readOnly_interfaceImport sess d id :
  readOnly (resourceInterfacePhysicalImport sess d id).
Proof. unfold resourceInterfacePhysicalImport. readonly_tac. Qed.

Lemma readOnly_utmRead sess d : readOnly (resourceSecurityUtmPolicyRead sess d).
Proof. unfold resourceSecurityUtmPolicyRead. readonly_tac. Qed.

Lemma readOnly_utmImport sess d id :
  readOnly (resourceSecurityUtmPolicyImport sess d id).
Proof. unfold resourceSecurityUtmPolicyImport. readonly_tac. Qed.

(** X1.  The read and import operations of both resources, and every
    check and decoder they and the mutating operations call, leave the
    candidate configuration as it is: whatever the device answers, nothing
    is staged, committed, locked or discarded. *)
Theorem reads_leave_candidate_untouched (sess : Session) :
  (forall d, readOnly (resourceInterfacePhysicalRead sess d))
  /\ (forall d, readOnly (resourceInterfacePhysicalReadWJnprSess sess d))
  /\ (forall d id, readOnly (resourceInterfacePhysicalImport sess d id))
  /\ (forall d, readOnly (resourceSecurityUtmPolicyRead sess d))
  /\ (forall d id, readOnly (resourceSecurityUtmPolicyImport sess d id))
  /\ (forall i, readOnly (checkInterfacePhysicalNCEmpty sess i))
  /\ (forall i, readOnly (checkInterfaceExists sess i))
  /\ (forall i, readOnly (checkInterfacePhysicalContainsUnit sess i))
  /\ (forall i, readOnly (readInterfacePhysical sess i))
  /\ (forall a i, readOnly (interfaceAggregatedLastChild sess a i))
  /\ (forall n o i, readOnly (interfaceAggregatedCountSearchMax sess n o i))
  /\ (forall p, readOnly (checkUtmPolicysExists sess p))
  /\ (forall p, readOnly (readUtmPolicy sess p)).
Proof.
  repeat split; intros; revert j;
    first [ apply readOnly_interfaceRead | apply readOnly_readW
          | apply readOnly_interfaceImport | apply readOnly_utmRead
          | apply readOnly_utmImport | apply readOnly_checkNCEmpty
          | apply readOnly_checkExists | apply readOnly_containsUnit
          | apply readOnly_readInterface | apply readOnly_lastChild
          | apply readOnly_countSearchMax | apply readOnly_checkUtm
          | apply readOnly_readUtm ].
Qed.

(** ** The reach of the encoders *)

Ltac in_list := vm_compute; repeat (first [left; reflexivity | right]).

Lemma HasPrefix_refl p : HasPrefix p p = true.
Proof. rewrite <- (append_nil_r_s p) at 1. apply HasPrefix_app. Qed.

Lemma HasPrefix_app2 p a r : HasPrefix ((p ++ a) ++ r) p = true.
Proof. rewrite append_assoc_s. apply HasPrefix_app. Qed.

Lemma profileConfigSet_under P B p :
  Forall (fun s => HasPrefix s P = true) (profileConfigSet (P ++ B) p).
Proof.
  unfold profileConfigSet.
  repeat match goal with
  | |- context [if ?b then _ else _] => destruct b
  end; cbn [app]; repeat constructor; apply HasPrefix_app2.
Qed.

Lemma profileBlocks_under P B msg blocks l :
  profileBlocksConfigSet (P ++ B) msg blocks = Ok l ->
  Forall (fun s => HasPrefix s P = true) l.
Proof.
  revert l. induction blocks as [|[p|] rest IH]; cbn [profileBlocksConfigSet]; intros l H.
  - injection H as <-. constructor.
  - destruct (profileBlocksConfigSet (P ++ B) msg rest) as [l'|]; [|discriminate].
    injection H as <-. apply Forall_app. split; [apply profileConfigSet_under|auto].
  - discriminate.
Qed.

Lemma trafficBlocks_under P blocks l :
  trafficBlocksConfigSet P blocks = Ok l ->
  Forall (fun s => HasPrefix s P = true) l.
Proof.
  revert l. induction blocks as [|[t|] rest IH]; cbn [trafficBlocksConfigSet]; intros l H.
  - injection H as <-. constructor.
  - destruct (trafficBlocksConfigSet P rest) as [l'|]; [|discriminate].
    injection H as <-. apply Forall_app. split; [|auto].
    unfold trafficConfigSet.
    repeat match goal with
    | |- context [if ?b then _ else _] => destruct b
    end; cbn [app]; repeat constructor; apply HasPrefix_app.
  - discriminate.
Qed.

Lemma utmConfigSetFrom_under P d l :
  utmConfigSetFrom P d = Ok l -> Forall (fun s => HasPrefix s P = true) l.
Proof.
  unfold utmConfigSetFrom. intros H.
  destruct (profileBlocksConfigSet (P ++ "anti-virus ") _ _) as [av|] eqn:Eav;
    [|discriminate].
  destruct (profileBlocksConfigSet (P ++ "content-filtering ") _ _) as [cf|] eqn:Ecf;
    [|discriminate].
  destruct (trafficBlocksConfigSet P _) as [tr|] eqn:Etr; [|discriminate].
  injection H as <-.
  apply profileBlocks_under in Eav, Ecf. apply trafficBlocks_under in Etr.
  repeat (apply Forall_app; split); try assumption;
    match goal with
    | |- context [if ?b then _ else _] => destruct b
    end; repeat constructor; apply HasPrefix_app.
Qed.

(** X2.  Whatever the device answers, every statement that
    [setUtmPolicy] adds to the candidate configuration is under the path
    of the policy it was given: it begins with the set prefix of that
    policy. *)
Theorem utm_statements_stay_under_policy_path
  (sess : Session) (d : UtmData) (j : NetconfObject) (s : string) :
  In s (staged (snd (setUtmPolicy sess d j))) ->
  In s (staged j) \/ HasPrefix s (utmSetPrefix (u_name d)) = true.
Proof.
  unfold setUtmPolicy, utmConfigSet.
  destruct (utmConfigSetFrom _ d) as [l|] eqn:E; [|cbn; auto].
  apply utmConfigSetFrom_under in E. unfold configSet.
  destruct (configSetReply sess (tick j) l); cbn [snd staged nextTick]; [auto|].
  intros H. apply in_app_or in H as [H|H]; [auto|right].
  rewrite Forall_forall in E. auto.
Qed.

Lemma utm_statements_stay_under_policy_path_witness :
  let s := utmSetPrefix "p1" ++ "anti-spam smtp-profile " ++ quoted "spam1" in
  In s (staged (snd (setUtmPolicy (sessionShowing "") samplePolicy newNetconf)))
  /\ (In s (staged newNetconf) \/ HasPrefix s (utmSetPrefix "p1") = true).
Proof.
  cbv zeta. split; [in_list|].
  apply (utm_statements_stay_under_policy_path (sessionShowing "") samplePolicy
           newNetconf).
  in_list.
Defined.

Lemma esiConfigSet_under P l : Forall (fun s => HasPrefix s P = true) (esiConfigSet P l).
Proof.
  induction l as [|[m|] rest IH]; cbn [esiConfigSet]; [constructor| |exact IH].
  apply Forall_app. split; [|exact IH]. unfold esiStatementsOf.
  repeat match goal with
  | |- context [if ?b then _ else _] => destruct b
  end; repeat constructor; apply HasPrefix_app.
Qed.

Lemma physicalHead_under P d h :
  physicalConfigSetHeadFrom P d = Ok h -> Forall (fun s => HasPrefix s P = true) h.
Proof.
  intros H. rewrite (head_shape _ _ _ H).
  constructor; [apply HasPrefix_refl|].
  repeat (apply Forall_app; split);
    match goal with
    | |- context [if ?b then _ else _] => destruct b
    end; repeat constructor; apply HasPrefix_app.
Qed.

Lemma physicalTail_under P d :
  Forall (fun s => HasPrefix s P = true) (physicalConfigSetTailFrom P d).
Proof.
  unfold physicalConfigSetTailFrom.
  repeat (apply Forall_app; split);
    try (match goal with
         | |- context [if ?b then _ else _] => destruct b
         end; repeat constructor; apply HasPrefix_app).
  apply Forall_forall. intros s Hs. apply in_map_iff in Hs as (v & <- & _).
  apply HasPrefix_app.
Qed.

Lemma own_under P l :
  Forall (fun s => HasPrefix s P = true) l -> Forall (ownStatement P) l.
Proof. apply Forall_impl. intros s H. left. exact H. Qed.

Lemma staged_configSet sess l j s :
  In s (staged (snd (configSet sess l j))) -> In s (staged j) \/ In s l.
Proof.
  unfold configSet. destruct (configSetReply sess (tick j) l); cbn [snd staged nextTick].
  - auto.
  - apply in_app_or.
Qed.

(** X3.  Whatever the device answers and however it ends,
    [setInterfacePhysical] adds to the candidate configuration only
    statements under the path of its own interface and the chassis
    device-count statement; and it adds a device-count statement only for
    an aggregated parent or for a port bound to one. *)
Theorem interface_statements_stay_under_own_path
  (sess : Session) (d : InterfaceData) (j : NetconfObject) (s : string) :
  In s (staged (snd (setInterfacePhysical sess d j))) ->
  In s (staged j)
  \/ HasPrefix s ("set interfaces " ++ d_name d ++ " ") = true
  \/ ((HasPrefix (d_name d) "ae" = true \/ d_ether802_3ad d <> "")
      /\ exists count, s = deviceCountSet count).
Proof.
  unfold setInterfacePhysical, physicalConfigSetHead, physicalConfigSetTail.
  set (P := "set interfaces " ++ d_name d ++ " ").
  destruct (physicalConfigSetHeadFrom P d) as [h|] eqn:Eh; [|cbn; auto].
  pose proof (physicalHead_under _ _ _ Eh) as Hh.
  pose proof (physicalTail_under P d) as Ht.
  pose proof (esiConfigSet_under P (d_esi d)) as He.
  rewrite Forall_forall in Hh, Ht, He.
  unfold bind, setIntEsi.
  destruct (configSet sess (esiConfigSet P (d_esi d)) j) as [e j1] eqn:E1.
  assert (H1 : forall x, In x (staged j1) -> In x (staged j) \/ HasPrefix x P = true).
  { intros x Hx. replace j1 with (snd (configSet sess (esiConfigSet P (d_esi d)) j)) in Hx
      by (rewrite E1; reflexivity).
    apply staged_configSet in Hx as [Hx|Hx]; auto. }
  destruct e as [err|].
  { cbn [ret snd]. intros H. apply H1 in H as [H|H]; auto. }
  destruct (HasPrefix (d_name d) "ae") eqn:Eae.
  - pose proof (staged_countSearchMax sess (d_name d) "ae-1" (d_name d) j1) as Hst.
    destruct (interfaceAggregatedCountSearchMax sess (d_name d) "ae-1" (d_name d) j1)
      as [[count|err] j2]; cbn [snd] in Hst.
    + intros H. apply staged_configSet in H as [H|H].
      * rewrite Hst in H. apply H1 in H as [H|H]; auto.
      * unfold append in H. apply in_app_or in H as [H|H]; [|auto].
        apply in_app_or in H as [H|[<-|[]]]; [auto|].
        right. right. split; [auto|]. eexists. reflexivity.
    + cbn [ret snd]. rewrite Hst. intros H. apply H1 in H as [H|H]; auto.
  - destruct (negb (String.eqb (d_ether802_3ad d) "")) eqn:Ee.
    + assert (Hne : d_ether802_3ad d <> "").
      { intros C. rewrite C in Ee. discriminate Ee. }
      match goal with
      | |- context [interfaceAggregatedCountSearchMax sess ?n ?o ?i j1] =>
          pose proof (staged_countSearchMax sess n o i j1) as Hst;
          destruct (interfaceAggregatedCountSearchMax sess n o i j1)
            as [[count|err] j2]; cbn [snd] in Hst
      end.
      * intros H. apply staged_configSet in H as [H|H].
        -- rewrite Hst in H. apply H1 in H as [H|H]; auto.
        -- unfold append in H. apply in_app_or in H as [H|H]; [|auto].
           apply in_app_or in H as [H|[<-|[]]].
           ++ apply in_app_or in H as [H|[<-|[]]].
              ** apply in_app_or in H as [H|[<-|[]]]; [auto|].
                 right. left. apply HasPrefix_app.
              ** right. left. apply HasPrefix_app.
           ++ right. right. split; [auto|]. eexists. reflexivity.
      * cbn [ret snd]. rewrite Hst. intros H. apply H1 in H as [H|H]; auto.
    + intros H. apply staged_configSet in H as [H|H].
      * apply H1 in H as [H|H]; auto.
      * apply in_app_or in H as [H|H]; auto.
Qed.

Lemma interface_statements_stay_under_own_path_witness :
  In (deviceCountSet "3")
     (staged (snd (setInterfacePhysical (sessionShowing "") sampleParent newNetconf)))
  /\ (In (deviceCountSet "3") (staged newNetconf)
      \/ HasPrefix (deviceCountSet "3") ("set interfaces " ++ "ae2" ++ " ") = true
      \/ ((HasPrefix "ae2" "ae" = true \/ "" <> "")
          /\ exists count, deviceCountSet "3" = deviceCountSet count)).
Proof.
  split; [in_list|].
  apply (interface_statements_stay_under_own_path (sessionShowing "") sampleParent
           newNetconf).
  in_list.
Defined.

(** ** Aggregated options on an interface that is no parent *)

(** X4.  [setInterfacePhysical] refuses the aggregated options (lacp,
    link speed, a positive number of minimum links) exactly on an
    interface whose name does not begin with ae; the refusal comes before
    any call to the device: the session is returned as it was, with
    nothing staged. *)
Theorem aggregated_options_refused_off_parent
  (sess : Session) (d : InterfaceData) (j : NetconfObject) :
  isErr (physicalConfigSetHead d)
  = negb (HasPrefix (d_name d) "ae")
    && (negb (String.eqb (d_ae_lacp d) "") || negb (String.eqb (d_ae_link_speed d) "")
        || (d_ae_minimum_links d >? 0))
  /\ (forall e, physicalConfigSetHead d = Err e ->
      setInterfacePhysical sess d j = (Some e, j)
      /\ In e [ErrMsg "ae_lacp invalid for this interface";
               ErrMsg "ae_link_speed invalid for this interface";
               ErrMsg "ae_minimum_links invalid for this interface"]).
Proof.
  split.
  - unfold physicalConfigSetHead, physicalConfigSetHeadFrom.
    destruct (HasPrefix (d_name d) "ae");
    destruct (negb (String.eqb (d_ae_lacp d) ""));
    destruct (negb (String.eqb (d_ae_link_speed d) ""));
    destruct (d_ae_minimum_links d >? 0);
    destruct (negb (String.eqb (d_description d) "")); reflexivity.
  - intros e He. split.
    + unfold setInterfacePhysical. rewrite He. reflexivity.
    + unfold physicalConfigSetHead, physicalConfigSetHeadFrom in He.
      destruct (HasPrefix (d_name d) "ae");
      destruct (negb (String.eqb (d_ae_lacp d) ""));
      destruct (negb (String.eqb (d_ae_link_speed d) ""));
      destruct (d_ae_minimum_links d >? 0);
      destruct (negb (String.eqb (d_description d) ""));
      cbn [andb negb] in He; try discriminate He;
      injection He as <-; cbn; auto.
Qed.

Lemma aggregated_options_refused_off_parent_witness :
  physicalConfigSetHead samplePortWithLacp
  = Err (ErrMsg "ae_lacp invalid for this interface")
  /\ setInterfacePhysical (sessionShowing "") samplePortWithLacp newNetconf
     = (Some (ErrMsg "ae_lacp invalid for this interface"), newNetconf).
Proof.
  split; [reflexivity|].
  apply (proj2 (aggregated_options_refused_off_parent (sessionShowing "")
                  samplePortWithLacp newNetconf)).
  reflexivity.
Defined.

(** ** The native vlan line without a value *)

(** X5.  The decoder of the interface tests the native vlan statement
    without the blank that ends the other patterns, and removes the
    pattern with the blank: a line that begins with native-vlan-id and
    goes on with anything but a blank is handed whole to the integer
    parser, so the read fails with the conversion error that names the
    line. *)
Theorem native_vlan_line_without_blank_fails
  (c : interfacePhysicalOptions) (r : string) :
  HasPrefix r " " = false ->
  readInterfaceItem c ("native-vlan-id" ++ r)
  = Err (convertError ("native-vlan-id" ++ r)
           (ErrNum "Atoi" ("native-vlan-id" ++ r) ErrSyntax)).
Proof.
  intros Hr. unfold readInterfaceItem.
  change (HasPrefix ("native-vlan-id" ++ r) "aggregated-ether-options lacp ")
    with false.
  change (HasPrefix ("native-vlan-id" ++ r) "aggregated-ether-options link-speed ")
    with false.
  change (HasPrefix ("native-vlan-id" ++ r) "aggregated-ether-options minimum-links ")
    with false.
  change (HasPrefix ("native-vlan-id" ++ r) "description ") with false.
  change (HasPrefix ("native-vlan-id" ++ r) "esi ") with false.
  change (HasPrefix ("native-vlan-id" ++ r) "ether-options 802.3ad ") with false.
  change (HasPrefix ("native-vlan-id" ++ r) "gigether-options 802.3ad ") with false.
  rewrite HasPrefix_app. cbv beta iota.
  assert (HT : TrimPrefix ("native-vlan-id" ++ r) "native-vlan-id "
               = "native-vlan-id" ++ r).
  { unfold TrimPrefix.
    change (cutPrefix "native-vlan-id " ("native-vlan-id" ++ r))
      with (cutPrefix " " r).
    unfold HasPrefix in Hr. destruct (cutPrefix " " r); [discriminate Hr|reflexivity]. }
  rewrite HT. reflexivity.
Qed.

Lemma native_vlan_line_without_blank_fails_witness :
  HasPrefix "" " " = false
  /\ readInterfaceItem zeroInterfaceOptions ("native-vlan-id" ++ "")
     = Err (convertError ("native-vlan-id" ++ "")
              (ErrNum "Atoi" ("native-vlan-id" ++ "") ErrSyntax)).
Proof.
  split; [reflexivity|].
  apply (native_vlan_line_without_blank_fails zeroInterfaceOptions "").
  reflexivity.
Defined.

(** ** The count covers the requested index *)

Lemma countOfFound_covers n l count :
  minInt <= n <= maxInt ->
  countOfFound n l = Ok count ->
  exists m, n <= m <= maxInt /\ count = Itoa (wrapInt (m + 1)).
Proof.
  intros Hn. unfold countOfFound. destruct l as [|x l].
  - intros [= <-]. exists n. split; [lia|reflexivity].
  - destruct (Atoi _) as [lastAeInt|] eqn:E; [|discriminate].
    apply Atoi_range in E.
    destruct (lastAeInt >? n) eqn:G; intros [= <-].
    + apply Z.gtb_lt in G. exists lastAeInt. split; [lia|reflexivity].
    + exists n. split; [lia|reflexivity].
Qed.

(** X6.  Whatever the device shows, when
    [interfaceAggregatedCountSearchMax] returns a count, the count is the
    successor of an index that is at least the index of the requested
    name: below the greatest int, the count read back as a number is
    above the requested index, so the device count always covers the
    interface being configured. *)
Theorem aggregated_count_covers_requested_index
  (sess : Session) (newAE oldAE interFace : string) (j : NetconfObject)
  (count : string) :
  fst (interfaceAggregatedCountSearchMax sess newAE oldAE interFace j) = Ok count ->
  exists n m,
    Atoi (TrimPrefix newAE "ae") = Ok n
    /\ n <= m <= maxInt
    /\ count = Itoa (wrapInt (m + 1))
    /\ (m < maxInt -> Atoi count = Ok (m + 1)).
Proof.
  unfold interfaceAggregatedCountSearchMax.
  destruct (Atoi (TrimPrefix newAE "ae")) as [n|] eqn:En; [|discriminate].
  pose proof (Atoi_range _ _ En) as Hn.
  cbv beta iota zeta delta [bind command interfaceAggregatedLastChild ret].
  destruct (commandReply sess (tick j) showInterfaces);
    cbv beta iota zeta; [|cbn; discriminate].
  destruct (commandReply sess (tick (nextTick j)) showInterfaces);
    cbv beta iota zeta; [|cbn; discriminate].
  cbn [fst]. intros H.
  destruct (countOfFound_covers _ _ _ Hn H) as (m & Hm & ->).
  exists n, m. repeat split; try lia.
  intros Hlt. rewrite wrapInt_id by (unfold minInt, maxInt in *; lia).
  apply Atoi_Itoa. unfold minInt, maxInt in *. lia.
Qed.

Lemma aggregated_count_covers_requested_index_witness :
  fst (interfaceAggregatedCountSearchMax (sessionShowing confThreeParents)
         "ae3" "ae-1" "ae3" newNetconf) = Ok "8"
  /\ exists n m,
       Atoi (TrimPrefix "ae3" "ae") = Ok n
       /\ n <= m <= maxInt
       /\ "8" = Itoa (wrapInt (m + 1))
       /\ (m < maxInt -> Atoi "8" = Ok (m + 1)).
Proof.
  split; [vm_compute; reflexivity|].
  apply (aggregated_count_covers_requested_index (sessionShowing confThreeParents)
           "ae3" "ae-1" "ae3" newNetconf "8").
  vm_compute. reflexivity.
Defined.

(** ** The schema check of the esi identifier *)

Lemma schemaIdGroups_shape n : forall s,
  schemaIdGroups n s = true ->
  String.length s = (3 * n + 2)%nat
  /\ everyByte (fun c => isSchemaIdByte c || Ascii.eqb c ":") s = true.
Proof.
  induction n as [|n IH]; intros [|a [|b r]] H; try discriminate H;
    cbn [schemaIdGroups] in H;
    apply andb_true_iff in H as [Hab H]; apply andb_true_iff in Hab as [Ha Hb].
  - apply String.eqb_eq in H. subst r. cbn. rewrite Ha, Hb. auto.
  - destruct r as [|c r']; [discriminate H|].
    apply andb_true_iff in H as [Hc H]. destruct (IH _ H) as [L E].
    cbn [String.length everyByte]. rewrite Ha, Hb, Hc, E, L, orb_true_r.
    split; [lia|reflexivity].
Qed.

Lemma everyByte_digit_free s :
  everyByte (fun c => isSchemaIdByte c || Ascii.eqb c ":") s = true ->
  everyByte (fun c => negb (isDigit c)) s = true.
Proof.
  induction s as [|c s IH]; cbn [everyByte]; [reflexivity|].
  intros H. apply andb_true_iff in H as [Hc H]. rewrite (IH H), andb_true_r.
  unfold isSchemaIdByte in Hc.
  repeat (apply orb_true_iff in Hc as [Hc|Hc]);
    apply Ascii.eqb_eq in Hc; subst c; reflexivity.
Qed.

(** X7.  The regular expression that the schema hands to the string
    check of the esi identifier is written with doubled backslashes in a
    raw string, so its classes hold the backslash and the letters d and w
    and not the digits and word bytes: a string it accepts has 32 bytes,
    all of them among backslash, d, w and the colon, hence no decimal
    digit. *)
Theorem schema_identifier_check_accepts_no_digit (s : string) :
  regexpEsiIdentifierSchema s = true ->
  String.length s = 32%nat
  /\ everyByte (fun c => isSchemaIdByte c || Ascii.eqb c ":") s = true
  /\ everyByte (fun c => negb (isDigit c)) s = true.
Proof.
  intros H. apply schemaIdGroups_shape in H as [L E].
  split; [exact L|]. split; [exact E|]. apply everyByte_digit_free, E.
Qed.

Lemma schema_identifier_check_accepts_no_digit_witness :
  regexpEsiIdentifierSchema "dd:dd:dd:dd:dd:dd:dd:dd:dd:dd:dd" = true
  /\ String.length "dd:dd:dd:dd:dd:dd:dd:dd:dd:dd:dd" = 32%nat
  /\ regexpEsiIdentifierSchema "00:11:22:33:44:55:66:77:88:99:aa" = false.
Proof.
  split; [reflexivity|]. split; [|reflexivity].
  apply (schema_identifier_check_accepts_no_digit "dd:dd:dd:dd:dd:dd:dd:dd:dd:dd:dd").
  reflexivity.
Defined.

(** ** At most one block of each kind is decoded *)

Lemma touchProfile_length l rest :
  (List.length l <= 1 -> List.length (touchProfile l rest) <= 1)%nat.
Proof. destruct l; cbn; lia. Qed.

Lemma readUtmItem_blocks c itemTrim c' :
  (List.length (antiVirus c) <= 1)%nat ->
  (List.length (contentFiltering c) <= 1)%nat ->
  (List.length (trafficSessionsPerClient c) <= 1)%nat ->
  readUtmItem c itemTrim = Ok c' ->
  (List.length (antiVirus c') <= 1)%nat
  /\ (List.length (contentFiltering c') <= 1)%nat
  /\ (List.length (trafficSessionsPerClient c') <= 1)%nat.
Proof.
  intros Ha Hc Ht. unfold readUtmItem.
  destruct (HasPrefix itemTrim "anti-spam smtp-profile ").
  { intros [= <-]. cbn. auto. }
  destruct (HasPrefix itemTrim "anti-virus ").
  { intros [= <-]. cbn [antiVirus contentFiltering trafficSessionsPerClient].
    auto using touchProfile_length. }
  destruct (HasPrefix itemTrim "content-filtering ").
  { intros [= <-]. cbn [antiVirus contentFiltering trafficSessionsPerClient].
    auto using touchProfile_length. }
  destruct (HasPrefix itemTrim "traffic-options sessions-per-client ").
  { assert (Hl : forall m tl, touchTraffic (trafficSessionsPerClient c) = (m, tl) ->
                 (List.length (m :: tl) <= 1)%nat).
    { intros m tl. unfold touchTraffic.
      destruct (trafficSessionsPerClient c) as [|x l]; intros [= <- <-]; cbn in *; lia. }
    destruct (touchTraffic (trafficSessionsPerClient c)) as [m tl].
    specialize (Hl m tl eq_refl). cbn [List.length] in Hl.
    destruct (HasPrefix itemTrim "traffic-options sessions-per-client limit ");
      [destruct (Atoi _); [|discriminate]|];
      destruct (HasPrefix itemTrim "traffic-options sessions-per-client over-limit ");
      intros [= <-]; cbn; auto. }
  destruct (HasPrefix itemTrim "web-filtering http-profile ").
  { intros [= <-]. cbn. auto. }
  intros [= <-]. auto.
Qed.

Lemma readUtmLines_blocks items : forall c c',
  (List.length (antiVirus c) <= 1)%nat ->
  (List.length (contentFiltering c) <= 1)%nat ->
  (List.length (trafficSessionsPerClient c) <= 1)%nat ->
  readUtmLines c items = Ok c' ->
  (List.length (antiVirus c') <= 1)%nat
  /\ (List.length (contentFiltering c') <= 1)%nat
  /\ (List.length (trafficSessionsPerClient c') <= 1)%nat.
Proof.
  induction items as [|item rest IH]; intros c c' Ha Hc Ht; cbn [readUtmLines].
  - intros [= <-]. auto.
  - destruct (Contains item "<configuration-output>"); [apply IH; assumption|].
    destruct (Contains item "</configuration-output>"); [intros [= <-]; auto|].
    destruct (readUtmItem c _) as [c1|] eqn:E; [|discriminate].
    destruct (readUtmItem_blocks _ _ _ Ha Hc Ht E) as (A1 & C1 & T1).
    apply IH; assumption.
Qed.

Lemma readIntEsi_length l item :
  (List.length l <= 1 -> List.length (readIntEsi l item) <= 1)%nat.
Proof. destruct l; cbn; lia. Qed.

Lemma readInterfaceItem_esi_length c itemTrim c' :
  (List.length (esi c) <= 1)%nat ->
  readInterfaceItem c itemTrim = Ok c' ->
  (List.length (esi c') <= 1)%nat.
Proof.
  intros He. unfold readInterfaceItem.
  repeat match goal with
  | |- context [if ?b then _ else _] => destruct b
  | |- context [match Atoi ?x with _ => _ end] => destruct (Atoi x)
  end; intros [= <-]; cbn [esi]; auto using readIntEsi_length.
Qed.

Lemma readInterfaceLines_esi_length items : forall c c',
  (List.length (esi c) <= 1)%nat ->
  readInterfaceLines c items = Ok c' ->
  (List.length (esi c') <= 1)%nat.
Proof.
  induction items as [|item rest IH]; intros c c' He; cbn [readInterfaceLines].
  - intros [= <-]. auto.
  - destruct (Contains item " unit " && negb (Contains item "ethernet-switching"));
      [apply IH; assumption|].
    destruct (Contains item "<configuration-output>"); [apply IH; assumption|].
    destruct (Contains item "</configuration-output>"); [intros [= <-]; auto|].
    destruct (readInterfaceItem c _) as [c1|] eqn:E; [|discriminate].
    apply IH. eapply readInterfaceItem_esi_length; eassumption.
Qed.

(** X8.  Whatever text the device returns, the options that the two
    decoders build hold at most one block of each nested kind (anti-virus,
    content-filtering, sessions per client; esi), as the schemas allow:
    a later line of a kind updates the one block and never adds one. *)
Theorem decoders_build_at_most_one_block (text : string) :
  (forall policy o,
      readUtmText policy text = Ok o ->
      (List.length (antiVirus o) <= 1)%nat
      /\ (List.length (contentFiltering o) <= 1)%nat
      /\ (List.length (trafficSessionsPerClient o) <= 1)%nat)
  /\ (forall o,
        readInterfaceText text = Ok o -> (List.length (esi o) <= 1)%nat).
Proof.
  split.
  - intros policy o. unfold readUtmText.
    destruct (negb (String.eqb text emptyWord)).
    + apply readUtmLines_blocks; cbn; lia.
    + intros [= <-]. cbn. lia.
  - intros o. unfold readInterfaceText.
    destruct (negb (String.eqb text emptyWord)).
    + apply readInterfaceLines_esi_length. cbn. lia.
    + intros [= <-]. cbn. lia.
Qed.

Lemma decoders_build_at_most_one_block_witness :
  exists o,
    readInterfaceText ("set esi all-active" ++ String LF "set esi auto-derive lacp")
    = Ok o
    /\ (List.length (esi o) <= 1)%nat.
Proof.
  eexists. split; [vm_compute; reflexivity|].
  apply (proj2 (decoders_build_at_most_one_block
                  ("set esi all-active" ++ String LF "set esi auto-derive lacp"))).
  vm_compute. reflexivity.
Defined.

(** ** An interface that only carries units *)

Lemma intConfigLines_only_units items :
  Forall (fun l => sonUnitLine l = true) items -> intConfigLines items = [].
Proof.
  induction 1 as [|item rest H _ IH]; cbn [intConfigLines]; [reflexivity|].
  unfold sonUnitLine in H. rewrite H. exact IH.
Qed.

(** X9.  The classifier of the interface leaves out the statements of
    the logical units (other than the ethernet-switching ones) before it
    decides: an interface whose dump holds nothing but such statements is
    Empty, so its creation is not refused as already configured. *)
Theorem interface_with_only_units_is_empty (group intConfig : string) :
  Forall (fun l => sonUnitLine l = true) (SplitLF intConfig) ->
  classifyDump group intConfig = (false, true).
Proof.
  intros H. unfold classifyDump. rewrite (intConfigLines_only_units _ H).
  reflexivity.
Qed.

Lemma interface_with_only_units_is_empty_witness :
  Forall (fun l => sonUnitLine l = true) (SplitLF confOnlyUnits)
  /\ classifyDump "" confOnlyUnits = (false, true).
Proof.
  assert (H : Forall (fun l => sonUnitLine l = true) (SplitLF confOnlyUnits))
    by (vm_compute; repeat constructor).
  split; [exact H|].
  exact (interface_with_only_units_is_empty "" confOnlyUnits H).
Defined.

(** ** Parking by the group and the classifier *)

(** X10.  With a group configured for the deleted interfaces,
    [addInterfacePhysicalNC] stages the one statement that applies the
    group to the interface, and the classifier reads the dump of the
    interface, relative to its path, once that statement is applied, as
    NotConfigured: what the delete parks is what a later create
    recognises. *)
Theorem parking_by_group_is_read_as_not_configured
  (sess : Session) (interFace : string) (j : NetconfObject) :
  junosGroupIntDel sess <> "" ->
  cleanLine ("set apply-groups " ++ junosGroupIntDel sess) = true ->
  configSetReply sess (tick j)
    ["set interfaces " ++ interFace ++ " apply-groups " ++ junosGroupIntDel sess]
  = None ->
  staged j = [] ->
  staged (snd (addInterfacePhysicalNC sess interFace j))
  = ["set interfaces " ++ interFace ++ " apply-groups " ++ junosGroupIntDel sess]
  /\ classifyDump (junosGroupIntDel sess)
       (relativeDump ("set interfaces " ++ interFace ++ " ")
          (staged (snd (addInterfacePhysicalNC sess interFace j))))
     = (true, false).
Proof.
  intros Hg Hclean Hset Hj.
  assert (Hs : staged (snd (addInterfacePhysicalNC sess interFace j))
               = ["set interfaces " ++ interFace ++ " apply-groups "
                  ++ junosGroupIntDel sess]).
  { unfold addInterfacePhysicalNC.
    destruct (String.eqb (junosGroupIntDel sess) "") eqn:E;
      [apply String.eqb_eq in E; contradiction|].
    unfold configSet. rewrite Hset. cbn [snd staged]. rewrite Hj. reflexivity. }
  split; [exact Hs|]. rewrite Hs.
  set (G := junosGroupIntDel sess) in *.
  replace ("set interfaces " ++ interFace ++ " apply-groups " ++ G)
    with (("set interfaces " ++ interFace ++ " ") ++ "apply-groups " ++ G)
    by (rewrite !append_assoc_s; reflexivity).
  unfold relativeDump. cbn [relativeLines]. rewrite relativeLine_direct.
  change (setLineStart ++ "apply-groups " ++ G) with ("set apply-groups " ++ G).
  unfold cleanLine in Hclean.
  apply andb_true_iff in Hclean as [Hclean Hc2].
  apply andb_true_iff in Hclean as [Hlf Hc1].
  apply negb_true_iff in Hc1, Hc2.
  unfold JoinLF. cbn [String.concat].
  unfold classifyDump. rewrite (SplitLF_noLF _ Hlf).
  cbn [intConfigLines].
  change (HasPrefix ("set apply-groups " ++ G) "set unit") with false.
  cbn [andb]. rewrite Hc1, Hc2.
  change (String.eqb ("set apply-groups " ++ G) "") with false. cbv iota.
  unfold ncEmptyOfLines. cbn [List.length Nat.eqb].
  unfold JoinLF. cbn [String.concat].
  rewrite String.eqb_refl.
  destruct (String.eqb G "") eqn:E; [apply String.eqb_eq in E; contradiction|].
  reflexivity.
Qed.

Lemma parking_by_group_is_read_as_not_configured_witness :
  classifyDump "parked"
    (relativeDump ("set interfaces " ++ "ge-0/0/1" ++ " ")
       (staged (snd (addInterfacePhysicalNC (sessionParkingByGroup "parked" "")
                       "ge-0/0/1" newNetconf))))
  = (true, false).
Proof.
  apply (parking_by_group_is_read_as_not_configured
           (sessionParkingByGroup "parked" "") "ge-0/0/1" newNetconf);
    [discriminate|reflexivity|reflexivity|reflexivity].
Defined.

(** ** A refresh after an apply *)

Lemma profileConfigSet_nil Q p :
  profileConfigSet "" p = [] -> profileConfigSet Q p = [].
Proof.
  unfold profileConfigSet.
  repeat match goal with
  | |- context [if ?b then _ else _] => destruct b
  end; cbn [app]; intros H; try discriminate H; reflexivity.
Qed.

Lemma trafficConfigSet_nil Q t :
  trafficConfigSet "" t = [] -> trafficConfigSet Q t = [].
Proof.
  unfold trafficConfigSet.
  repeat match goal with
  | |- context [if ?b then _ else _] => destruct b
  end; cbn [app]; intros H; try discriminate H; reflexivity.
Qed.

Lemma profileBlocks_normalized ok Q msg l :
  blockValid ok l = true ->
  profileBlocksConfigSet Q msg (map Some (normalizeProfile l))
  = profileBlocksConfigSet Q msg l.
Proof.
  intros H. destruct (blockValid_cases _ _ H) as [->|(p & -> & _)]; [reflexivity|].
  unfold normalizeProfile.
  destruct (profileConfigSet "" p) eqn:E; [|reflexivity].
  cbn [map profileBlocksConfigSet]. now rewrite (profileConfigSet_nil Q p E).
Qed.

Lemma trafficBlocks_normalized ok Q l :
  blockValid ok l = true ->
  trafficBlocksConfigSet Q (map Some (normalizeTraffic l))
  = trafficBlocksConfigSet Q l.
Proof.
  intros H. destruct (blockValid_cases _ _ H) as [->|(t & -> & _)]; [reflexivity|].
  unfold normalizeTraffic.
  destruct (trafficConfigSet "" t) eqn:E; [|reflexivity].
  cbn [map trafficBlocksConfigSet]. now rewrite (trafficConfigSet_nil Q t E).
Qed.

Lemma utmConfigSet_normalized d stmts :
  validUtm d = true -> utmConfigSet d = Ok stmts -> stmts <> [] ->
  utmConfigSet (fillUtmPolicyData d (normalizeUtm d)) = Ok stmts.
Proof.
  unfold validUtm. intros H Est Hne.
  apply andb_true_iff in H as [H _]. apply andb_true_iff in H as [H Htr].
  apply andb_true_iff in H as [H Hcf]. apply andb_true_iff in H as [_ Hav].
  assert (Hn : name (normalizeUtm d) = u_name d).
  { unfold normalizeUtm. cbn [name]. rewrite Est.
    destruct stmts; [contradiction|reflexivity]. }
  rewrite <- Est. unfold utmConfigSet, fillUtmPolicyData. cbn [u_name]. rewrite Hn.
  unfold utmConfigSetFrom, normalizeUtm.
  cbn [u_anti_spam_smtp_profile u_anti_virus u_content_filtering
       u_traffic_sessions_per_client u_web_filtering_profile
       antiSpamSMTPProfile webFilteringProfile antiVirus contentFiltering
       trafficSessionsPerClient].
  rewrite (profileBlocks_normalized _ _ _ _ Hav),
          (profileBlocks_normalized _ _ _ _ Hcf),
          (trafficBlocks_normalized _ _ _ Htr).
  reflexivity.
Qed.

(** X11.  A refresh after an apply brings no change of the UTM policy to
    write: for a valid option set with at least one statement, the decoder
    succeeds on the dump of the policy relative to its path once the
    encoded statements are applied, and the resource data filled from what
    it decoded encodes to the very statements that were applied. *)
Theorem utm_refresh_after_apply_encodes_the_same (d : UtmData) (stmts : list string) :
  validUtm d = true ->
  utmConfigSet d = Ok stmts ->
  stmts <> [] ->
  exists o,
    readUtmText (u_name d) (relativeDump (utmSetPrefix (u_name d)) stmts) = Ok o
    /\ utmConfigSet (fillUtmPolicyData d o) = Ok stmts.
Proof.
  intros Hv Est Hne.
  destruct (utm_round_trip d Hv) as (stmts' & Est' & R).
  rewrite Est in Est'. injection Est' as <-.
  exists (normalizeUtm d). split; [exact R|].
  apply utmConfigSet_normalized; assumption.
Qed.

Lemma utm_refresh_after_apply_encodes_the_same_witness :
  exists stmts o,
    utmConfigSet samplePolicy = Ok stmts
    /\ readUtmText "p1" (relativeDump (utmSetPrefix "p1") stmts) = Ok o
    /\ utmConfigSet (fillUtmPolicyData samplePolicy o) = Ok stmts.
Proof.
  destruct (utmConfigSet samplePolicy) as [stmts|] eqn:E; [|discriminate E].
  assert (Hne : stmts <> []).
  { intros ->. vm_compute in E. discriminate E. }
  destruct (utm_refresh_after_apply_encodes_the_same samplePolicy stmts
              eq_refl E Hne) as (o & R & F).
  exists stmts, o. auto.
Defined.




(** ** What the operations stage *)

Lemma HasPrefix_cancel p a b : HasPrefix (p ++ a) (p ++ b) = HasPrefix a b.
Proof.
  unfold HasPrefix. induction p as [|c p IH]; [reflexivity|].
  cbn [String.append cutPrefix]. rewrite Ascii.eqb_refl. exact IH.
Qed.

Lemma configSet_cases sess l j :
  (fst (configSet sess l j) = None
   /\ staged (snd (configSet sess l j)) = app (staged j) l
   \/ (exists e, fst (configSet sess l j) = Some e)
      /\ staged (snd (configSet sess l j)) = staged j)
  /\ commits (snd (configSet sess l j)) = commits j
  /\ discards (snd (configSet sess l j)) = discards j.
Proof.
  unfold configSet. destruct (configSetReply sess (tick j) l) as [e|]; cbn.
  - split; [right; split; [exists e|]; reflexivity|auto].
  - split; [left; auto|auto].
Qed.

Lemma touches_under d k :
  HasPrefix k "description" = false ->
  touchesDescription (d_name d) (("set interfaces " ++ d_name d ++ " ") ++ k) = false.
Proof.
  intros Hk. unfold touchesDescription.
  replace ("set interfaces " ++ d_name d ++ " description")
    with (("set interfaces " ++ d_name d ++ " ") ++ "description")
    by (rewrite !append_assoc_s; reflexivity).
  rewrite HasPrefix_cancel, Hk. reflexivity.
Qed.

Lemma settingOf_under d k :
  HasPrefix k "description" = false ->
  settingOf d (("set interfaces " ++ d_name d ++ " ") ++ k).
Proof.
  intros Hk. split; [left; apply HasPrefix_app|].
  intros _. apply touches_under, Hk.
Qed.

Lemma settingOf_bare d : settingOf d ("set interfaces " ++ d_name d ++ " ").
Proof.
  rewrite <- (append_nil_r_s ("set interfaces " ++ d_name d ++ " ")).
  apply settingOf_under. reflexivity.
Qed.

Lemma settingOf_count d count : settingOf d (deviceCountSet count).
Proof.
  split; [right; eexists; reflexivity|]. intros _. reflexivity.
Qed.

Ltac one_or_none :=
  first [ apply Forall_nil
        | apply Forall_cons; [apply settingOf_under; reflexivity|apply Forall_nil] ].

Lemma settingOf_esi d : Forall (settingOf d)
  (esiConfigSet ("set interfaces " ++ d_name d ++ " ") (d_esi d)).
Proof.
  induction (d_esi d) as [|[m|] rest IH]; cbn [esiConfigSet]; [constructor| |exact IH].
  apply Forall_app. split; [|exact IH]. unfold esiStatementsOf.
  repeat match goal with
  | |- context [if ?b then _ else _] => destruct b
  end; one_or_none.
Qed.

Lemma settingOf_head d h :
  physicalConfigSetHead d = Ok h -> Forall (settingOf d) h.
Proof.
  unfold physicalConfigSetHead. intros H. rewrite (head_shape _ _ _ H).
  constructor; [apply settingOf_bare|].
  apply Forall_app. split.
  { destruct (negb _); one_or_none. }
  apply Forall_app. split.
  { destruct (negb _); one_or_none. }
  apply Forall_app. split.
  { destruct (_ >? _); one_or_none. }
  destruct (negb (String.eqb (d_description d) "")) eqn:E; [|apply Forall_nil].
  apply Forall_cons; [|apply Forall_nil]. split.
  - left. apply HasPrefix_app.
  - intros C. rewrite C in E. discriminate E.
Qed.

Lemma settingOf_tail d : Forall (settingOf d) (physicalConfigSetTail d).
Proof.
  unfold physicalConfigSetTail, physicalConfigSetTailFrom.
  apply Forall_app. split.
  { destruct (d_trunk d); one_or_none. }
  apply Forall_app. split.
  { apply Forall_forall. intros s Hs. apply in_map_iff in Hs as (v & <- & _).
    apply settingOf_under. reflexivity. }
  apply Forall_app. split.
  { destruct (negb _); one_or_none. }
  destruct (d_vlan_tagging d); one_or_none.
Qed.

(** What [setInterfacePhysical] does to the session, however it ends. *)
Lemma setInterfacePhysical_emits sess d j :
  exists emitted,
    staged (snd (setInterfacePhysical sess d j)) = app (staged j) emitted
    /\ Forall (settingOf d) emitted
    /\ commits (snd (setInterfacePhysical sess d j)) = commits j
    /\ discards (snd (setInterfacePhysical sess d j)) = discards j.
Proof.
  unfold setInterfacePhysical.
  destruct (physicalConfigSetHead d) as [h|] eqn:Eh.
  2:{ exists []. cbn. rewrite app_nil_r. auto. }
  pose proof (settingOf_head _ _ Eh) as Hh.
  pose proof (settingOf_tail d) as Ht.
  pose proof (settingOf_esi d) as He.
  unfold physicalConfigSetTail in *.
  set (P := "set interfaces " ++ d_name d ++ " ") in *.
  unfold bind, setIntEsi.
  destruct (configSet_cases sess (esiConfigSet P (d_esi d)) j) as (C1 & K1 & D1).
  destruct (configSet sess (esiConfigSet P (d_esi d)) j) as [e j1].
  cbn [fst snd] in *.
  assert (H1 : exists em1, staged j1 = app (staged j) em1 /\ Forall (settingOf d) em1).
  { destruct C1 as [[_ S1]|[_ S1]]; rewrite S1.
    - eexists. split; [reflexivity|exact He].
    - exists []. rewrite app_nil_r. auto. }
  destruct H1 as (em1 & S1 & F1). clear C1.
  assert (Done : forall l (jx : NetconfObject),
             staged jx = staged j1 -> commits jx = commits j1 ->
             discards jx = discards j1 ->
             Forall (settingOf d) l ->
             exists emitted,
               staged (snd (configSet sess l jx)) = app (staged j) emitted
               /\ Forall (settingOf d) emitted
               /\ commits (snd (configSet sess l jx)) = commits j
               /\ discards (snd (configSet sess l jx)) = discards j).
  { intros l jx Sx Kx Dx Fl.
    destruct (configSet_cases sess l jx) as (C2 & K2 & D2).
    rewrite K2, D2, Kx, Dx.
    destruct C2 as [[_ S2]|[_ S2]]; rewrite S2, Sx, S1.
    - exists (app em1 l). rewrite app_assoc. repeat split; auto.
      apply Forall_app. auto.
    - exists em1. auto. }
  assert (Stop : forall (jx : NetconfObject),
             staged jx = staged j1 -> commits jx = commits j1 ->
             discards jx = discards j1 ->
             exists emitted,
               staged jx = app (staged j) emitted
               /\ Forall (settingOf d) emitted
               /\ commits jx = commits j
               /\ discards jx = discards j).
  { intros jx Sx Kx Dx. exists em1. rewrite Sx, Kx, Dx. auto. }
  destruct e as [err|]; [cbn [ret snd]; apply Stop; reflexivity|].
  destruct (HasPrefix (d_name d) "ae").
  - destruct (readOnly_countSearchMax sess (d_name d) "ae-1" (d_name d) j1)
      as (S2 & K2 & _ & D2).
    destruct (interfaceAggregatedCountSearchMax sess (d_name d) "ae-1" (d_name d) j1)
      as [[count|err] j2]; cbn [snd] in *.
    + apply Done; auto. apply Forall_app. split; [|exact Ht].
      unfold append. apply Forall_app. split; [exact Hh|].
      apply Forall_cons; [apply settingOf_count|apply Forall_nil].
    + cbn [ret snd]. apply Stop; auto.
  - destruct (negb (String.eqb (d_ether802_3ad d) "")).
    + match goal with
      | |- context [interfaceAggregatedCountSearchMax sess ?n ?o ?i j1] =>
          destruct (readOnly_countSearchMax sess n o i j1) as (S2 & K2 & _ & D2);
          destruct (interfaceAggregatedCountSearchMax sess n o i j1)
            as [[count|err] j2]; cbn [snd] in *
      end.
      * apply Done; auto. apply Forall_app. split; [|exact Ht].
        unfold append. repeat (apply Forall_app; split); try exact Hh;
          (apply Forall_cons; [|apply Forall_nil]);
          first [ apply settingOf_count | apply settingOf_under; reflexivity ].
      * cbn [ret snd]. apply Stop; auto.
    + apply Done; auto. apply Forall_app. auto.
Qed.

Lemma configLock_keeps sess j :
  staged (snd (configLock sess j)) = staged j
  /\ commits (snd (configLock sess j)) = commits j
  /\ discards (snd (configLock sess j)) = discards j.
Proof. unfold configLock. destruct (configLockReply sess (tick j)); cbn; auto. Qed.

Lemma commitConf_cases sess msg j :
  (exists warns, fst (commitConf sess msg j) = (warns, None)
     /\ commitConfReply sess (tick j) msg = (warns, None)
     /\ staged (snd (commitConf sess msg j)) = []
     /\ commits (snd (commitConf sess msg j)) = app (commits j) [staged j]
     /\ discards (snd (commitConf sess msg j)) = discards j)
  \/ (exists warns e, fst (commitConf sess msg j) = (warns, Some e)
        /\ snd (commitConf sess msg j) = nextTick j).
Proof.
  unfold commitConf. destruct (commitConfReply sess (tick j) msg) as [w [e|]]; cbn.
  - right. eauto.
  - left. exists w. auto.
Qed.

Lemma HasError_warns warns : HasError (warnsOf warns) = false.
Proof. induction warns; [reflexivity|exact IHwarns]. Qed.

Lemma HasError_app a b : HasError (app a b) = HasError a || HasError b.
Proof. unfold HasError. apply existsb_app. Qed.

Lemma HasError_warns_err warns e : HasError (app (warnsOf warns) (FromErr e)) = true.
Proof. rewrite HasError_app, HasError_warns. reflexivity. Qed.

Lemma touches_delete d k :
  HasPrefix k "description" = false ->
  touchesDescription (d_name d) (("delete interfaces " ++ d_name d ++ " ") ++ k)
  = false.
Proof.
  intros Hk. unfold touchesDescription.
  replace ("delete interfaces " ++ d_name d ++ " description")
    with (("delete interfaces " ++ d_name d ++ " ") ++ "description")
    by (rewrite !append_assoc_s; reflexivity).
  rewrite HasPrefix_cancel, Hk, orb_false_r. reflexivity.
Qed.

Lemma optionDeletes_spare_description d :
  Forall (fun s => touchesDescription (d_name d) s = false) (optionDeletes d).
Proof.
  unfold optionDeletes. repeat apply Forall_cons; try apply Forall_nil;
    apply touches_delete; reflexivity.
Qed.

(** X13.  From an empty candidate, the update of the interface commits
    at most once; what it commits is the eight deletions of options
    followed by statements that [setInterfacePhysical] staged, each under
    the path of the interface or the chassis device count.  None of the
    eight deletions is that of the description: when the data holds no
    description, nothing committed touches the description of the
    interface, so an update does not remove a description that the
    device holds. *)
Theorem interface_update_commit_shape
  (sess : Session) (d : InterfaceData) (j : NetconfObject) :
  staged j = [] ->
  (commits (snd (resourceInterfacePhysicalUpdate sess d j)) = commits j
   /\ HasError (fst (resourceInterfacePhysicalUpdate sess d j)) = true)
  \/ exists settings,
       commits (snd (resourceInterfacePhysicalUpdate sess d j))
       = app (commits j) [app (optionDeletes d) settings]
       /\ staged (snd (resourceInterfacePhysicalUpdate sess d j)) = []
       /\ Forall (ownStatement ("set interfaces " ++ d_name d ++ " ")) settings
       /\ (d_description d = "" ->
           Forall (fun s => touchesDescription (d_name d) s = false)
             (app (optionDeletes d) settings)).
Proof.
  intros Hj.
  destruct (resourceInterfacePhysicalUpdate sess d j) as [ds jf] eqn:E.
  cbn [fst snd].
  unfold resourceInterfacePhysicalUpdate, bind in E.
  unfold startNewSession at 1 in E.
  destruct (startNewSessionReply sess (tick j)) as [err|].
  { injection E as <- <-. left. split; reflexivity. }
  destruct (configLock_keeps sess (nextTick j)) as (S1 & K1 & D1).
  cbn [nextTick staged commits discards] in S1, K1, D1.
  destruct (configLock sess (nextTick j)) as [l j1]. cbn [fst snd] in *.
  change (delInterfacePhysicalOpts sess d j1)
    with (configSet sess (optionDeletes d) j1) in E.
  destruct (configSet_cases sess (optionDeletes d) j1) as (C2 & K2 & D2).
  destruct (configSet sess (optionDeletes d) j1) as [e2 j2]. cbn [fst snd] in *.
  destruct e2 as [err|].
  { cbn [configClear ret] in E. injection E as <- <-.
    left. cbn. split; [congruence|reflexivity]. }
  destruct C2 as [[_ S2]|[[e C] _]]; [|discriminate C].
  rewrite S1, Hj in S2. cbn [app] in S2.
  destruct (setInterfacePhysical_emits sess d j2) as (settings & S3 & F3 & K3 & D3).
  destruct (setInterfacePhysical sess d j2) as [e3 j3]. cbn [fst snd] in *.
  destruct e3 as [err|].
  { cbn [configClear ret] in E. injection E as <- <-.
    left. cbn. split; [congruence|reflexivity]. }
  destruct (commitConf_cases sess "update resource junos_interface_physical" j3)
    as [(w & E4 & _ & S4 & K4 & D4)|(w & e & E4 & J4)];
    destruct (commitConf sess _ j3) as [c4 j4]; cbn [fst snd] in *; subst c4;
    cbn [fst snd] in E.
  2:{ subst j4. cbn [configClear ret] in E. injection E as <- <-.
      left. cbn [commits nextTick]. split; [congruence|]. apply HasError_warns_err. }
  destruct (readOnly_readW sess d j4) as (S5 & K5 & _ & _).
  destruct (resourceInterfacePhysicalReadWJnprSess sess d j4) as [ds5 j5].
  cbn [fst snd ret] in *. injection E as <- <-.
  right. exists settings. rewrite K5, K4, K3, K2, K1, S3, S2, S5, S4.
  split; [reflexivity|]. split; [reflexivity|]. split.
  - eapply Forall_impl; [|exact F3]. intros s [H _]. exact H.
  - intros Hd. apply Forall_app. split; [apply optionDeletes_spare_description|].
    eapply Forall_impl; [|exact F3]. intros s [_ H]. exact (H Hd).
Qed.

Lemma interface_update_commit_shape_witness :
  commits (snd (resourceInterfacePhysicalUpdate (sessionShowing "")
                  sampleTrunkNoDescription newNetconf))
  = [app (optionDeletes sampleTrunkNoDescription)
       ["set interfaces ge-0/0/3 ";
        "set interfaces ge-0/0/3 unit 0 family ethernet-switching interface-mode trunk";
        "set interfaces ge-0/0/3 unit 0 family ethernet-switching vlan members v10"]]
  /\ ((commits (snd (resourceInterfacePhysicalUpdate (sessionShowing "")
                       sampleTrunkNoDescription newNetconf)) = []
       /\ HasError (fst (resourceInterfacePhysicalUpdate (sessionShowing "")
                           sampleTrunkNoDescription newNetconf)) = true)
      \/ exists settings,
           commits (snd (resourceInterfacePhysicalUpdate (sessionShowing "")
                           sampleTrunkNoDescription newNetconf))
           = app [] [app (optionDeletes sampleTrunkNoDescription) settings]
           /\ staged (snd (resourceInterfacePhysicalUpdate (sessionShowing "")
                             sampleTrunkNoDescription newNetconf)) = []
           /\ Forall (ownStatement ("set interfaces " ++ "ge-0/0/3" ++ " ")) settings
           /\ ("" = "" ->
               Forall (fun s => touchesDescription "ge-0/0/3" s = false)
                 (app (optionDeletes sampleTrunkNoDescription) settings))).
Proof.
  split; [vm_compute; reflexivity|].
  apply (interface_update_commit_shape (sessionShowing "") sampleTrunkNoDescription
           newNetconf).
  reflexivity.
Defined.

Lemma stageDeviceCount_cases sess count j :
  stageDeviceCount sess count j = configSet sess [deviceCountDelete] j
  \/ stageDeviceCount sess count j = configSet sess [deviceCountSet count] j.
Proof. unfold stageDeviceCount. destruct (String.eqb count "0"); auto. Qed.

(** What [delInterfacePhysical] does to the session, however it ends. *)
Lemma delInterfacePhysical_emits sess d j :
  exists emitted,
    staged (snd (delInterfacePhysical sess d j)) = app (staged j) emitted
    /\ commits (snd (delInterfacePhysical sess d j)) = commits j
    /\ discards (snd (delInterfacePhysical sess d j)) = discards j
    /\ (fst (delInterfacePhysical sess d j) = None -> deletionOf d emitted).
Proof.
  destruct (delInterfacePhysical sess d j) as [r jf] eqn:E. cbn [fst snd].
  unfold delInterfacePhysical, bind in E.
  destruct (readOnly_containsUnit sess (d_name d) j) as (S1 & K1 & _ & D1).
  destruct (checkInterfacePhysicalContainsUnit sess (d_name d) j) as [e1 j1].
  cbn [fst snd] in *.
  destruct e1 as [err|].
  { injection E as <- <-. exists []. rewrite app_nil_r. repeat split; auto; discriminate. }
  destruct (configSet_cases sess ["delete interfaces " ++ d_name d] j1)
    as (C2 & K2 & D2).
  destruct (configSet sess ["delete interfaces " ++ d_name d] j1) as [e2 j2].
  cbn [fst snd] in *.
  destruct e2 as [err|].
  { injection E as <- <-. destruct C2 as [[C _]|[_ S2]]; [discriminate C|].
    exists []. rewrite app_nil_r. repeat split; congruence. }
  destruct C2 as [[_ S2]|[[e C] _]]; [|discriminate C].
  assert (Count : forall n o i,
    (let (r0, j3) := interfaceAggregatedCountSearchMax sess n o i j2 in
     match r0 with
     | Ok aggregatedCount => stageDeviceCount sess aggregatedCount
     | Err err => ret (Some err)
     end j3) = (r, jf) ->
    exists emitted,
      staged jf = app (staged j) emitted /\ commits jf = commits j
      /\ discards jf = discards j /\ (r = None -> deletionOf d emitted)).
  { intros n o i E'.
    destruct (readOnly_countSearchMax sess n o i j2) as (S3 & K3 & _ & D3).
    destruct (interfaceAggregatedCountSearchMax sess n o i j2) as [[count|err] j3];
      cbn [fst snd] in *.
    - assert (H : exists stmt, stageDeviceCount sess count j3 = configSet sess [stmt] j3
                               /\ (stmt = deviceCountDelete \/ stmt = deviceCountSet count)).
      { destruct (stageDeviceCount_cases sess count j3) as [H|H]; eauto. }
      destruct H as (stmt & H & Hs). rewrite H in E'.
      destruct (configSet_cases sess [stmt] j3) as (C4 & K4 & D4).
      rewrite E' in C4, K4, D4. cbn [fst snd] in *.
      destruct C4 as [[Hr S4] | [[e Hr] S4]]; subst r.
      + exists ["delete interfaces " ++ d_name d; stmt].
        rewrite S4, S3, S2, S1, <- app_assoc. repeat split; try congruence.
        intros _. destruct Hs as [-> | ->]; [right; left; reflexivity|].
        right. right. eexists. reflexivity.
      + exists ["delete interfaces " ++ d_name d].
        rewrite S4, S3, S2, S1. repeat split; congruence.
    - injection E' as <- <-.
      exists ["delete interfaces " ++ d_name d].
      rewrite S3, S2, S1. repeat split; congruence. }
  destruct (HasPrefix (d_name d) "ae"); [eapply Count; exact E|].
  destruct (negb (String.eqb (d_ether802_3ad d) "")).
  - destruct (readOnly_lastChild sess (d_ether802_3ad d) (d_name d) j2)
      as (S3 & K3 & _ & D3).
    destruct (interfaceAggregatedLastChild sess (d_ether802_3ad d) (d_name d) j2)
      as [[lastAEchild|err] j3]; cbn [fst snd] in *.
    + destruct lastAEchild.
      * destruct (readOnly_countSearchMax sess "ae-1" (d_ether802_3ad d) (d_name d) j3)
          as (S4 & K4 & _ & D4).
        destruct (interfaceAggregatedCountSearchMax sess "ae-1" (d_ether802_3ad d)
                    (d_name d) j3) as [[count|err] j4]; cbn [fst snd] in *.
        -- assert (H : exists stmt,
                     stageDeviceCount sess count j4 = configSet sess [stmt] j4
                     /\ (stmt = deviceCountDelete \/ stmt = deviceCountSet count)).
           { destruct (stageDeviceCount_cases sess count j4) as [H|H]; eauto. }
           destruct H as (stmt & H & Hs). rewrite H in E.
           destruct (configSet_cases sess [stmt] j4) as (C5 & K5 & D5).
           rewrite E in C5, K5, D5. cbn [fst snd] in *.
           destruct C5 as [[Hr S5] | [[e Hr] S5]]; subst r.
           ++ exists ["delete interfaces " ++ d_name d; stmt].
              rewrite S5, S4, S3, S2, S1, <- app_assoc. repeat split; try congruence.
              intros _. destruct Hs as [-> | ->]; [right; left; reflexivity|].
              right. right. eexists. reflexivity.
           ++ exists ["delete interfaces " ++ d_name d].
              rewrite S5, S4, S3, S2, S1. repeat split; congruence.
        -- injection E as <- <-.
           exists ["delete interfaces " ++ d_name d].
           rewrite S4, S3, S2, S1. repeat split; congruence.
      * injection E as <- <-.
        exists ["delete interfaces " ++ d_name d].
        rewrite S3, S2, S1. repeat split; try congruence. left. reflexivity.
    + injection E as <- <-.
      exists ["delete interfaces " ++ d_name d].
      rewrite S3, S2, S1. repeat split; congruence.
  - injection E as <- <-.
    exists ["delete interfaces " ++ d_name d].
    rewrite S2, S1. repeat split; try congruence. left. reflexivity.
Qed.

Lemma addInterfacePhysicalNC_eq sess interFace :
  addInterfacePhysicalNC sess interFace
  = configSet sess [parkingStatement sess interFace].
Proof.
  unfold addInterfacePhysicalNC, parkingStatement.
  destruct (String.eqb (junosGroupIntDel sess) ""); reflexivity.
Qed.

(** How the delete of an interface can end, from an empty candidate. *)
Lemma interface_delete_outcomes sess d j :
  staged j = [] ->
  let r := resourceInterfacePhysicalDelete sess d j in
  staged (snd r) = []
  /\ ((commits (snd r) = commits j /\ HasError (fst r) = true)
      \/ exists e1 w1,
           deletionOf d e1
           /\ (exists t1,
                 commitConfReply sess t1 "delete resource junos_interface_physical"
                 = (w1, None))
           /\ ((commits (snd r) = app (commits j) [e1]
                /\ ((d_no_disable_on_destroy d = true /\ fst r = warnsOf w1)
                    \/ (d_no_disable_on_destroy d = false
                        /\ exists t err,
                             commandXMLReply sess t (rpcInterfaceInformation (d_name d))
                             = Err err
                             /\ fst r = app (warnsOf w1) (warnsOf [err]))
                    \/ (d_no_disable_on_destroy d = false
                        /\ exists t reply,
                             commandXMLReply sess t (rpcInterfaceInformation (d_name d))
                             = Ok reply
                             /\ ((Contains reply (" not found" ++ String LF "") = true
                                  /\ fst r = warnsOf w1)
                                 \/ exists err,
                                      fst r = app (warnsOf w1) (FromErr err)))))
               \/ (d_no_disable_on_destroy d = false
                   /\ commits (snd r)
                      = app (commits j) [e1; [parkingStatement sess (d_name d)]]
                   /\ fst r = warnsOf w1
                   /\ exists t reply,
                        commandXMLReply sess t (rpcInterfaceInformation (d_name d))
                        = Ok reply
                        /\ Contains reply (" not found" ++ String LF "") = false))).
Proof.
  intros Hj r. subst r.
  destruct (resourceInterfacePhysicalDelete sess d j) as [ds jf] eqn:E.
  cbn [fst snd].
  unfold resourceInterfacePhysicalDelete, bind in E.
  unfold startNewSession at 1 in E.
  destruct (startNewSessionReply sess (tick j)) as [err|].
  { injection E as <- <-. cbn. split; [exact Hj|]. left. split; reflexivity. }
  destruct (configLock_keeps sess (nextTick j)) as (S1 & K1 & D1).
  cbn [nextTick staged commits discards] in S1, K1, D1.
  destruct (configLock sess (nextTick j)) as [l j1]. cbn [fst snd] in *.
  destruct (delInterfacePhysical_emits sess d j1) as (e1 & S2 & K2 & D2 & F2).
  destruct (delInterfacePhysical sess d j1) as [e2 j2]. cbn [fst snd] in *.
  destruct e2 as [err|].
  { cbn [configClear ret] in E. injection E as <- <-. cbn.
    split; [reflexivity|]. left. split; [congruence|reflexivity]. }
  specialize (F2 eq_refl). rewrite S1, Hj in S2. cbn [app] in S2.
  destruct (commitConf_cases sess "delete resource junos_interface_physical" j2)
    as [(w & E3 & R3 & S3 & K3 & D3)|(w & e & E3 & J3)];
    destruct (commitConf sess _ j2) as [c3 j3]; cbn [fst snd] in *; subst c3;
    cbn [fst snd] in E.
  2:{ subst j3. cbn [configClear ret] in E. injection E as <- <-.
      cbn [commits staged nextTick]. split; [reflexivity|].
      left. split; [congruence|]. apply HasError_warns_err. }
  rewrite K2, K1, S2 in K3.
  destruct (d_no_disable_on_destroy d) eqn:Edis; cbn [negb] in E.
  { injection E as <- <-. split; [exact S3|]. right. exists e1, w.
    split; [exact F2|]. split; [eauto|]. left. split; [exact K3|]. left. auto. }
  unfold checkInterfaceExists, bind, commandXML in E.
  fold (rpcInterfaceInformation (d_name d)) in E.
  destruct (commandXMLReply sess (tick j3) (rpcInterfaceInformation (d_name d)))
    as [reply|err] eqn:Ex; cbn [ret] in E.
  2:{ injection E as <- <-. cbn [staged commits nextTick].
      split; [exact S3|]. right. exists e1, w. split; [exact F2|]. split; [eauto|].
      left. split; [exact K3|]. right. left. split; [reflexivity|].
      exists (tick j3), err. auto. }
  destruct (Contains reply (" not found" ++ String LF "")) eqn:Enf; cbn [negb] in E.
  { injection E as <- <-. cbn [staged commits nextTick].
    split; [exact S3|]. right. exists e1, w. split; [exact F2|]. split; [eauto|].
    left. split; [exact K3|]. right. right. split; [reflexivity|].
    exists (tick j3), reply. auto. }
  rewrite addInterfacePhysicalNC_eq in E.
  destruct (configSet_cases sess [parkingStatement sess (d_name d)] (nextTick j3))
    as (C5 & K5 & D5).
  cbn [nextTick staged commits discards] in C5, K5, D5.
  destruct (configSet sess [parkingStatement sess (d_name d)] (nextTick j3))
    as [e5 j5]. cbn [fst snd] in *.
  destruct e5 as [err|].
  { cbn [configClear ret] in E. injection E as <- <-. cbn [staged commits].
    split; [reflexivity|]. right. exists e1, w. split; [exact F2|]. split; [eauto|].
    left. split; [congruence|]. right. right. split; [reflexivity|].
    exists (tick j3), reply. split; [exact Ex|]. right. eauto. }
  destruct C5 as [[_ S5]|[[e C] _]]; [|discriminate C].
  rewrite S3 in S5. cbn [app] in S5.
  destruct (commitConf_cases sess "disable(NC) resource junos_interface_physical" j5)
    as [(w6 & E6 & _ & S6 & K6 & D6)|(w6 & e6 & E6 & J6)];
    destruct (commitConf sess _ j5) as [c6 j6]; cbn [fst snd] in *; subst c6;
    cbn [fst snd] in E.
  2:{ subst j6. cbn [configClear ret] in E. injection E as <- <-.
      cbn [staged commits nextTick].
      split; [reflexivity|]. right. exists e1, w. split; [exact F2|]. split; [eauto|].
      left. split; [congruence|]. right. right. split; [reflexivity|].
      exists (tick j3), reply. split; [exact Ex|]. right. eauto. }
  injection E as <- <-. split; [exact S6|]. right. exists e1, w.
  split; [exact F2|]. split; [eauto|]. right. split; [reflexivity|].
  split.
  { rewrite K6, K5, K3, S5, <- app_assoc. reflexivity. }
  split; [reflexivity|]. exists (tick j3), reply. auto.
Qed.

(** X14.  From an empty candidate, the delete of an interface commits at
    most twice and leaves nothing staged.  The first commit holds the
    deletion of the interface and at most one statement of the chassis
    device count.  The second is made only when disabling on destroy is
    not turned off and the device still knows the interface; it holds
    the one statement that parks the interface, and of the two commits
    only the warnings of the first are reported. *)
Theorem interface_delete_commit_shape
  (sess : Session) (d : InterfaceData) (j : NetconfObject) :
  staged j = [] ->
  exists edits,
    commits (snd (resourceInterfacePhysicalDelete sess d j)) = app (commits j) edits
    /\ staged (snd (resourceInterfacePhysicalDelete sess d j)) = []
    /\ ((edits = []
         /\ HasError (fst (resourceInterfacePhysicalDelete sess d j)) = true)
        \/ (exists e1, edits = [e1] /\ deletionOf d e1)
        \/ (exists e1 t1 w1,
              edits = [e1; [parkingStatement sess (d_name d)]]
              /\ deletionOf d e1
              /\ d_no_disable_on_destroy d = false
              /\ commitConfReply sess t1 "delete resource junos_interface_physical"
                 = (w1, None)
              /\ fst (resourceInterfacePhysicalDelete sess d j) = warnsOf w1)).
Proof.
  intros Hj. destruct (interface_delete_outcomes sess d j Hj) as [S H].
  destruct H as [[K E]|(e1 & w1 & F & [t1 R] & H)].
  - exists []. rewrite app_nil_r. auto.
  - destruct H as [[K _]|(Dis & K & E & _)].
    + exists [e1]. split; [exact K|]. split; [exact S|]. right. left. eauto.
    + exists [e1; [parkingStatement sess (d_name d)]].
      split; [exact K|]. split; [exact S|]. right. right.
      exists e1, t1, w1. auto.
Qed.

Lemma interface_delete_commit_shape_witness :
  commits (snd (resourceInterfacePhysicalDelete (sessionWarning "")
                  (sampleInterface "ge-0/0/1" "") newNetconf))
  = [["delete interfaces ge-0/0/1"];
     ["set interfaces ge-0/0/1 disable description NC"]]
  /\ fst (resourceInterfacePhysicalDelete (sessionWarning "")
            (sampleInterface "ge-0/0/1" "") newNetconf)
     = [DiagWarning (ErrMsg "commit warning")]
  /\ exists edits,
       commits (snd (resourceInterfacePhysicalDelete (sessionWarning "")
                       (sampleInterface "ge-0/0/1" "") newNetconf))
       = app [] edits
       /\ edits <> [].
Proof.
  split; [vm_compute; reflexivity|]. split; [vm_compute; reflexivity|].
  destruct (interface_delete_commit_shape (sessionWarning "")
              (sampleInterface "ge-0/0/1" "") newNetconf eq_refl)
    as (edits & K & _ & _).
  exists edits. split; [exact K|].
  intros ->. vm_compute in K. discriminate K.
Defined.

(** X15.  When the device fails to answer the query of the interface
    information that follows the commit of a delete, the failure is only
    a warning: the delete, once committed, ends without an error, and
    its diagnostics are the warnings of the commit followed by that
    failure as a warning; the interface is then not parked. *)
Theorem delete_existence_failure_is_a_warning
  (sess : Session) (d : InterfaceData) (j : NetconfObject) (e : error) :
  staged j = [] ->
  d_no_disable_on_destroy d = false ->
  (forall t rpc, commandXMLReply sess t rpc = Err e) ->
  commits (snd (resourceInterfacePhysicalDelete sess d j)) <> commits j ->
  HasError (fst (resourceInterfacePhysicalDelete sess d j)) = false
  /\ exists w1 e1,
       fst (resourceInterfacePhysicalDelete sess d j)
       = app (warnsOf w1) [DiagWarning e]
       /\ commits (snd (resourceInterfacePhysicalDelete sess d j))
          = app (commits j) [e1]
       /\ deletionOf d e1.
Proof.
  intros Hj Hdis Hx Hc.
  destruct (interface_delete_outcomes sess d j Hj) as [S H].
  destruct H as [[K _]|(e1 & w1 & F & _ & H)]; [contradiction|].
  destruct H as [[K H]|(_ & _ & _ & t & reply & C & _)].
  2:{ rewrite Hx in C. discriminate C. }
  destruct H as [[C _]|[(_ & t & err & C & E)|(_ & t & reply & C & _)]].
  - rewrite Hdis in C. discriminate C.
  - rewrite Hx in C. injection C as <-. split.
    + rewrite E, HasError_app, !HasError_warns. reflexivity.
    + exists w1, e1. auto.
  - rewrite Hx in C. discriminate C.
Qed.

Lemma delete_existence_failure_is_a_warning_witness :
  fst (resourceInterfacePhysicalDelete (sessionLosingInterfaceInformation "")
         (sampleInterface "ge-0/0/1" "") newNetconf)
  = [DiagWarning (ErrMsg "commit warning"); DiagWarning (ErrTransport "rpc timeout")]
  /\ HasError (fst (resourceInterfacePhysicalDelete
                      (sessionLosingInterfaceInformation "")
                      (sampleInterface "ge-0/0/1" "") newNetconf)) = false.
Proof.
  split; [vm_compute; reflexivity|].
  apply (delete_existence_failure_is_a_warning
           (sessionLosingInterfaceInformation "") (sampleInterface "ge-0/0/1" "")
           newNetconf (ErrTransport "rpc timeout"));
    [reflexivity|reflexivity|reflexivity|vm_compute; discriminate].
Defined.

Lemma delInterfaceNC_eq sess d :
  delInterfaceNC sess d = configSet sess (unparkingStatements sess d).
Proof.
  unfold delInterfaceNC, unparkingStatements, append.
  destruct (negb (String.eqb (junosGroupIntDel sess) "")); reflexivity.
Qed.

Lemma checkNCEmpty_run sess interFace j :
  snd (checkInterfacePhysicalNCEmpty sess interFace j) = nextTick j
  /\ match commandReply sess (tick j) (showInterface interFace) with
     | Ok intConfig =>
         fst (checkInterfacePhysicalNCEmpty sess interFace j)
         = Ok (classifyDump (junosGroupIntDel sess) intConfig)
     | Err e => fst (checkInterfacePhysicalNCEmpty sess interFace j) = Err e
     end.
Proof.
  unfold checkInterfacePhysicalNCEmpty, bind, command, classifyDump.
  destruct (commandReply sess (tick j) (showInterface interFace)); cbn; auto.
Qed.

(** How the creation of an interface can end, from an empty candidate. *)
Lemma interface_create_outcomes sess d j :
  staged j = [] ->
  let r := resourceInterfacePhysicalCreate sess d j in
  staged (snd r) = []
  /\ ((commits (snd r) = commits j /\ HasError (fst r) = true)
      \/ exists intConfig settings,
           commandReply sess (S (S (tick j))) (showInterface (d_name d)) = Ok intConfig
           /\ classifyDump (junosGroupIntDel sess) intConfig <> (false, false)
           /\ Forall (settingOf d) settings
           /\ commits (snd r)
              = app (commits j)
                  [app (if fst (classifyDump (junosGroupIntDel sess) intConfig)
                        then unparkingStatements sess d else [])
                     settings]).
Proof.
  intros Hj r. subst r.
  destruct (resourceInterfacePhysicalCreate sess d j) as [ds jf] eqn:E.
  cbn [fst snd].
  unfold resourceInterfacePhysicalCreate, bind in E.
  unfold startNewSession at 1 in E.
  destruct (startNewSessionReply sess (tick j)) as [err|].
  { injection E as <- <-. cbn. split; [exact Hj|]. left. split; reflexivity. }
  destruct (configLock_keeps sess (nextTick j)) as (S1 & K1 & D1).
  cbn [nextTick staged commits discards] in S1, K1, D1.
  assert (T1 : tick (snd (configLock sess (nextTick j))) = S (S (tick j))).
  { unfold configLock. destruct (configLockReply sess _); reflexivity. }
  destruct (configLock sess (nextTick j)) as [l j1]. cbn [fst snd] in *.
  destruct (checkNCEmpty_run sess (d_name d) j1) as [J2 R2]. rewrite T1 in R2.
  destruct (checkInterfacePhysicalNCEmpty sess (d_name d) j1) as [r2 j2].
  cbn [fst snd] in *. subst j2.
  destruct (commandReply sess (S (S (tick j))) (showInterface (d_name d)))
    as [intConfig|err] eqn:Ec; subst r2.
  2:{ cbn [configClear ret] in E. injection E as <- <-. cbn.
      split; [reflexivity|]. left. split; [congruence|reflexivity]. }
  destruct (classifyDump (junosGroupIntDel sess) intConfig) as [ncInt emptyInt] eqn:Ecl.
  destruct (negb ncInt && negb emptyInt) eqn:Epresent.
  { cbn [configClear ret] in E. injection E as <- <-. cbn.
    split; [reflexivity|]. left. split; [congruence|reflexivity]. }
  assert (Hcl : (ncInt, emptyInt) <> (false, false)).
  { intros C. injection C as -> ->. discriminate Epresent. }
  assert (H3 : exists e3 j3,
             (if ncInt then delInterfaceNC sess d else ret None) (nextTick j1) = (e3, j3)
             /\ commits j3 = commits j /\ discards j3 = discards j1
             /\ (e3 = None ->
                 staged j3 = (if ncInt then unparkingStatements sess d else []))
             /\ (e3 <> None -> staged j3 = [])).
  { destruct ncInt.
    - rewrite delInterfaceNC_eq.
      destruct (configSet_cases sess (unparkingStatements sess d) (nextTick j1))
        as (C & K & D).
      cbn [nextTick staged commits discards] in C, K, D.
      destruct (configSet sess (unparkingStatements sess d) (nextTick j1)) as [e3 j3].
      cbn [fst snd] in *. exists e3, j3.
      split; [reflexivity|]. split; [congruence|]. split; [exact D|].
      rewrite S1, Hj in C. cbn [app] in C.
      destruct C as [[He S] | [[e He] S]]; subst e3; split; auto; try discriminate; congruence.
    - exists None, (nextTick j1). cbn. repeat split; auto; congruence. }
  destruct H3 as (e3 & j3 & E3 & K3 & D3 & S3 & S3').
  cbn [tick] in E. rewrite E3 in E. clear E3.
  destruct e3 as [err|].
  { cbn [configClear ret] in E. injection E as <- <-. cbn.
    split; [reflexivity|]. left. split; [congruence|reflexivity]. }
  specialize (S3 eq_refl). clear S3'.
  destruct (setInterfacePhysical_emits sess d j3) as (settings & S4 & F4 & K4 & D4).
  destruct (setInterfacePhysical sess d j3) as [e4 j4]. cbn [fst snd] in *.
  destruct e4 as [err|].
  { cbn [configClear ret] in E. injection E as <- <-. cbn.
    split; [reflexivity|]. left. split; [congruence|reflexivity]. }
  destruct (commitConf_cases sess "create resource junos_interface_physical" j4)
    as [(w & E5 & R5 & S5 & K5 & D5)|(w & e & E5 & J5)];
    destruct (commitConf sess _ j4) as [c5 j5]; cbn [fst snd] in *; subst c5;
    cbn [fst snd] in E.
  2:{ subst j5. cbn [configClear ret] in E. injection E as <- <-.
      cbn [commits staged nextTick]. split; [reflexivity|].
      left. split; [congruence|]. apply HasError_warns_err. }
  assert (K : commits j5
              = app (commits j)
                  [app (if ncInt then unparkingStatements sess d else []) settings]).
  { rewrite K5, K4, K3, S4, S3. reflexivity. }
  assert (Final : staged jf = [] /\ commits jf = commits j5).
  { destruct (readOnly_checkNCEmpty sess (d_name d) j5) as (S6 & K6 & _ & _).
    destruct (checkInterfacePhysicalNCEmpty sess (d_name d) j5) as [[[nc2 em2]|err] j6];
      cbn [fst snd] in *.
    2:{ injection E as <- <-. split; congruence. }
    destruct nc2.
    { injection E as <- <-. split; congruence. }
    assert (H7 : exists x j7,
               (if em2 then checkInterfaceExists sess (d_name d) else ret (Ok true)) j6
               = (x, j7) /\ staged j7 = staged j6 /\ commits j7 = commits j6).
    { destruct em2.
      - destruct (readOnly_checkExists sess (d_name d) j6) as (S7 & K7 & _ & _).
        destruct (checkInterfaceExists sess (d_name d) j6) as [x j7].
        exists x, j7. auto.
      - exists (Ok true), j6. auto. }
    destruct H7 as (x & j7 & E7 & S7 & K7). rewrite E7 in E.
    destruct x as [intExists|err].
    2:{ injection E as <- <-. split; congruence. }
    destruct intExists; cbn [negb] in E.
    2:{ injection E as <- <-. split; congruence. }
    cbn [SetId] in E.
    match type of E with
    | context [resourceInterfacePhysicalReadWJnprSess sess d ?jx] =>
        destruct (readOnly_readW sess d jx) as (S8 & K8 & _ & _);
        destruct (resourceInterfacePhysicalReadWJnprSess sess d jx) as [ds8 j8]
    end.
    cbn [fst snd staged commits ret] in *. injection E as <- <-.
    split; congruence. }
  destruct Final as [Sf Kf]. split; [exact Sf|]. right.
  exists intConfig, settings. rewrite Ecl. cbn [fst]. rewrite Kf, K.
  split; [reflexivity|]. split; [exact Hcl|]. split; [exact F4|reflexivity].
Qed.

(** X16.  From an empty candidate, the creation of an interface commits
    at most once and leaves nothing staged.  It commits only when the
    device showed the interface as NotConfigured or Empty; what it
    commits is, for a parked interface, the statements that remove the
    parking, then statements that [setInterfacePhysical] staged, each
    under the path of the interface or the chassis device count. *)
Theorem interface_create_commit_shape
  (sess : Session) (d : InterfaceData) (j : NetconfObject) :
  staged j = [] ->
  staged (snd (resourceInterfacePhysicalCreate sess d j)) = []
  /\ ((commits (snd (resourceInterfacePhysicalCreate sess d j)) = commits j
       /\ HasError (fst (resourceInterfacePhysicalCreate sess d j)) = true)
      \/ exists intConfig settings,
           commandReply sess (S (S (tick j))) (showInterface (d_name d)) = Ok intConfig
           /\ classifyDump (junosGroupIntDel sess) intConfig <> (false, false)
           /\ Forall (ownStatement ("set interfaces " ++ d_name d ++ " ")) settings
           /\ commits (snd (resourceInterfacePhysicalCreate sess d j))
              = app (commits j)
                  [app (if fst (classifyDump (junosGroupIntDel sess) intConfig)
                        then unparkingStatements sess d else [])
                     settings]).
Proof.
  intros Hj. destruct (interface_create_outcomes sess d j Hj) as [S H].
  split; [exact S|].
  destruct H as [H|(intConfig & settings & Ec & Hcl & F & K)]; [left; exact H|].
  right. exists intConfig, settings. repeat split; try assumption.
  eapply Forall_impl; [|exact F]. intros s [H _]. exact H.
Qed.

Lemma interface_create_commit_shape_witness :
  commits (snd (resourceInterfacePhysicalCreate sessionUnparking
                  sampleTrunkNoDescription newNetconf))
  = [["delete interfaces ge-0/0/3 description";
      "delete interfaces ge-0/0/3 disable";
      "set interfaces ge-0/0/3 ";
      "set interfaces ge-0/0/3 unit 0 family ethernet-switching interface-mode trunk";
      "set interfaces ge-0/0/3 unit 0 family ethernet-switching vlan members v10"]]
  /\ staged (snd (resourceInterfacePhysicalCreate sessionUnparking
                    sampleTrunkNoDescription newNetconf)) = [].
Proof.
  split; [vm_compute; reflexivity|].
  apply (interface_create_commit_shape sessionUnparking sampleTrunkNoDescription
           newNetconf).
  reflexivity.
Defined.

(** X17.  When the device shows the interface as Present (neither
    NotConfigured nor Empty), its creation is refused with the
    already-configured error: nothing is staged or committed, the pending
    edits are discarded once, and the identifier of the resource is left
    as it was. *)
Theorem create_refuses_configured_interface
  (sess : Session) (d : InterfaceData) (j : NetconfObject) (intConfig : string) :
  startNewSessionReply sess (tick j) = None ->
  commandReply sess (S (S (tick j))) (showInterface (d_name d)) = Ok intConfig ->
  classifyDump (junosGroupIntDel sess) intConfig = (false, false) ->
  fst (resourceInterfacePhysicalCreate sess d j)
  = FromErr (ErrMsg ("interface " ++ d_name d ++ " already configured"))
  /\ staged (snd (resourceInterfacePhysicalCreate sess d j)) = []
  /\ commits (snd (resourceInterfacePhysicalCreate sess d j)) = commits j
  /\ discards (snd (resourceInterfacePhysicalCreate sess d j)) = S (discards j)
  /\ resourceId (snd (resourceInterfacePhysicalCreate sess d j)) = resourceId j.
Proof.
  intros Hs Hc Hcl.
  destruct (resourceInterfacePhysicalCreate sess d j) as [ds jf] eqn:E.
  cbn [fst snd].
  unfold resourceInterfacePhysicalCreate, bind in E.
  unfold startNewSession at 1 in E. rewrite Hs in E.
  assert (L : exists l j1, configLock sess (nextTick j) = (l, j1)
              /\ tick j1 = S (S (tick j)) /\ commits j1 = commits j
              /\ discards j1 = discards j /\ resourceId j1 = resourceId j).
  { unfold configLock. destruct (configLockReply sess _); eexists; eexists;
      (split; [reflexivity|]); cbn; auto. }
  destruct L as (l & j1 & El & T1 & K1 & D1 & R1). rewrite El in E.
  unfold checkInterfacePhysicalNCEmpty at 1 in E. unfold bind, command in E.
  rewrite T1, Hc in E. cbn [ret] in E.
  fold (classifyDump (junosGroupIntDel sess) intConfig) in E.
  rewrite Hcl in E. cbn [negb andb configClear ret] in E.
  injection E as <- <-. cbn. repeat split; congruence.
Qed.

Lemma create_refuses_configured_interface_witness :
  fst (resourceInterfacePhysicalCreate (sessionShowing "set vlan-tagging")
         sampleTrunk newNetconf)
  = FromErr (ErrMsg ("interface " ++ "ge-0/0/3" ++ " already configured"))
  /\ commits (snd (resourceInterfacePhysicalCreate (sessionShowing "set vlan-tagging")
                     sampleTrunk newNetconf)) = [].
Proof.
  destruct (create_refuses_configured_interface (sessionShowing "set vlan-tagging")
              sampleTrunk newNetconf "set vlan-tagging" eq_refl eq_refl eq_refl)
    as (E & _ & K & _).
  split; [exact E|exact K].
Defined.

(** ** What the operations of the UTM policy commit *)

Lemma setUtmPolicy_emits sess d j :
  commits (snd (setUtmPolicy sess d j)) = commits j
  /\ discards (snd (setUtmPolicy sess d j)) = discards j
  /\ ((exists stmts, fst (setUtmPolicy sess d j) = None
                     /\ utmConfigSet d = Ok stmts
                     /\ staged (snd (setUtmPolicy sess d j)) = app (staged j) stmts)
      \/ ((exists e, fst (setUtmPolicy sess d j) = Some e)
          /\ staged (snd (setUtmPolicy sess d j)) = staged j)).
Proof.
  unfold setUtmPolicy. destruct (utmConfigSet d) as [stmts|e].
  - destruct (configSet_cases sess stmts j) as (C & K & D).
    split; [exact K|]. split; [exact D|].
    destruct C as [[C S]|[C S]]; [left; exists stmts; auto|right; auto].
  - cbn. split; [reflexivity|]. split; [reflexivity|]. right. eauto.
Qed.

Lemma utmRead_keeps sess d j :
  staged (snd (resourceSecurityUtmPolicyRead sess d j)) = staged j
  /\ commits (snd (resourceSecurityUtmPolicyRead sess d j)) = commits j.
Proof. destruct (readOnly_utmRead sess d j) as (S & K & _). auto. Qed.

Ltac stop_with E :=
  cbn [configClear ret] in E; injection E as <- <-; cbn;
  split; [reflexivity|]; left; split; [congruence|eauto].

(** X18.  From an empty candidate, each mutating operation of the UTM
    policy commits at most once and leaves nothing staged; without a
    commit it returns an error.  The creation commits the statements of
    the encoder, and only when the device showed no such policy; the
    update commits the deletion of the whole policy followed by the
    statements of the encoder, so that it replaces the policy; the
    delete commits the one deletion. *)
Theorem utm_operations_commit_shape
  (sess : Session) (d : UtmData) (j : NetconfObject) :
  staged j = [] ->
  (staged (snd (resourceSecurityUtmPolicyCreate sess d j)) = []
   /\ ((commits (snd (resourceSecurityUtmPolicyCreate sess d j)) = commits j
        /\ exists e, fst (resourceSecurityUtmPolicyCreate sess d j) = Some e)
       \/ exists stmts,
            utmConfigSet d = Ok stmts
            /\ commandReply sess (S (S (tick j))) (showUtmPolicy (u_name d))
               = Ok emptyWord
            /\ commits (snd (resourceSecurityUtmPolicyCreate sess d j))
               = app (commits j) [stmts]))
  /\ (staged (snd (resourceSecurityUtmPolicyUpdate sess d j)) = []
      /\ ((commits (snd (resourceSecurityUtmPolicyUpdate sess d j)) = commits j
           /\ exists e, fst (resourceSecurityUtmPolicyUpdate sess d j) = Some e)
          \/ exists stmts,
               utmConfigSet d = Ok stmts
               /\ commits (snd (resourceSecurityUtmPolicyUpdate sess d j))
                  = app (commits j) [utmDeletion (u_name d) :: stmts]))
  /\ (staged (snd (resourceSecurityUtmPolicyDelete sess d j)) = []
      /\ ((commits (snd (resourceSecurityUtmPolicyDelete sess d j)) = commits j
           /\ exists e, fst (resourceSecurityUtmPolicyDelete sess d j) = Some e)
          \/ (fst (resourceSecurityUtmPolicyDelete sess d j) = None
              /\ commits (snd (resourceSecurityUtmPolicyDelete sess d j))
                 = app (commits j) [[utmDeletion (u_name d)]]))).
Proof.
  intros Hj. split; [|split].
  - destruct (resourceSecurityUtmPolicyCreate sess d j) as [r jf] eqn:E.
    cbn [fst snd].
    unfold resourceSecurityUtmPolicyCreate, bind in E.
    unfold startNewSession at 1 in E.
    destruct (startNewSessionReply sess (tick j)) as [err|].
    { injection E as <- <-. cbn. split; [exact Hj|]. left. eauto. }
    destruct (compatibleSecurity sess); cbn [negb] in E.
    2:{ injection E as <- <-. cbn. split; [exact Hj|]. left. eauto. }
    destruct (configLock_keeps sess (nextTick j)) as (S1 & K1 & D1).
    cbn [nextTick staged commits discards] in S1, K1, D1.
    assert (T1 : tick (snd (configLock sess (nextTick j))) = S (S (tick j))).
    { unfold configLock. destruct (configLockReply sess _); reflexivity. }
    destruct (configLock sess (nextTick j)) as [l j1]. cbn [fst snd] in *.
    destruct l as [err|].
    { injection E as <- <-. split; [congruence|]. left. split; [congruence|eauto]. }
    unfold checkUtmPolicysExists at 1 in E. unfold bind, command in E.
    rewrite T1 in E.
    destruct (commandReply sess (S (S (tick j))) (showUtmPolicy (u_name d)))
      as [policyConfig|err] eqn:Ec; cbn [ret] in E.
    2:{ stop_with E. }
    destruct (String.eqb policyConfig emptyWord) eqn:Ee; cbn [negb] in E.
    2:{ stop_with E. }
    apply String.eqb_eq in Ee. subst policyConfig.
    destruct (setUtmPolicy_emits sess d (nextTick j1)) as (K3 & D3 & C3).
    cbn [nextTick staged commits discards] in K3, D3, C3.
    destruct (setUtmPolicy sess d (nextTick j1)) as [e3 j3]. cbn [fst snd] in *.
    destruct e3 as [err|].
    { stop_with E. }
    destruct C3 as [(stmts & _ & Est & S3)|[[e C] _]]; [|discriminate C].
    rewrite S1, Hj in S3. cbn [app] in S3.
    destruct (commitConf_cases sess "create resource junos_security_utm_policy" j3)
      as [(w & E4 & R4 & S4 & K4 & D4)|(w & e & E4 & J4)];
      destruct (commitConf sess _ j3) as [c4 j4]; cbn [fst snd] in *; subst c4;
      cbn [fst snd] in E.
    2:{ subst j4. cbn [configClear ret] in E. injection E as <- <-.
        cbn [commits staged nextTick]. split; [reflexivity|].
        left. split; [congruence|eauto]. }
    assert (Final : staged jf = [] /\ commits jf = commits j4).
    { destruct (readOnly_checkUtm sess (u_name d) j4) as (S5 & K5 & _ & _).
      destruct (checkUtmPolicysExists sess (u_name d) j4) as [[ex|err] j5];
        cbn [fst snd] in *.
      2:{ injection E as <- <-. split; congruence. }
      destruct ex.
      2:{ injection E as <- <-. split; congruence. }
      cbn [SetId] in E.
      match type of E with
      | context [resourceSecurityUtmPolicyRead sess d ?jx] =>
          destruct (utmRead_keeps sess d jx) as (S6 & K6);
          rewrite E in S6, K6
      end.
      cbn [fst snd staged commits] in *. split; congruence. }
    destruct Final as [Sf Kf]. split; [exact Sf|]. right. exists stmts.
    split; [exact Est|]. split; [reflexivity|].
    rewrite Kf, K4, K3, K1, S3. reflexivity.
  - destruct (resourceSecurityUtmPolicyUpdate sess d j) as [r jf] eqn:E.
    cbn [fst snd].
    unfold resourceSecurityUtmPolicyUpdate, bind in E.
    unfold startNewSession at 1 in E.
    destruct (startNewSessionReply sess (tick j)) as [err|].
    { injection E as <- <-. cbn. split; [exact Hj|]. left. eauto. }
    destruct (configLock_keeps sess (nextTick j)) as (S1 & K1 & D1).
    cbn [nextTick staged commits discards] in S1, K1, D1.
    destruct (configLock sess (nextTick j)) as [l j1]. cbn [fst snd] in *.
    destruct l as [err|].
    { injection E as <- <-. split; [congruence|]. left. split; [congruence|eauto]. }
    change (delUtmPolicy sess (u_name d) j1)
      with (configSet sess [utmDeletion (u_name d)] j1) in E.
    destruct (configSet_cases sess [utmDeletion (u_name d)] j1) as (C2 & K2 & D2).
    destruct (configSet sess [utmDeletion (u_name d)] j1) as [e2 j2].
    cbn [fst snd] in *.
    destruct e2 as [err|].
    { stop_with E. }
    destruct C2 as [[_ S2]|[[e C] _]]; [|discriminate C].
    rewrite S1, Hj in S2. cbn [app] in S2.
    destruct (setUtmPolicy_emits sess d j2) as (K3 & D3 & C3).
    destruct (setUtmPolicy sess d j2) as [e3 j3]. cbn [fst snd] in *.
    destruct e3 as [err|].
    { stop_with E. }
    destruct C3 as [(stmts & _ & Est & S3)|[[e C] _]]; [|discriminate C].
    rewrite S2 in S3. cbn [app] in S3.
    destruct (commitConf_cases sess "update resource junos_security_utm_policy" j3)
      as [(w & E4 & R4 & S4 & K4 & D4)|(w & e & E4 & J4)];
      destruct (commitConf sess _ j3) as [c4 j4]; cbn [fst snd] in *; subst c4;
      cbn [fst snd] in E.
    2:{ subst j4. cbn [configClear ret] in E. injection E as <- <-.
        cbn [commits staged nextTick]. split; [reflexivity|].
        left. split; [congruence|eauto]. }
    destruct (utmRead_keeps sess d j4) as (S5 & K5). rewrite E in S5, K5.
    cbn [fst snd] in *. split; [congruence|]. right. exists stmts.
    split; [exact Est|]. rewrite K5, K4, K3, K2, K1, S3. reflexivity.
  - destruct (resourceSecurityUtmPolicyDelete sess d j) as [r jf] eqn:E.
    cbn [fst snd].
    unfold resourceSecurityUtmPolicyDelete, bind in E.
    unfold startNewSession at 1 in E.
    destruct (startNewSessionReply sess (tick j)) as [err|].
    { injection E as <- <-. cbn. split; [exact Hj|]. left. eauto. }
    destruct (configLock_keeps sess (nextTick j)) as (S1 & K1 & D1).
    cbn [nextTick staged commits discards] in S1, K1, D1.
    destruct (configLock sess (nextTick j)) as [l j1]. cbn [fst snd] in *.
    destruct l as [err|].
    { injection E as <- <-. split; [congruence|]. left. split; [congruence|eauto]. }
    change (delUtmPolicy sess (u_name d) j1)
      with (configSet sess [utmDeletion (u_name d)] j1) in E.
    destruct (configSet_cases sess [utmDeletion (u_name d)] j1) as (C2 & K2 & D2).
    destruct (configSet sess [utmDeletion (u_name d)] j1) as [e2 j2].
    cbn [fst snd] in *.
    destruct e2 as [err|].
    { stop_with E. }
    destruct C2 as [[_ S2]|[[e C] _]]; [|discriminate C].
    rewrite S1, Hj in S2. cbn [app] in S2.
    destruct (commitConf_cases sess "delete resource junos_security_utm_policy" j2)
      as [(w & E4 & R4 & S4 & K4 & D4)|(w & e & E4 & J4)];
      destruct (commitConf sess _ j2) as [c4 j4]; cbn [fst snd] in *; subst c4;
      cbn [fst snd] in E.
    2:{ subst j4. cbn [configClear ret] in E. injection E as <- <-.
        cbn [commits staged nextTick]. split; [reflexivity|].
        left. split; [congruence|eauto]. }
    cbn [ret] in E. injection E as <- <-. split; [exact S4|]. right.
    split; [reflexivity|]. rewrite K4, K2, K1, S2. reflexivity.
Qed.

Lemma utm_operations_commit_shape_witness :
  commits (snd (resourceSecurityUtmPolicyUpdate (sessionShowing "set anti-spam")
                  (sampleUtm []) newNetconf))
  = [[utmDeletion "p1";
      utmSetPrefix "p1" ++ "web-filtering http-profile " ++ quoted "web"]]
  /\ staged (snd (resourceSecurityUtmPolicyUpdate (sessionShowing "set anti-spam")
                    (sampleUtm []) newNetconf)) = [].
Proof.
  split; [vm_compute; reflexivity|].
  apply (proj1 (proj2 (utm_operations_commit_shape (sessionShowing "set anti-spam")
                         (sampleUtm []) newNetconf eq_refl))).
Defined.

(** ** The lock *)

Lemma lockBlind_ret {A} (a : A) : lockBlind (ret a).
Proof. intros j1 j2 H. cbn. auto. Qed.

Lemma lockBlind_bind {A B} (c : St A) (k : A -> St B) :
  lockBlind c -> (forall a, lockBlind (k a)) -> lockBlind (bind c k).
Proof.
  intros Hc Hk j1 j2 H. unfold bind. specialize (Hc j1 j2 H).
  destruct (c j1) as [a1 j1'], (c j2) as [a2 j2']. cbn [fst snd] in Hc.
  destruct Hc as [-> Hs]. apply Hk, Hs.
Qed.

Ltac same_tac :=
  intros j1 j2 (T & S & K & D & R); unfold sameButLocks; cbn;
  rewrite ?T, ?S, ?K, ?D, ?R.

Lemma lockBlind_command sess cmd : lockBlind (command sess cmd).
Proof. same_tac. auto 10. Qed.

Lemma lockBlind_commandXML sess rpc : lockBlind (commandXML sess rpc).
Proof. same_tac. auto 10. Qed.

Lemma lockBlind_startNewSession sess : lockBlind (startNewSession sess).
Proof. same_tac. auto 10. Qed.

Lemma lockBlind_SetId id : lockBlind (SetId id).
Proof. same_tac. auto 10. Qed.

Lemma lockBlind_configClear sess : lockBlind (configClear sess).
Proof. same_tac. auto 10. Qed.

Lemma lockBlind_configSet sess l : lockBlind (configSet sess l).
Proof.
  intros j1 j2 (T & S & K & D & R). unfold configSet, sameButLocks. rewrite T.
  destruct (configSetReply sess (tick j2) l); cbn; rewrite ?T, ?S, ?K, ?D, ?R; auto 10.
Qed.

Lemma lockBlind_commitConf sess msg : lockBlind (commitConf sess msg).
Proof.
  intros j1 j2 (T & S & K & D & R). unfold commitConf, sameButLocks. rewrite T.
  destruct (commitConfReply sess (tick j2) msg) as [w [e|]]; cbn;
    rewrite ?T, ?S, ?K, ?D, ?R; auto 10.
Qed.

Create HintDb lockblind.
#[export] Hint Resolve lockBlind_ret lockBlind_command lockBlind_commandXML
  lockBlind_startNewSession lockBlind_SetId lockBlind_configClear
  lockBlind_configSet lockBlind_commitConf : lockblind.

Ltac lockblind_step :=
  match goal with
  | |- lockBlind (bind _ _) => apply lockBlind_bind; [|intros ?]
  | |- lockBlind (match ?x with _ => _ end) => destruct x
  | |- lockBlind (let _ := _ in _) => cbv zeta
  | |- lockBlind _ => solve [auto with lockblind]
  end.

Ltac lockblind_tac := repeat lockblind_step.

Lemma lockBlind_checkNCEmpty sess i : lockBlind (checkInterfacePhysicalNCEmpty sess i).
Proof. unfold checkInterfacePhysicalNCEmpty. lockblind_tac. Qed.

Lemma lockBlind_checkExists sess i : lockBlind (checkInterfaceExists sess i).
Proof. unfold checkInterfaceExists. lockblind_tac. Qed.

Lemma lockBlind_lastChild sess a i : lockBlind (interfaceAggregatedLastChild sess a i).
Proof. unfold interfaceAggregatedLastChild. lockblind_tac. Qed.

Lemma lockBlind_containsUnit sess i :
  lockBlind (checkInterfacePhysicalContainsUnit sess i).
Proof. unfold checkInterfacePhysicalContainsUnit. lockblind_tac. Qed.

Lemma lockBlind_readInterface sess i : lockBlind (readInterfacePhysical sess i).
Proof. unfold readInterfacePhysical. lockblind_tac. Qed.

#[export] Hint Resolve lockBlind_checkNCEmpty lockBlind_checkExists lockBlind_lastChild
  lockBlind_containsUnit lockBlind_readInterface : lockblind.

Lemma lockBlind_countSearchMax sess n o i :
  lockBlind (interfaceAggregatedCountSearchMax sess n o i).
Proof. unfold interfaceAggregatedCountSearchMax. lockblind_tac. Qed.

#[export] Hint Resolve lockBlind_countSearchMax : lockblind.

Lemma lockBlind_setIntEsi sess P l : lockBlind (setIntEsi sess P l).
Proof. unfold setIntEsi. lockblind_tac. Qed.

Lemma lockBlind_stageDeviceCount sess c : lockBlind (stageDeviceCount sess c).
Proof. unfold stageDeviceCount. lockblind_tac. Qed.

Lemma lockBlind_addNC sess i : lockBlind (addInterfacePhysicalNC sess i).
Proof. unfold addInterfacePhysicalNC. lockblind_tac. Qed.

Lemma lockBlind_delNC sess d : lockBlind (delInterfaceNC sess d).
Proof. unfold delInterfaceNC. lockblind_tac. Qed.

Lemma lockBlind_delOpts sess d : lockBlind (delInterfacePhysicalOpts sess d).
Proof. unfold delInterfacePhysicalOpts. lockblind_tac. Qed.

#[export] Hint Resolve lockBlind_setIntEsi lockBlind_stageDeviceCount lockBlind_addNC
  lockBlind_delNC lockBlind_delOpts : lockblind.

Lemma lockBlind_setInterfacePhysical sess d : lockBlind (setInterfacePhysical sess d).
Proof. unfold setInterfacePhysical. lockblind_tac. Qed.

Lemma lockBlind_delInterfacePhysical sess d : lockBlind (delInterfacePhysical sess d).
Proof. unfold delInterfacePhysical. lockblind_tac. Qed.

Lemma lockBlind_readW sess d : lockBlind (resourceInterfacePhysicalReadWJnprSess sess d).
Proof. unfold resourceInterfacePhysicalReadWJnprSess. lockblind_tac. Qed.

#[export] Hint Resolve lockBlind_setInterfacePhysical lockBlind_delInterfacePhysical
  lockBlind_readW : lockblind.

Lemma sameButLocks_configLock sess reply j :
  sameButLocks (snd (configLock (withLockReply sess reply) j)) (snd (configLock sess j)).
Proof.
  unfold configLock, sameButLocks. cbn [withLockReply configLockReply].
  destruct (reply (tick j)), (configLockReply sess (tick j)); cbn; auto 10.
Qed.

(** After a lock whose outcome is not looked at, a step that is blind to
    the locks ends the same whatever the lock answered. *)
Lemma lock_ignored {A} sess reply (k : St A) j :
  lockBlind k ->
  fst ((configLock (withLockReply sess reply) ;;; k) j)
  = fst ((configLock sess ;;; k) j)
  /\ sameButLocks (snd ((configLock (withLockReply sess reply) ;;; k) j))
       (snd ((configLock sess ;;; k) j)).
Proof.
  intros Hk. unfold bind.
  pose proof (sameButLocks_configLock sess reply j) as H.
  destruct (configLock (withLockReply sess reply) j) as [l1 j1].
  destruct (configLock sess j) as [l2 j2]. cbn [snd] in H.
  apply Hk, H.
Qed.

Lemma sameButLocks_refl j : sameButLocks j j.
Proof. unfold sameButLocks. auto 10. Qed.

(** An operation that opens a session, locks without looking at the
    outcome and goes on with a step that is blind to the locks. *)
Lemma operation_lock_ignored {A} sess reply (fail : error -> A) (k : St A) j :
  lockBlind k ->
  fst ((s <- startNewSession (withLockReply sess reply) ;;
        match s with
        | Some err => ret (fail err)
        | None => configLock (withLockReply sess reply) ;;; k
        end) j)
  = fst ((s <- startNewSession sess ;;
          match s with
          | Some err => ret (fail err)
          | None => configLock sess ;;; k
          end) j)
  /\ sameButLocks
       (snd ((s <- startNewSession (withLockReply sess reply) ;;
              match s with
              | Some err => ret (fail err)
              | None => configLock (withLockReply sess reply) ;;; k
              end) j))
       (snd ((s <- startNewSession sess ;;
              match s with
              | Some err => ret (fail err)
              | None => configLock sess ;;; k
              end) j)).
Proof.
  intros Hk. unfold bind at 1 3 5 7.
  change (startNewSession (withLockReply sess reply) j) with (startNewSession sess j).
  destruct (startNewSession sess j) as [[err|] j0].
  - split; [reflexivity|apply sameButLocks_refl].
  - apply lock_ignored, Hk.
Qed.

(** X19.  The three mutating operations of the interface do not look at
    the outcome of the lock of the configuration: on two devices that
    differ only by what they answer to the lock, each operation returns
    the same diagnostics and leaves the same staged statements, commits,
    discards and identifier, so that a lock that fails does not stop
    them. *)
Theorem interface_operations_ignore_the_lock
  (sess : Session) (reply : nat -> option error) (d : InterfaceData)
  (j : NetconfObject) :
  (fst (resourceInterfacePhysicalCreate (withLockReply sess reply) d j)
   = fst (resourceInterfacePhysicalCreate sess d j)
   /\ sameButLocks (snd (resourceInterfacePhysicalCreate (withLockReply sess reply) d j))
        (snd (resourceInterfacePhysicalCreate sess d j)))
  /\ (fst (resourceInterfacePhysicalUpdate (withLockReply sess reply) d j)
      = fst (resourceInterfacePhysicalUpdate sess d j)
      /\ sameButLocks
           (snd (resourceInterfacePhysicalUpdate (withLockReply sess reply) d j))
           (snd (resourceInterfacePhysicalUpdate sess d j)))
  /\ (fst (resourceInterfacePhysicalDelete (withLockReply sess reply) d j)
      = fst (resourceInterfacePhysicalDelete sess d j)
      /\ sameButLocks
           (snd (resourceInterfacePhysicalDelete (withLockReply sess reply) d j))
           (snd (resourceInterfacePhysicalDelete sess d j))).
Proof.
  split; [|split].
  - unfold resourceInterfacePhysicalCreate.
    refine (operation_lock_ignored sess reply FromErr _ j _). lockblind_tac.
  - unfold resourceInterfacePhysicalUpdate.
    refine (operation_lock_ignored sess reply FromErr _ j _). lockblind_tac.
  - unfold resourceInterfacePhysicalDelete.
    refine (operation_lock_ignored sess reply FromErr _ j _). lockblind_tac.
Qed.

(** X20.  The three mutating operations of the UTM policy, unlike those
    of the interface, stop when the lock of the configuration fails: the
    error of the lock is returned after the two calls that open the
    session and ask for the lock; no query is sent, nothing is staged,
    committed or discarded. *)
Theorem utm_operations_stop_at_failed_lock
  (sess : Session) (d : UtmData) (j : NetconfObject) (e : error) :
  startNewSessionReply sess (tick j) = None ->
  configLockReply sess (S (tick j)) = Some e ->
  (compatibleSecurity sess = true ->
   resourceSecurityUtmPolicyCreate sess d j = (Some e, nextTick (nextTick j)))
  /\ resourceSecurityUtmPolicyUpdate sess d j = (Some e, nextTick (nextTick j))
  /\ resourceSecurityUtmPolicyDelete sess d j = (Some e, nextTick (nextTick j)).
Proof.
  intros Hs Hl.
  assert (L : configLock sess (nextTick j) = (Some e, nextTick (nextTick j))).
  { unfold configLock. cbn [tick nextTick]. rewrite Hl. reflexivity. }
  split; [|split].
  - intros Hc. unfold resourceSecurityUtmPolicyCreate, bind.
    unfold startNewSession at 1. rewrite Hs, Hc. cbn [negb]. rewrite L. reflexivity.
  - unfold resourceSecurityUtmPolicyUpdate, bind.
    unfold startNewSession at 1. rewrite Hs, L. reflexivity.
  - unfold resourceSecurityUtmPolicyDelete, bind.
    unfold startNewSession at 1. rewrite Hs, L. reflexivity.
Qed.

Lemma utm_operations_stop_at_failed_lock_witness :
  resourceSecurityUtmPolicyUpdate (sessionLocked "") samplePolicy newNetconf
  = (Some (ErrTransport "configuration database locked"),
     nextTick (nextTick newNetconf))
  /\ HasError (fst (resourceInterfacePhysicalUpdate (sessionLocked "")
                      sampleTrunk newNetconf)) = false.
Proof.
  split; [|vm_compute; reflexivity].
  apply (proj1 (proj2 (utm_operations_stop_at_failed_lock (sessionLocked "")
                         samplePolicy newNetconf
                         (ErrTransport "configuration database locked")
                         eq_refl eq_refl))).
Defined.

(** ** Reading a policy that is gone *)

Lemma readUtmItem_name c itemTrim c' :
  readUtmItem c itemTrim = Ok c' -> name c' = name c.
Proof.
  unfold readUtmItem.
  destruct (HasPrefix itemTrim "anti-spam smtp-profile "); [intros [= <-]; reflexivity|].
  destruct (HasPrefix itemTrim "anti-virus "); [intros [= <-]; reflexivity|].
  destruct (HasPrefix itemTrim "content-filtering "); [intros [= <-]; reflexivity|].
  destruct (HasPrefix itemTrim "traffic-options sessions-per-client ").
  { destruct (touchTraffic (trafficSessionsPerClient c)) as [m tl].
    destruct (HasPrefix itemTrim "traffic-options sessions-per-client limit ");
      [destruct (Atoi _); [|discriminate]|];
      destruct (HasPrefix itemTrim "traffic-options sessions-per-client over-limit ");
      intros [= <-]; reflexivity. }
  destruct (HasPrefix itemTrim "web-filtering http-profile ");
    intros [= <-]; reflexivity.
Qed.

Lemma readUtmLines_name items : forall c c',
  readUtmLines c items = Ok c' -> name c' = name c.
Proof.
  induction items as [|item rest IH]; intros c c'; cbn [readUtmLines].
  - intros [= <-]. reflexivity.
  - destruct (Contains item "<configuration-output>"); [apply IH|].
    destruct (Contains item "</configuration-output>"); [intros [= <-]; reflexivity|].
    destruct (readUtmItem c _) as [c1|] eqn:E; [|discriminate].
    intros H. rewrite (IH _ _ H). eapply readUtmItem_name, E.
Qed.

Lemma readUtmText_name policy text o :
  readUtmText policy text = Ok o ->
  name o = if String.eqb text emptyWord then "" else policy.
Proof.
  unfold readUtmText. destruct (String.eqb text emptyWord); cbn [negb].
  - intros [= <-]. reflexivity.
  - intros H. apply readUtmLines_name in H. exact H.
Qed.

(** X21.  The read of a UTM policy with a name that is not empty drops
    the resource from the state (the identifier is set to the empty
    string) exactly when the device answers the dump of the policy with
    the empty-dump sentinel; on any other dump that it can decode, the
    identifier is left as it was.  In both cases no error is returned. *)
Theorem utm_read_drops_the_resource_on_the_sentinel
  (sess : Session) (d : UtmData) (j : NetconfObject) (policyConfig : string) :
  u_name d <> "" ->
  startNewSessionReply sess (tick j) = None ->
  commandReply sess (S (tick j)) (showUtmPolicyRelative (u_name d)) = Ok policyConfig ->
  isErr (readUtmText (u_name d) policyConfig) = false ->
  fst (resourceSecurityUtmPolicyRead sess d j) = None
  /\ resourceId (snd (resourceSecurityUtmPolicyRead sess d j))
     = if String.eqb policyConfig emptyWord then Some "" else resourceId j.
Proof.
  intros Hn Hs Hc Hr.
  destruct (resourceSecurityUtmPolicyRead sess d j) as [r jf] eqn:E0. cbn [fst snd].
  unfold resourceSecurityUtmPolicyRead, bind in E0. unfold startNewSession at 1 in E0.
  rewrite Hs in E0. unfold readUtmPolicy, bind, command in E0.
  cbn [tick nextTick] in E0. rewrite Hc in E0. cbn [ret] in E0.
  destruct (readUtmText (u_name d) policyConfig) as [o|e] eqn:E; [|discriminate Hr].
  rewrite (readUtmText_name _ _ _ E) in E0.
  destruct (String.eqb policyConfig emptyWord).
  - cbn in E0. injection E0 as <- <-. cbn. auto.
  - destruct (String.eqb (u_name d) "") eqn:En;
      [apply String.eqb_eq in En; contradiction|].
    cbn in E0. injection E0 as <- <-. cbn. auto.
Qed.

Lemma utm_read_drops_the_resource_on_the_sentinel_witness :
  resourceId (snd (resourceSecurityUtmPolicyRead (sessionShowing emptyWord)
                     samplePolicy newNetconf)) = Some ""
  /\ resourceId (snd (resourceSecurityUtmPolicyRead (sessionShowing "set anti-spam")
                        samplePolicy newNetconf)) = None.
Proof.
  split.
  - apply (proj2 (utm_read_drops_the_resource_on_the_sentinel
                    (sessionShowing emptyWord) samplePolicy newNetconf emptyWord
                    ltac:(discriminate) eq_refl eq_refl eq_refl)).
  - apply (proj2 (utm_read_drops_the_resource_on_the_sentinel
                    (sessionShowing "set anti-spam") samplePolicy newNetconf
                    "set anti-spam" ltac:(discriminate) eq_refl eq_refl eq_refl)).
Defined.

(** ** Refusals of the creation of a policy *)

(** X22.  The creation of a UTM policy is refused on a device that is
    not a security platform, with an error that names the model, right
    after the session is opened: no lock, no query, no edit.  On a
    security platform that shows the policy (any dump but the sentinel),
    it is refused with the already-exists error: nothing is staged or
    committed and the pending edits are discarded once. *)
Theorem utm_create_refusals
  (sess : Session) (d : UtmData) (j : NetconfObject) :
  startNewSessionReply sess (tick j) = None ->
  (compatibleSecurity sess = false ->
   resourceSecurityUtmPolicyCreate sess d j
   = (Some (ErrMsg ("security utm utm-policy not compatible with Junos device "
                    ++ platformModel sess)),
      nextTick j))
  /\ (forall policyConfig,
        compatibleSecurity sess = true ->
        configLockReply sess (S (tick j)) = None ->
        commandReply sess (S (S (tick j))) (showUtmPolicy (u_name d)) = Ok policyConfig ->
        policyConfig <> emptyWord ->
        fst (resourceSecurityUtmPolicyCreate sess d j)
        = Some (ErrMsg ("security utm utm-policy " ++ u_name d ++ " already exists"))
        /\ staged (snd (resourceSecurityUtmPolicyCreate sess d j)) = []
        /\ commits (snd (resourceSecurityUtmPolicyCreate sess d j)) = commits j
        /\ discards (snd (resourceSecurityUtmPolicyCreate sess d j)) = S (discards j)).
Proof.
  intros Hs. split.
  - intros Hc. unfold resourceSecurityUtmPolicyCreate, bind.
    unfold startNewSession at 1. rewrite Hs, Hc. reflexivity.
  - intros policyConfig Hc Hl Hq Hne.
    destruct (resourceSecurityUtmPolicyCreate sess d j) as [r jf] eqn:E0.
    cbn [fst snd].
    unfold resourceSecurityUtmPolicyCreate, bind in E0.
    unfold startNewSession at 1 in E0. rewrite Hs, Hc in E0. cbn [negb] in E0.
    unfold configLock at 1 in E0. cbn [tick nextTick] in E0. rewrite Hl in E0.
    unfold checkUtmPolicysExists at 1 in E0. unfold bind, command in E0.
    cbn [tick] in E0. rewrite Hq in E0. cbn [ret] in E0.
    destruct (String.eqb policyConfig emptyWord) eqn:E;
      [apply String.eqb_eq in E; contradiction|].
    cbn in E0. injection E0 as <- <-. cbn. auto.
Qed.

Lemma utm_create_refusals_witness :
  resourceSecurityUtmPolicyCreate (sessionNotSecurity "EX4300") samplePolicy newNetconf
  = (Some (ErrMsg ("security utm utm-policy not compatible with Junos device "
                   ++ "EX4300")),
     nextTick newNetconf)
  /\ fst (resourceSecurityUtmPolicyCreate (sessionShowing "set anti-spam")
            samplePolicy newNetconf)
     = Some (ErrMsg ("security utm utm-policy " ++ "p1" ++ " already exists")).
Proof.
  split.
  - apply (proj1 (utm_create_refusals (sessionNotSecurity "EX4300") samplePolicy
                    newNetconf eq_refl)).
    reflexivity.
  - apply (proj2 (utm_create_refusals (sessionShowing "set anti-spam") samplePolicy
                    newNetconf eq_refl) "set anti-spam");
      [reflexivity|reflexivity|reflexivity|discriminate].
Defined.

(** ** Import *)




(** ** A binding that names no index *)

(** X24.  The schema lets through every binding that begins with ae;
    when what follows is not an integer, [setInterfacePhysical] on a
    port fails with the conversion error of the count search, which
    names the binding, before any query: the esi statements, staged by
    their own call, are all that it leaves staged, and the statements of
    the port itself are not sent. *)
Theorem binding_without_index_fails_after_esi
  (sess : Session) (d : InterfaceData) (j : NetconfObject) (h : list string)
  (e : error) :
  HasPrefix (d_name d) "ae" = false ->
  d_ether802_3ad d <> "" ->
  Atoi (TrimPrefix (d_ether802_3ad d) "ae") = Err e ->
  physicalConfigSetHead d = Ok h ->
  configSetReply sess (tick j)
    (esiConfigSet ("set interfaces " ++ d_name d ++ " ") (d_esi d)) = None ->
  fst (setInterfacePhysical sess d j)
  = Some (ErrWrap ("failed to convert ae interaface '" ++ d_ether802_3ad d
                   ++ "' to integer : ") e)
  /\ staged (snd (setInterfacePhysical sess d j))
     = app (staged j) (esiConfigSet ("set interfaces " ++ d_name d ++ " ") (d_esi d))
  /\ tick (snd (setInterfacePhysical sess d j)) = S (tick j).
Proof.
  intros Hae Hne Ha Hh Hset.
  destruct (setInterfacePhysical sess d j) as [r jf] eqn:E. cbn [fst snd].
  unfold setInterfacePhysical in E. rewrite Hh, Hae in E.
  unfold bind, setIntEsi in E. unfold configSet at 1 in E. rewrite Hset in E.
  destruct (String.eqb (d_ether802_3ad d) "") eqn:Ee;
    [apply String.eqb_eq in Ee; contradiction|].
  cbn [negb] in E. unfold interfaceAggregatedCountSearchMax in E.
  rewrite Ha in E. cbn [ret] in E. injection E as <- <-. cbn. auto.
Qed.

Lemma binding_without_index_fails_after_esi_witness :
  ether802_3adValidateFails "aeX" = false
  /\ fst (setInterfacePhysical (sessionShowing "") samplePortBadBinding newNetconf)
     = Some (ErrWrap ("failed to convert ae interaface '" ++ "aeX"
                      ++ "' to integer : ") (ErrNum "Atoi" "X" ErrSyntax))
  /\ staged (snd (setInterfacePhysical (sessionShowing "") samplePortBadBinding
                    newNetconf))
     = ["set interfaces ge-0/0/6 esi all-active"].
Proof.
  split; [reflexivity|].
  destruct (binding_without_index_fails_after_esi (sessionShowing "")
              samplePortBadBinding newNetconf ["set interfaces ge-0/0/6 "]
              (ErrNum "Atoi" "X" ErrSyntax)
              eq_refl ltac:(discriminate) eq_refl eq_refl eq_refl)
    as (E & S & _).
  split; [exact E|exact S].
Defined.

(** ** Reading an interface that is parked or gone *)

(** X25.  The read of an interface with its session drops the resource
    from the state (the identifier is set to the empty string), without
    an error, when the device shows the interface as NotConfigured, and
    when it shows it Empty and answers that it does not know the
    interface; when the device shows the interface as Present, the
    identifier is left as it was and the read reports an error exactly
    when the decoder fails on the dump it is given. *)
Theorem interface_read_drops_parked_or_missing
  (sess : Session) (d : InterfaceData) (j : NetconfObject) (intConfig : string) :
  commandReply sess (tick j) (showInterface (d_name d)) = Ok intConfig ->
  (fst (classifyDump (junosGroupIntDel sess) intConfig) = true ->
   fst (resourceInterfacePhysicalReadWJnprSess sess d j) = []
   /\ resourceId (snd (resourceInterfacePhysicalReadWJnprSess sess d j)) = Some "")
  /\ (forall reply,
        classifyDump (junosGroupIntDel sess) intConfig = (false, true) ->
        commandXMLReply sess (S (tick j)) (rpcInterfaceInformation (d_name d))
        = Ok reply ->
        Contains reply (" not found" ++ String LF "") = true ->
        fst (resourceInterfacePhysicalReadWJnprSess sess d j) = []
        /\ resourceId (snd (resourceInterfacePhysicalReadWJnprSess sess d j)) = Some "")
  /\ (forall text,
        classifyDump (junosGroupIntDel sess) intConfig = (false, false) ->
        commandReply sess (S (tick j)) (showInterface (d_name d)) = Ok text ->
        HasError (fst (resourceInterfacePhysicalReadWJnprSess sess d j))
        = isErr (readInterfaceText text)
        /\ resourceId (snd (resourceInterfacePhysicalReadWJnprSess sess d j))
           = resourceId j).
Proof.
  intros Hc.
  destruct (resourceInterfacePhysicalReadWJnprSess sess d j) as [r jf] eqn:E.
  cbn [fst snd].
  unfold resourceInterfacePhysicalReadWJnprSess, bind in E.
  unfold checkInterfacePhysicalNCEmpty, bind, command in E. rewrite Hc in E.
  cbn [ret] in E. fold (classifyDump (junosGroupIntDel sess) intConfig) in E.
  split; [|split].
  - intros Hcl.
    destruct (classifyDump (junosGroupIntDel sess) intConfig) as [nc em].
    cbn [fst] in Hcl. subst nc. cbn in E. injection E as <- <-. cbn. auto.
  - intros reply Hcl Hx Hnf. rewrite Hcl in E.
    unfold checkInterfaceExists, bind, commandXML in E.
    fold (rpcInterfaceInformation (d_name d)) in E.
    cbn [tick nextTick] in E. rewrite Hx in E. cbn [ret] in E.
    rewrite Hnf in E. cbn in E. injection E as <- <-. cbn. auto.
  - intros text Hcl Ht. rewrite Hcl in E. cbn [ret negb] in E.
    unfold readInterfacePhysical, bind, command in E.
    cbn [tick nextTick] in E. rewrite Ht in E. cbn [ret] in E.
    destruct (readInterfaceText text); injection E as <- <-; cbn; auto.
Qed.

Lemma interface_read_drops_parked_or_missing_witness :
  resourceId (snd (resourceInterfacePhysicalReadWJnprSess (sessionShowing confParked)
                     sampleTrunk newNetconf)) = Some ""
  /\ resourceId (snd (resourceInterfacePhysicalReadWJnprSess
                        (sessionMissingInterface emptyWord) sampleTrunk newNetconf))
     = Some "".
Proof.
  split.
  - apply (proj1 (interface_read_drops_parked_or_missing (sessionShowing confParked)
                    sampleTrunk newNetconf confParked eq_refl)).
    reflexivity.
  - apply (proj1 (proj2 (interface_read_drops_parked_or_missing
                           (sessionMissingInterface emptyWord) sampleTrunk newNetconf
                           emptyWord eq_refl))
             ("error: device ge-0/0/9 not found" ++ String LF ""));
      reflexivity.
Defined.

(** ** The frame of a dump *)

Lemma readUtmLines_closing m b a : forall c,
  Contains m "<configuration-output>" = false ->
  Contains m "</configuration-output>" = true ->
  readUtmLines c (app a (m :: b)) = readUtmLines c a.
Proof.
  intros c Ho Hc. revert c.
  induction a as [|x a IH]; intros c; cbn [app readUtmLines].
  - rewrite Ho, Hc. reflexivity.
  - destruct (Contains x "<configuration-output>"); [apply IH|].
    destruct (Contains x "</configuration-output>"); [reflexivity|].
    destruct (readUtmItem c _); [apply IH|reflexivity].
Qed.

Lemma readInterfaceLines_closing m b a : forall c,
  Contains m " unit " && negb (Contains m "ethernet-switching") = false ->
  Contains m "<configuration-output>" = false ->
  Contains m "</configuration-output>" = true ->
  readInterfaceLines c (app a (m :: b)) = readInterfaceLines c a.
Proof.
  intros c Hu Ho Hc. revert c.
  induction a as [|x a IH]; intros c; cbn [app readInterfaceLines].
  - rewrite Hu, Ho, Hc. reflexivity.
  - destruct (Contains x " unit " && negb (Contains x "ethernet-switching"));
      [apply IH|].
    destruct (Contains x "<configuration-output>"); [apply IH|].
    destruct (Contains x "</configuration-output>"); [reflexivity|].
    destruct (readInterfaceItem c _); [apply IH|reflexivity].
Qed.

Lemma containsUnitLines_closing m b a :
  Contains m "<configuration-output>" = false ->
  Contains m "</configuration-output>" = true ->
  containsUnitLines (app a (m :: b)) = containsUnitLines a.
Proof.
  intros Ho Hc. induction a as [|x a IH]; cbn [app containsUnitLines].
  - rewrite Ho, Hc. reflexivity.
  - rewrite IH. reflexivity.
Qed.

Lemma intConfigLines_closing m b a :
  sonUnitLine m = false ->
  Contains m "<configuration-output>" = false ->
  Contains m "</configuration-output>" = true ->
  intConfigLines (app a (m :: b)) = intConfigLines a.
Proof.
  intros Hu Ho Hc. unfold sonUnitLine in Hu.
  induction a as [|x a IH]; cbn [app intConfigLines].
  - rewrite Hu, Ho, Hc. reflexivity.
  - rewrite IH. reflexivity.
Qed.

(** X26.  The four loops over the lines of a dump (the two decoders, the
    check of the units and the classifier) read nothing after the line
    that closes the frame: with a line that holds the closing marker and
    not the opening one (and that the loop does not first skip as a unit
    statement), the result is that of the lines before it, whatever
    follows.  A line that holds the opening marker is skipped even when
    it holds the closing marker too: it does not end the dump. *)
Theorem dump_is_read_up_to_the_closing_marker (m : string) (a b : list string) :
  (Contains m "<configuration-output>" = false ->
   Contains m "</configuration-output>" = true ->
   (forall c, readUtmLines c (app a (m :: b)) = readUtmLines c a)
   /\ containsUnitLines (app a (m :: b)) = containsUnitLines a
   /\ (Contains m " unit " && negb (Contains m "ethernet-switching") = false ->
       forall c, readInterfaceLines c (app a (m :: b)) = readInterfaceLines c a)
   /\ (sonUnitLine m = false ->
       intConfigLines (app a (m :: b)) = intConfigLines a))
  /\ (Contains m "<configuration-output>" = true ->
      (forall c, readUtmLines c (m :: b) = readUtmLines c b)
      /\ containsUnitLines (m :: b) = containsUnitLines b
      /\ (forall c, readInterfaceLines c (m :: b) = readInterfaceLines c b)
      /\ intConfigLines (m :: b) = intConfigLines b).
Proof.
  split.
  - intros Ho Hc. split; [|split; [|split]].
    + intros c. apply readUtmLines_closing; assumption.
    + apply containsUnitLines_closing; assumption.
    + intros Hu c. apply readInterfaceLines_closing; assumption.
    + intros Hu. apply intConfigLines_closing; assumption.
  - intros Ho. split; [|split; [|split]].
    + intros c. cbn [readUtmLines]. rewrite Ho. reflexivity.
    + cbn [containsUnitLines]. rewrite Ho. reflexivity.
    + intros c. cbn [readInterfaceLines]. rewrite Ho.
      destruct (Contains m " unit " && negb (Contains m "ethernet-switching"));
        reflexivity.
    + cbn [intConfigLines]. rewrite Ho.
      destruct (HasPrefix m "set unit" && negb (Contains m "ethernet-switching"));
        reflexivity.
Qed.

Lemma dump_is_read_up_to_the_closing_marker_witness :
  readInterfaceLines zeroInterfaceOptions
    (app ["set vlan-tagging"] ("</configuration-output>" :: ["set native-vlan-id x"]))
  = readInterfaceLines zeroInterfaceOptions ["set vlan-tagging"]
  /\ containsUnitLines ("<configuration-output></configuration-output>"
                        :: ["set unit 0 family inet"])
     = containsUnitLines ["set unit 0 family inet"].
Proof.
  split.
  - apply (proj1 (dump_is_read_up_to_the_closing_marker "</configuration-output>"
                    ["set vlan-tagging"] ["set native-vlan-id x"]));
      reflexivity.
  - apply (proj2 (dump_is_read_up_to_the_closing_marker
                    "<configuration-output></configuration-output>"
                    [] ["set unit 0 family inet"])).
    reflexivity.
Defined.

(** ** A description that holds the word unit *)

Lemma Contains_split v s :
  Contains v s = true -> exists x y, v = x ++ s ++ y.
Proof.
  induction v as [|c v IH]; rewrite Contains_unfold; intros H;
    apply orb_true_iff in H as [H|H].
  - unfold HasPrefix in H. destruct (cutPrefix s "") as [r|] eqn:E; [|discriminate H].
    apply cutPrefix_Some in E. exists "", r. exact E.
  - discriminate H.
  - unfold HasPrefix in H.
    destruct (cutPrefix s (String c v)) as [r|] eqn:E; [|discriminate H].
    apply cutPrefix_Some in E. exists "", r. exact E.
  - destruct (IH H) as (x & y & ->). exists (String c x), y. reflexivity.
Qed.

Lemma Contains_app_mid a v b s : Contains v s = true -> Contains (a ++ v ++ b) s = true.
Proof.
  intros H. destruct (Contains_split _ _ H) as (x & y & ->).
  replace (a ++ (x ++ s ++ y) ++ b) with ((a ++ x) ++ s ++ (y ++ b))
    by (rewrite !append_assoc_s; reflexivity).
  apply Contains_refl_app.
Qed.

Lemma cutPrefix_app_quote p : forall v,
  noByte quote p = true -> p <> "" ->
  cutPrefix p v = None -> cutPrefix p (v ++ dq) = None.
Proof.
  induction p as [|a p IH]; intros v Hq Hne H; [contradiction|].
  cbn [noByte] in Hq. apply andb_true_iff in Hq as [Ha Hq].
  destruct v as [|y v]; cbn [String.append cutPrefix dq] in *.
  - apply negb_true_iff in Ha. rewrite Ha. reflexivity.
  - destruct (Ascii.eqb a y); [|reflexivity].
    destruct p as [|a' p']; [discriminate H|].
    apply IH; [exact Hq|discriminate|exact H].
Qed.

Lemma Contains_app_quote v :
  Contains v "ethernet-switching" = false ->
  Contains (v ++ dq) "ethernet-switching" = false.
Proof.
  induction v as [|x v IH]; intros H; [reflexivity|].
  rewrite Contains_unfold in H. apply orb_false_iff in H as [Hp Hc].
  cbn [String.append]. rewrite Contains_unfold. apply orb_false_iff.
  split; [|exact (IH Hc)].
  unfold HasPrefix in *.
  destruct (cutPrefix "ethernet-switching" (String x v)) eqn:E; [discriminate Hp|].
  change (String x (v ++ dq)) with (String x v ++ dq).
  rewrite (cutPrefix_app_quote "ethernet-switching" (String x v));
    [reflexivity|reflexivity|discriminate|exact E].
Qed.

(** X27.  The decoder of the interface skips every line that holds the
    word unit between blanks and does not hold ethernet-switching,
    before it looks at what the line sets: the line of a description
    with such a word is skipped like the statements of the logical
    units, so the description is not read and the decoded options keep
    the description they had. *)
Theorem description_with_unit_is_not_read
  (c : interfacePhysicalOptions) (v : string) (rest : list string) :
  Contains v " unit " = true ->
  Contains v "ethernet-switching" = false ->
  readInterfaceLines c ((setLineStart ++ "description " ++ quoted v) :: rest)
  = readInterfaceLines c rest
  /\ (readInterfaceLines c [setLineStart ++ "description " ++ quoted v] = Ok c).
Proof.
  intros Hu He.
  assert (H1 : Contains (setLineStart ++ "description " ++ quoted v) " unit " = true).
  { unfold quoted.
    replace (setLineStart ++ "description " ++ dq ++ v ++ dq)
      with ((setLineStart ++ "description " ++ dq) ++ v ++ dq)
      by (rewrite !append_assoc_s; reflexivity).
    apply Contains_app_mid, Hu. }
  assert (H2 : Contains (setLineStart ++ "description " ++ quoted v)
                 "ethernet-switching" = false).
  { unfold quoted, setLineStart.
    pose proof (Contains_app_quote v He) as Hq.
    repeat (rewrite Contains_unfold; cbn [String.append];
            match goal with
            | |- HasPrefix ?s ?p || _ = false =>
                change (HasPrefix s p) with false; cbn [orb]
            end).
    exact Hq. }
  split; cbn [readInterfaceLines]; rewrite H1, H2; reflexivity.
Qed.

Lemma description_with_unit_is_not_read_witness :
  readInterfaceLines zeroInterfaceOptions
    [setLineStart ++ "description " ++ quoted "to unit 5 of core"]
  = Ok zeroInterfaceOptions.
Proof.
  apply (proj2 (description_with_unit_is_not_read zeroInterfaceOptions
                  "to unit 5 of core" [] eq_refl eq_refl)).
Defined.
